(** * x-scraper: the crawl-and-extract loop of [main.py]

    A shallow embedding of [convert_to_int], [parse_post], [save_data],
    [setup_driver] and [scrape_buzzed_posts], and the properties that were
    checked against them.

    Conventions of the embedding.
    - A Python [str] is the list of its code points ([pystr]).  The
      character classes of the built-ins ([str.strip], [str.isdigit],
      [str.upper], the regular expression class [\D], [float], [int]) are
      those of CPython 3.11, whose tables are Unicode 14.0.0; [int]
      refuses more than 4300 digits, as CPython does since 3.11.
    - A Python [float] is an IEEE-754 binary64 value, as [spec_float]
      with [prec = 53] and [emax = 1024]; decimal text is rounded to
      nearest-even exactly once.
    - A call that may raise returns a [result]; [try]/[except] is
      [catch].
    - The browser is the environment: what each driver call answers is
      an input of the model. *)

From Stdlib Require Import ZArith NArith List Bool Lia SpecFloat Ascii String
  DecimalString.
From stdpp Require Import base gmap list.
Import ListNotations.

Local Open Scope Z_scope.

(* ===================================================================== *)
(** ** Exceptions and results *)
(* ===================================================================== *)

Inductive exn :=
| NoSuchElementException
| StaleElementReferenceException
| WebDriverException        (* any other failure of the driver *)
| ValueError
| OverflowError
| TypeError
| IndexError
| UnicodeEncodeError.       (* a [ValueError], by inheritance *)

Inductive result (A : Type) :=
| Ok (a : A)
| Raise (e : exn).
Arguments Ok {A} a.
Arguments Raise {A} e.

#[global] Instance result_ret : MRet result := fun A a => Ok a.

#[global] Instance result_bind : MBind result := fun A B k r =>
  match r with
  | Ok a => k a
  | Raise e => Raise e
  end.

(** [try: body except E1, E2, ...: handler] *)
Definition catch {A} (handled : exn -> bool) (body : result A)
    (handler : exn -> result A) : result A :=
  match body with
  | Ok a => Ok a
  | Raise e => if handled e then handler e else Raise e
  end.

Definition is_ValueError (e : exn) : bool :=
  match e with ValueError | UnicodeEncodeError => true | _ => false end.

Definition is_NoSuchElement (e : exn) : bool :=
  match e with NoSuchElementException => true | _ => false end.

Definition is_NoSuchElement_or_IndexError (e : exn) : bool :=
  match e with NoSuchElementException | IndexError => true | _ => false end.

Definition is_NoSuchElement_or_Stale (e : exn) : bool :=
  match e with
  | NoSuchElementException | StaleElementReferenceException => true
  | _ => false
  end.

(* ===================================================================== *)
(** ** Python strings *)
(* ===================================================================== *)

Module PyStr.

Definition pystr := list N.

(** The text of an ASCII literal. *)
Definition lit (s : string) : pystr :=
  map N_of_ascii (list_ascii_of_string s).

Definition c_comma : N := 44.       (* ',' *)
Definition c_dot : N := 46.         (* '.' *)
Definition c_plus : N := 43.        (* '+' *)
Definition c_minus : N := 45.       (* '-' *)
Definition c_underscore : N := 95.  (* '_' *)
Definition c_at : N := 64.          (* '@' *)
Definition c_hash : N := 35.        (* '#' *)
Definition c_bar : N := 124.        (* '|' *)
Definition c_E : N := 69.           (* 'E' *)
Definition c_e : N := 101.          (* 'e' *)
Definition c_K : N := 75.           (* 'K' *)
Definition c_M : N := 77.           (* 'M' *)
Definition c_man : N := 19975.      (* U+4E07, the myriad sign *)

(** *** Character classes *)

(** [str.isspace] of one character: the table [str.strip()] uses. *)
Definition is_space (c : N) : bool :=
  ((9 <=? c) && (c <=? 13) || (28 <=? c) && (c <=? 32)
   || (c =? 133) || (c =? 160) || (c =? 5760)
   || (8192 <=? c) && (c <=? 8202)
   || (c =? 8232) || (c =? 8233) || (c =? 8239) || (c =? 8287)
   || (c =? 12288))%N.

(** The white space of the C locale ([Py_ISSPACE]), which [float] and
    [int] skip around a number. *)
Definition is_ascii_space (c : N) : bool :=
  ((9 <=? c) && (c <=? 13) || (c =? 32))%N.

Definition is_ascii_digit (c : N) : bool := ((48 <=? c) && (c <=? 57))%N.

(** The value of an ASCII digit. *)
Definition digit_val (c : N) : Z := Z.of_N c - 48.

(** The decimal digits (class Nd) come in runs of ten, ['0'] to ['9'] of
    a script: the first code point of each run. *)
Definition decimal_blocks : list N :=
  [48; 1632; 1776; 1984; 2406; 2534; 2662; 2790; 2918; 3046; 3174; 3302;
   3430; 3558; 3664; 3792; 3872; 4160; 4240; 6112; 6160; 6470; 6608; 6784;
   6800; 6992; 7088; 7232; 7248; 42528; 43216; 43264; 43472; 43504; 43600;
   44016; 65296; 66720; 68912; 69734; 69872; 69942; 70096; 70384; 70736;
   70864; 71248; 71360; 71472; 71904; 72016; 72784; 73040; 73120; 92768;
   92864; 93008; 120782; 120792; 120802; 120812; 120822; 123200; 123632;
   125264; 130032]%N.

(** [Py_UNICODE_TODECIMAL]: the value of a decimal digit. *)
Definition decimal_value (c : N) : option N :=
  if (c <? 128)%N then
    if is_ascii_digit c then Some (c - 48)%N else None
  else
    match List.find (fun b => (b <=? c) && (c <? b + 10))%N decimal_blocks with
    | Some b => Some (c - b)%N
    | None => None
    end.

(** [str.isdecimal] of one character; the class [\d] of [re] on a
    [str]. *)
Definition is_decimal (c : N) : bool :=
  match decimal_value c with Some _ => true | None => false end.

(** The digits that are not decimal (superscripts, circled digits, ...),
    as ranges with both ends. *)
Definition other_digits : list (N * N) :=
  [(178, 179); (185, 185); (4969, 4977); (6618, 6618); (8304, 8304); (8308,
   8313); (8320, 8329); (9312, 9320); (9332, 9340); (9352, 9360); (9450,
   9450); (9461, 9469); (9471, 9471); (10102, 10110); (10112, 10120);
   (10122, 10130); (68160, 68163); (69216, 69224); (69714, 69722); (127232,
   127242)]%N.

(** [str.isdigit] of one character. *)
Definition is_digit (c : N) : bool :=
  is_decimal c
  || existsb (fun r => (fst r <=? c) && (c <=? snd r))%N other_digits.

(** *** Upper case *)

(** The characters beyond ASCII whose upper case is one other
    character. *)
Definition upper_one : list (N * N) :=
  [(181, 924); (224, 192); (225, 193); (226, 194); (227, 195); (228, 196);
   (229, 197); (230, 198); (231, 199); (232, 200); (233, 201); (234, 202);
   (235, 203); (236, 204); (237, 205); (238, 206); (239, 207); (240, 208);
   (241, 209); (242, 210); (243, 211); (244, 212); (245, 213); (246, 214);
   (248, 216); (249, 217); (250, 218); (251, 219); (252, 220); (253, 221);
   (254, 222); (255, 376); (257, 256); (259, 258); (261, 260); (263, 262);
   (265, 264); (267, 266); (269, 268); (271, 270); (273, 272); (275, 274);
   (277, 276); (279, 278); (281, 280); (283, 282); (285, 284); (287, 286);
   (289, 288); (291, 290); (293, 292); (295, 294); (297, 296); (299, 298);
   (301, 300); (303, 302); (305, 73); (307, 306); (309, 308); (311, 310);
   (314, 313); (316, 315); (318, 317); (320, 319); (322, 321); (324, 323);
   (326, 325); (328, 327); (331, 330); (333, 332); (335, 334); (337, 336);
   (339, 338); (341, 340); (343, 342); (345, 344); (347, 346); (349, 348);
   (351, 350); (353, 352); (355, 354); (357, 356); (359, 358); (361, 360);
   (363, 362); (365, 364); (367, 366); (369, 368); (371, 370); (373, 372);
   (375, 374); (378, 377); (380, 379); (382, 381); (383, 83); (384, 579);
   (387, 386); (389, 388); (392, 391); (396, 395); (402, 401); (405, 502);
   (409, 408); (410, 573); (414, 544); (417, 416); (419, 418); (421, 420);
   (424, 423); (429, 428); (432, 431); (436, 435); (438, 437); (441, 440);
   (445, 444); (447, 503); (453, 452); (454, 452); (456, 455); (457, 455);
   (459, 458); (460, 458); (462, 461); (464, 463); (466, 465); (468, 467);
   (470, 469); (472, 471); (474, 473); (476, 475); (477, 398); (479, 478);
   (481, 480); (483, 482); (485, 484); (487, 486); (489, 488); (491, 490);
   (493, 492); (495, 494); (498, 497); (499, 497); (501, 500); (505, 504);
   (507, 506); (509, 508); (511, 510); (513, 512); (515, 514); (517, 516);
   (519, 518); (521, 520); (523, 522); (525, 524); (527, 526); (529, 528);
   (531, 530); (533, 532); (535, 534); (537, 536); (539, 538); (541, 540);
   (543, 542); (547, 546); (549, 548); (551, 550); (553, 552); (555, 554);
   (557, 556); (559, 558); (561, 560); (563, 562); (572, 571); (575, 11390);
   (576, 11391); (578, 577); (583, 582); (585, 584); (587, 586); (589, 588);
   (591, 590); (592, 11375); (593, 11373); (594, 11376); (595, 385); (596,
   390); (598, 393); (599, 394); (601, 399); (603, 400); (604, 42923); (608,
   403); (609, 42924); (611, 404); (613, 42893); (614, 42922); (616, 407);
   (617, 406); (618, 42926); (619, 11362); (620, 42925); (623, 412); (625,
   11374); (626, 413); (629, 415); (637, 11364); (640, 422); (642, 42949);
   (643, 425); (647, 42929); (648, 430); (649, 580); (650, 433); (651, 434);
   (652, 581); (658, 439); (669, 42930); (670, 42928); (837, 921); (881,
   880); (883, 882); (887, 886); (891, 1021); (892, 1022); (893, 1023);
   (940, 902); (941, 904); (942, 905); (943, 906); (945, 913); (946, 914);
   (947, 915); (948, 916); (949, 917); (950, 918); (951, 919); (952, 920);
   (953, 921); (954, 922); (955, 923); (956, 924); (957, 925); (958, 926);
   (959, 927); (960, 928); (961, 929); (962, 931); (963, 931); (964, 932);
   (965, 933); (966, 934); (967, 935); (968, 936); (969, 937); (970, 938);
   (971, 939); (972, 908); (973, 910); (974, 911); (976, 914); (977, 920);
   (981, 934); (982, 928); (983, 975); (985, 984); (987, 986); (989, 988);
   (991, 990); (993, 992); (995, 994); (997, 996); (999, 998); (1001, 1000);
   (1003, 1002); (1005, 1004); (1007, 1006); (1008, 922); (1009, 929);
   (1010, 1017); (1011, 895); (1013, 917); (1016, 1015); (1019, 1018);
   (1072, 1040); (1073, 1041); (1074, 1042); (1075, 1043); (1076, 1044);
   (1077, 1045); (1078, 1046); (1079, 1047); (1080, 1048); (1081, 1049);
   (1082, 1050); (1083, 1051); (1084, 1052); (1085, 1053); (1086, 1054);
   (1087, 1055); (1088, 1056); (1089, 1057); (1090, 1058); (1091, 1059);
   (1092, 1060); (1093, 1061); (1094, 1062); (1095, 1063); (1096, 1064);
   (1097, 1065); (1098, 1066); (1099, 1067); (1100, 1068); (1101, 1069);
   (1102, 1070); (1103, 1071); (1104, 1024); (1105, 1025); (1106, 1026);
   (1107, 1027); (1108, 1028); (1109, 1029); (1110, 1030); (1111, 1031);
   (1112, 1032); (1113, 1033); (1114, 1034); (1115, 1035); (1116, 1036);
   (1117, 1037); (1118, 1038); (1119, 1039); (1121, 1120); (1123, 1122);
   (1125, 1124); (1127, 1126); (1129, 1128); (1131, 1130); (1133, 1132);
   (1135, 1134); (1137, 1136); (1139, 1138); (1141, 1140); (1143, 1142);
   (1145, 1144); (1147, 1146); (1149, 1148); (1151, 1150); (1153, 1152);
   (1163, 1162); (1165, 1164); (1167, 1166); (1169, 1168); (1171, 1170);
   (1173, 1172); (1175, 1174); (1177, 1176); (1179, 1178); (1181, 1180);
   (1183, 1182); (1185, 1184); (1187, 1186); (1189, 1188); (1191, 1190);
   (1193, 1192); (1195, 1194); (1197, 1196); (1199, 1198); (1201, 1200);
   (1203, 1202); (1205, 1204); (1207, 1206); (1209, 1208); (1211, 1210);
   (1213, 1212); (1215, 1214); (1218, 1217); (1220, 1219); (1222, 1221);
   (1224, 1223); (1226, 1225); (1228, 1227); (1230, 1229); (1231, 1216);
   (1233, 1232); (1235, 1234); (1237, 1236); (1239, 1238); (1241, 1240);
   (1243, 1242); (1245, 1244); (1247, 1246); (1249, 1248); (1251, 1250);
   (1253, 1252); (1255, 1254); (1257, 1256); (1259, 1258); (1261, 1260);
   (1263, 1262); (1265, 1264); (1267, 1266); (1269, 1268); (1271, 1270);
   (1273, 1272); (1275, 1274); (1277, 1276); (1279, 1278); (1281, 1280);
   (1283, 1282); (1285, 1284); (1287, 1286); (1289, 1288); (1291, 1290);
   (1293, 1292); (1295, 1294); (1297, 1296); (1299, 1298); (1301, 1300);
   (1303, 1302); (1305, 1304); (1307, 1306); (1309, 1308); (1311, 1310);
   (1313, 1312); (1315, 1314); (1317, 1316); (1319, 1318); (1321, 1320);
   (1323, 1322); (1325, 1324); (1327, 1326); (1377, 1329); (1378, 1330);
   (1379, 1331); (1380, 1332); (1381, 1333); (1382, 1334); (1383, 1335);
   (1384, 1336); (1385, 1337); (1386, 1338); (1387, 1339); (1388, 1340);
   (1389, 1341); (1390, 1342); (1391, 1343); (1392, 1344); (1393, 1345);
   (1394, 1346); (1395, 1347); (1396, 1348); (1397, 1349); (1398, 1350);
   (1399, 1351); (1400, 1352); (1401, 1353); (1402, 1354); (1403, 1355);
   (1404, 1356); (1405, 1357); (1406, 1358); (1407, 1359); (1408, 1360);
   (1409, 1361); (1410, 1362); (1411, 1363); (1412, 1364); (1413, 1365);
   (1414, 1366); (4304, 7312); (4305, 7313); (4306, 7314); (4307, 7315);
   (4308, 7316); (4309, 7317); (4310, 7318); (4311, 7319); (4312, 7320);
   (4313, 7321); (4314, 7322); (4315, 7323); (4316, 7324); (4317, 7325);
   (4318, 7326); (4319, 7327); (4320, 7328); (4321, 7329); (4322, 7330);
   (4323, 7331); (4324, 7332); (4325, 7333); (4326, 7334); (4327, 7335);
   (4328, 7336); (4329, 7337); (4330, 7338); (4331, 7339); (4332, 7340);
   (4333, 7341); (4334, 7342); (4335, 7343); (4336, 7344); (4337, 7345);
   (4338, 7346); (4339, 7347); (4340, 7348); (4341, 7349); (4342, 7350);
   (4343, 7351); (4344, 7352); (4345, 7353); (4346, 7354); (4349, 7357);
   (4350, 7358); (4351, 7359); (5112, 5104); (5113, 5105); (5114, 5106);
   (5115, 5107); (5116, 5108); (5117, 5109); (7296, 1042); (7297, 1044);
   (7298, 1054); (7299, 1057); (7300, 1058); (7301, 1058); (7302, 1066);
   (7303, 1122); (7304, 42570); (7545, 42877); (7549, 11363); (7566, 42950);
   (7681, 7680); (7683, 7682); (7685, 7684); (7687, 7686); (7689, 7688);
   (7691, 7690); (7693, 7692); (7695, 7694); (7697, 7696); (7699, 7698);
   (7701, 7700); (7703, 7702); (7705, 7704); (7707, 7706); (7709, 7708);
   (7711, 7710); (7713, 7712); (7715, 7714); (7717, 7716); (7719, 7718);
   (7721, 7720); (7723, 7722); (7725, 7724); (7727, 7726); (7729, 7728);
   (7731, 7730); (7733, 7732); (7735, 7734); (7737, 7736); (7739, 7738);
   (7741, 7740); (7743, 7742); (7745, 7744); (7747, 7746); (7749, 7748);
   (7751, 7750); (7753, 7752); (7755, 7754); (7757, 7756); (7759, 7758);
   (7761, 7760); (7763, 7762); (7765, 7764); (7767, 7766); (7769, 7768);
   (7771, 7770); (7773, 7772); (7775, 7774); (7777, 7776); (7779, 7778);
   (7781, 7780); (7783, 7782); (7785, 7784); (7787, 7786); (7789, 7788);
   (7791, 7790); (7793, 7792); (7795, 7794); (7797, 7796); (7799, 7798);
   (7801, 7800); (7803, 7802); (7805, 7804); (7807, 7806); (7809, 7808);
   (7811, 7810); (7813, 7812); (7815, 7814); (7817, 7816); (7819, 7818);
   (7821, 7820); (7823, 7822); (7825, 7824); (7827, 7826); (7829, 7828);
   (7835, 7776); (7841, 7840); (7843, 7842); (7845, 7844); (7847, 7846);
   (7849, 7848); (7851, 7850); (7853, 7852); (7855, 7854); (7857, 7856);
   (7859, 7858); (7861, 7860); (7863, 7862); (7865, 7864); (7867, 7866);
   (7869, 7868); (7871, 7870); (7873, 7872); (7875, 7874); (7877, 7876);
   (7879, 7878); (7881, 7880); (7883, 7882); (7885, 7884); (7887, 7886);
   (7889, 7888); (7891, 7890); (7893, 7892); (7895, 7894); (7897, 7896);
   (7899, 7898); (7901, 7900); (7903, 7902); (7905, 7904); (7907, 7906);
   (7909, 7908); (7911, 7910); (7913, 7912); (7915, 7914); (7917, 7916);
   (7919, 7918); (7921, 7920); (7923, 7922); (7925, 7924); (7927, 7926);
   (7929, 7928); (7931, 7930); (7933, 7932); (7935, 7934); (7936, 7944);
   (7937, 7945); (7938, 7946); (7939, 7947); (7940, 7948); (7941, 7949);
   (7942, 7950); (7943, 7951); (7952, 7960); (7953, 7961); (7954, 7962);
   (7955, 7963); (7956, 7964); (7957, 7965); (7968, 7976); (7969, 7977);
   (7970, 7978); (7971, 7979); (7972, 7980); (7973, 7981); (7974, 7982);
   (7975, 7983); (7984, 7992); (7985, 7993); (7986, 7994); (7987, 7995);
   (7988, 7996); (7989, 7997); (7990, 7998); (7991, 7999); (8000, 8008);
   (8001, 8009); (8002, 8010); (8003, 8011); (8004, 8012); (8005, 8013);
   (8017, 8025); (8019, 8027); (8021, 8029); (8023, 8031); (8032, 8040);
   (8033, 8041); (8034, 8042); (8035, 8043); (8036, 8044); (8037, 8045);
   (8038, 8046); (8039, 8047); (8048, 8122); (8049, 8123); (8050, 8136);
   (8051, 8137); (8052, 8138); (8053, 8139); (8054, 8154); (8055, 8155);
   (8056, 8184); (8057, 8185); (8058, 8170); (8059, 8171); (8060, 8186);
   (8061, 8187); (8112, 8120); (8113, 8121); (8126, 921); (8144, 8152);
   (8145, 8153); (8160, 8168); (8161, 8169); (8165, 8172); (8526, 8498);
   (8560, 8544); (8561, 8545); (8562, 8546); (8563, 8547); (8564, 8548);
   (8565, 8549); (8566, 8550); (8567, 8551); (8568, 8552); (8569, 8553);
   (8570, 8554); (8571, 8555); (8572, 8556); (8573, 8557); (8574, 8558);
   (8575, 8559); (8580, 8579); (9424, 9398); (9425, 9399); (9426, 9400);
   (9427, 9401); (9428, 9402); (9429, 9403); (9430, 9404); (9431, 9405);
   (9432, 9406); (9433, 9407); (9434, 9408); (9435, 9409); (9436, 9410);
   (9437, 9411); (9438, 9412); (9439, 9413); (9440, 9414); (9441, 9415);
   (9442, 9416); (9443, 9417); (9444, 9418); (9445, 9419); (9446, 9420);
   (9447, 9421); (9448, 9422); (9449, 9423); (11312, 11264); (11313, 11265);
   (11314, 11266); (11315, 11267); (11316, 11268); (11317, 11269); (11318,
   11270); (11319, 11271); (11320, 11272); (11321, 11273); (11322, 11274);
   (11323, 11275); (11324, 11276); (11325, 11277); (11326, 11278); (11327,
   11279); (11328, 11280); (11329, 11281); (11330, 11282); (11331, 11283);
   (11332, 11284); (11333, 11285); (11334, 11286); (11335, 11287); (11336,
   11288); (11337, 11289); (11338, 11290); (11339, 11291); (11340, 11292);
   (11341, 11293); (11342, 11294); (11343, 11295); (11344, 11296); (11345,
   11297); (11346, 11298); (11347, 11299); (11348, 11300); (11349, 11301);
   (11350, 11302); (11351, 11303); (11352, 11304); (11353, 11305); (11354,
   11306); (11355, 11307); (11356, 11308); (11357, 11309); (11358, 11310);
   (11359, 11311); (11361, 11360); (11365, 570); (11366, 574); (11368,
   11367); (11370, 11369); (11372, 11371); (11379, 11378); (11382, 11381);
   (11393, 11392); (11395, 11394); (11397, 11396); (11399, 11398); (11401,
   11400); (11403, 11402); (11405, 11404); (11407, 11406); (11409, 11408);
   (11411, 11410); (11413, 11412); (11415, 11414); (11417, 11416); (11419,
   11418); (11421, 11420); (11423, 11422); (11425, 11424); (11427, 11426);
   (11429, 11428); (11431, 11430); (11433, 11432); (11435, 11434); (11437,
   11436); (11439, 11438); (11441, 11440); (11443, 11442); (11445, 11444);
   (11447, 11446); (11449, 11448); (11451, 11450); (11453, 11452); (11455,
   11454); (11457, 11456); (11459, 11458); (11461, 11460); (11463, 11462);
   (11465, 11464); (11467, 11466); (11469, 11468); (11471, 11470); (11473,
   11472); (11475, 11474); (11477, 11476); (11479, 11478); (11481, 11480);
   (11483, 11482); (11485, 11484); (11487, 11486); (11489, 11488); (11491,
   11490); (11500, 11499); (11502, 11501); (11507, 11506); (11520, 4256);
   (11521, 4257); (11522, 4258); (11523, 4259); (11524, 4260); (11525,
   4261); (11526, 4262); (11527, 4263); (11528, 4264); (11529, 4265);
   (11530, 4266); (11531, 4267); (11532, 4268); (11533, 4269); (11534,
   4270); (11535, 4271); (11536, 4272); (11537, 4273); (11538, 4274);
   (11539, 4275); (11540, 4276); (11541, 4277); (11542, 4278); (11543,
   4279); (11544, 4280); (11545, 4281); (11546, 4282); (11547, 4283);
   (11548, 4284); (11549, 4285); (11550, 4286); (11551, 4287); (11552,
   4288); (11553, 4289); (11554, 4290); (11555, 4291); (11556, 4292);
   (11557, 4293); (11559, 4295); (11565, 4301); (42561, 42560); (42563,
   42562); (42565, 42564); (42567, 42566); (42569, 42568); (42571, 42570);
   (42573, 42572); (42575, 42574); (42577, 42576); (42579, 42578); (42581,
   42580); (42583, 42582); (42585, 42584); (42587, 42586); (42589, 42588);
   (42591, 42590); (42593, 42592); (42595, 42594); (42597, 42596); (42599,
   42598); (42601, 42600); (42603, 42602); (42605, 42604); (42625, 42624);
   (42627, 42626); (42629, 42628); (42631, 42630); (42633, 42632); (42635,
   42634); (42637, 42636); (42639, 42638); (42641, 42640); (42643, 42642);
   (42645, 42644); (42647, 42646); (42649, 42648); (42651, 42650); (42787,
   42786); (42789, 42788); (42791, 42790); (42793, 42792); (42795, 42794);
   (42797, 42796); (42799, 42798); (42803, 42802); (42805, 42804); (42807,
   42806); (42809, 42808); (42811, 42810); (42813, 42812); (42815, 42814);
   (42817, 42816); (42819, 42818); (42821, 42820); (42823, 42822); (42825,
   42824); (42827, 42826); (42829, 42828); (42831, 42830); (42833, 42832);
   (42835, 42834); (42837, 42836); (42839, 42838); (42841, 42840); (42843,
   42842); (42845, 42844); (42847, 42846); (42849, 42848); (42851, 42850);
   (42853, 42852); (42855, 42854); (42857, 42856); (42859, 42858); (42861,
   42860); (42863, 42862); (42874, 42873); (42876, 42875); (42879, 42878);
   (42881, 42880); (42883, 42882); (42885, 42884); (42887, 42886); (42892,
   42891); (42897, 42896); (42899, 42898); (42900, 42948); (42903, 42902);
   (42905, 42904); (42907, 42906); (42909, 42908); (42911, 42910); (42913,
   42912); (42915, 42914); (42917, 42916); (42919, 42918); (42921, 42920);
   (42933, 42932); (42935, 42934); (42937, 42936); (42939, 42938); (42941,
   42940); (42943, 42942); (42945, 42944); (42947, 42946); (42952, 42951);
   (42954, 42953); (42961, 42960); (42967, 42966); (42969, 42968); (42998,
   42997); (43859, 42931); (43888, 5024); (43889, 5025); (43890, 5026);
   (43891, 5027); (43892, 5028); (43893, 5029); (43894, 5030); (43895,
   5031); (43896, 5032); (43897, 5033); (43898, 5034); (43899, 5035);
   (43900, 5036); (43901, 5037); (43902, 5038); (43903, 5039); (43904,
   5040); (43905, 5041); (43906, 5042); (43907, 5043); (43908, 5044);
   (43909, 5045); (43910, 5046); (43911, 5047); (43912, 5048); (43913,
   5049); (43914, 5050); (43915, 5051); (43916, 5052); (43917, 5053);
   (43918, 5054); (43919, 5055); (43920, 5056); (43921, 5057); (43922,
   5058); (43923, 5059); (43924, 5060); (43925, 5061); (43926, 5062);
   (43927, 5063); (43928, 5064); (43929, 5065); (43930, 5066); (43931,
   5067); (43932, 5068); (43933, 5069); (43934, 5070); (43935, 5071);
   (43936, 5072); (43937, 5073); (43938, 5074); (43939, 5075); (43940,
   5076); (43941, 5077); (43942, 5078); (43943, 5079); (43944, 5080);
   (43945, 5081); (43946, 5082); (43947, 5083); (43948, 5084); (43949,
   5085); (43950, 5086); (43951, 5087); (43952, 5088); (43953, 5089);
   (43954, 5090); (43955, 5091); (43956, 5092); (43957, 5093); (43958,
   5094); (43959, 5095); (43960, 5096); (43961, 5097); (43962, 5098);
   (43963, 5099); (43964, 5100); (43965, 5101); (43966, 5102); (43967,
   5103); (65345, 65313); (65346, 65314); (65347, 65315); (65348, 65316);
   (65349, 65317); (65350, 65318); (65351, 65319); (65352, 65320); (65353,
   65321); (65354, 65322); (65355, 65323); (65356, 65324); (65357, 65325);
   (65358, 65326); (65359, 65327); (65360, 65328); (65361, 65329); (65362,
   65330); (65363, 65331); (65364, 65332); (65365, 65333); (65366, 65334);
   (65367, 65335); (65368, 65336); (65369, 65337); (65370, 65338); (66600,
   66560); (66601, 66561); (66602, 66562); (66603, 66563); (66604, 66564);
   (66605, 66565); (66606, 66566); (66607, 66567); (66608, 66568); (66609,
   66569); (66610, 66570); (66611, 66571); (66612, 66572); (66613, 66573);
   (66614, 66574); (66615, 66575); (66616, 66576); (66617, 66577); (66618,
   66578); (66619, 66579); (66620, 66580); (66621, 66581); (66622, 66582);
   (66623, 66583); (66624, 66584); (66625, 66585); (66626, 66586); (66627,
   66587); (66628, 66588); (66629, 66589); (66630, 66590); (66631, 66591);
   (66632, 66592); (66633, 66593); (66634, 66594); (66635, 66595); (66636,
   66596); (66637, 66597); (66638, 66598); (66639, 66599); (66776, 66736);
   (66777, 66737); (66778, 66738); (66779, 66739); (66780, 66740); (66781,
   66741); (66782, 66742); (66783, 66743); (66784, 66744); (66785, 66745);
   (66786, 66746); (66787, 66747); (66788, 66748); (66789, 66749); (66790,
   66750); (66791, 66751); (66792, 66752); (66793, 66753); (66794, 66754);
   (66795, 66755); (66796, 66756); (66797, 66757); (66798, 66758); (66799,
   66759); (66800, 66760); (66801, 66761); (66802, 66762); (66803, 66763);
   (66804, 66764); (66805, 66765); (66806, 66766); (66807, 66767); (66808,
   66768); (66809, 66769); (66810, 66770); (66811, 66771); (66967, 66928);
   (66968, 66929); (66969, 66930); (66970, 66931); (66971, 66932); (66972,
   66933); (66973, 66934); (66974, 66935); (66975, 66936); (66976, 66937);
   (66977, 66938); (66979, 66940); (66980, 66941); (66981, 66942); (66982,
   66943); (66983, 66944); (66984, 66945); (66985, 66946); (66986, 66947);
   (66987, 66948); (66988, 66949); (66989, 66950); (66990, 66951); (66991,
   66952); (66992, 66953); (66993, 66954); (66995, 66956); (66996, 66957);
   (66997, 66958); (66998, 66959); (66999, 66960); (67000, 66961); (67001,
   66962); (67003, 66964); (67004, 66965); (68800, 68736); (68801, 68737);
   (68802, 68738); (68803, 68739); (68804, 68740); (68805, 68741); (68806,
   68742); (68807, 68743); (68808, 68744); (68809, 68745); (68810, 68746);
   (68811, 68747); (68812, 68748); (68813, 68749); (68814, 68750); (68815,
   68751); (68816, 68752); (68817, 68753); (68818, 68754); (68819, 68755);
   (68820, 68756); (68821, 68757); (68822, 68758); (68823, 68759); (68824,
   68760); (68825, 68761); (68826, 68762); (68827, 68763); (68828, 68764);
   (68829, 68765); (68830, 68766); (68831, 68767); (68832, 68768); (68833,
   68769); (68834, 68770); (68835, 68771); (68836, 68772); (68837, 68773);
   (68838, 68774); (68839, 68775); (68840, 68776); (68841, 68777); (68842,
   68778); (68843, 68779); (68844, 68780); (68845, 68781); (68846, 68782);
   (68847, 68783); (68848, 68784); (68849, 68785); (68850, 68786); (71872,
   71840); (71873, 71841); (71874, 71842); (71875, 71843); (71876, 71844);
   (71877, 71845); (71878, 71846); (71879, 71847); (71880, 71848); (71881,
   71849); (71882, 71850); (71883, 71851); (71884, 71852); (71885, 71853);
   (71886, 71854); (71887, 71855); (71888, 71856); (71889, 71857); (71890,
   71858); (71891, 71859); (71892, 71860); (71893, 71861); (71894, 71862);
   (71895, 71863); (71896, 71864); (71897, 71865); (71898, 71866); (71899,
   71867); (71900, 71868); (71901, 71869); (71902, 71870); (71903, 71871);
   (93792, 93760); (93793, 93761); (93794, 93762); (93795, 93763); (93796,
   93764); (93797, 93765); (93798, 93766); (93799, 93767); (93800, 93768);
   (93801, 93769); (93802, 93770); (93803, 93771); (93804, 93772); (93805,
   93773); (93806, 93774); (93807, 93775); (93808, 93776); (93809, 93777);
   (93810, 93778); (93811, 93779); (93812, 93780); (93813, 93781); (93814,
   93782); (93815, 93783); (93816, 93784); (93817, 93785); (93818, 93786);
   (93819, 93787); (93820, 93788); (93821, 93789); (93822, 93790); (93823,
   93791); (125218, 125184); (125219, 125185); (125220, 125186); (125221,
   125187); (125222, 125188); (125223, 125189); (125224, 125190); (125225,
   125191); (125226, 125192); (125227, 125193); (125228, 125194); (125229,
   125195); (125230, 125196); (125231, 125197); (125232, 125198); (125233,
   125199); (125234, 125200); (125235, 125201); (125236, 125202); (125237,
   125203); (125238, 125204); (125239, 125205); (125240, 125206); (125241,
   125207); (125242, 125208); (125243, 125209); (125244, 125210); (125245,
   125211); (125246, 125212); (125247, 125213); (125248, 125214); (125249,
   125215); (125250, 125216); (125251, 125217)]%N.

(** The characters whose upper case is more than one character. *)
Definition upper_many : list (N * list N) :=
  [(223, [83; 83]); (329, [700; 78]); (496, [74; 780]); (912, [921; 776;
   769]); (944, [933; 776; 769]); (1415, [1333; 1362]); (7830, [72; 817]);
   (7831, [84; 776]); (7832, [87; 778]); (7833, [89; 778]); (7834, [65;
   702]); (8016, [933; 787]); (8018, [933; 787; 768]); (8020, [933; 787;
   769]); (8022, [933; 787; 834]); (8064, [7944; 921]); (8065, [7945; 921]);
   (8066, [7946; 921]); (8067, [7947; 921]); (8068, [7948; 921]); (8069,
   [7949; 921]); (8070, [7950; 921]); (8071, [7951; 921]); (8072, [7944;
   921]); (8073, [7945; 921]); (8074, [7946; 921]); (8075, [7947; 921]);
   (8076, [7948; 921]); (8077, [7949; 921]); (8078, [7950; 921]); (8079,
   [7951; 921]); (8080, [7976; 921]); (8081, [7977; 921]); (8082, [7978;
   921]); (8083, [7979; 921]); (8084, [7980; 921]); (8085, [7981; 921]);
   (8086, [7982; 921]); (8087, [7983; 921]); (8088, [7976; 921]); (8089,
   [7977; 921]); (8090, [7978; 921]); (8091, [7979; 921]); (8092, [7980;
   921]); (8093, [7981; 921]); (8094, [7982; 921]); (8095, [7983; 921]);
   (8096, [8040; 921]); (8097, [8041; 921]); (8098, [8042; 921]); (8099,
   [8043; 921]); (8100, [8044; 921]); (8101, [8045; 921]); (8102, [8046;
   921]); (8103, [8047; 921]); (8104, [8040; 921]); (8105, [8041; 921]);
   (8106, [8042; 921]); (8107, [8043; 921]); (8108, [8044; 921]); (8109,
   [8045; 921]); (8110, [8046; 921]); (8111, [8047; 921]); (8114, [8122;
   921]); (8115, [913; 921]); (8116, [902; 921]); (8118, [913; 834]); (8119,
   [913; 834; 921]); (8124, [913; 921]); (8130, [8138; 921]); (8131, [919;
   921]); (8132, [905; 921]); (8134, [919; 834]); (8135, [919; 834; 921]);
   (8140, [919; 921]); (8146, [921; 776; 768]); (8147, [921; 776; 769]);
   (8150, [921; 834]); (8151, [921; 776; 834]); (8162, [933; 776; 768]);
   (8163, [933; 776; 769]); (8164, [929; 787]); (8166, [933; 834]); (8167,
   [933; 776; 834]); (8178, [8186; 921]); (8179, [937; 921]); (8180, [911;
   921]); (8182, [937; 834]); (8183, [937; 834; 921]); (8188, [937; 921]);
   (64256, [70; 70]); (64257, [70; 73]); (64258, [70; 76]); (64259, [70; 70;
   73]); (64260, [70; 70; 76]); (64261, [83; 84]); (64262, [83; 84]);
   (64275, [1348; 1350]); (64276, [1348; 1333]); (64277, [1348; 1339]);
   (64278, [1358; 1350]); (64279, [1348; 1341])]%N.

Definition ascii_upper_char (c : N) : N :=
  if ((97 <=? c) && (c <=? 122))%N then (c - 32)%N else c.

(** The ASCII letters in upper case, the rest unchanged: how [float]
    compares with ["inf"] and ["nan"]. *)
Definition ascii_upper (s : pystr) : pystr := map ascii_upper_char s.

(** [c.upper()] for one character [c]. *)
Definition upper_char (c : N) : pystr :=
  if (c <? 128)%N then [ascii_upper_char c]
  else
    match List.find (fun p => (fst p =? c)%N) upper_many with
    | Some p => snd p
    | None =>
        match List.find (fun p => (fst p =? c)%N) upper_one with
        | Some p => [snd p]
        | None => [c]
        end
    end.

(** [s.upper()] *)
Definition upper (s : pystr) : pystr := flat_map upper_char s.

(** *** Operations *)

Fixpoint lstrip (s : pystr) : pystr :=
  match s with
  | c :: s' => if is_space c then lstrip s' else s
  | [] => []
  end.

Definition rstrip (s : pystr) : pystr := rev (lstrip (rev s)).

(** [s.strip()] *)
Definition strip (s : pystr) : pystr := rstrip (lstrip s).

(** [c in s], for a one-character [c] *)
Definition contains_char (c : N) (s : pystr) : bool :=
  existsb (N.eqb c) s.

(** [s.replace(c, '')], for a one-character [c] *)
Definition remove_char (c : N) (s : pystr) : pystr :=
  filter (fun x => negb (N.eqb c x)) s.

(** [s.isdigit()] *)
Definition isdigit (s : pystr) : bool :=
  match s with
  | [] => false
  | _ => forallb is_digit s
  end.

(** [re.sub(r'\D', '', s)] *)
Definition strip_non_digits (s : pystr) : pystr := filter is_decimal s.

Fixpoint starts_with (p s : pystr) : bool :=
  match p, s with
  | [], _ => true
  | a :: p', b :: s' => N.eqb a b && starts_with p' s'
  | _ :: _, [] => false
  end.

(** [p in s], for strings *)
Fixpoint contains (p s : pystr) : bool :=
  starts_with p s ||
  match s with
  | [] => false
  | _ :: s' => contains p s'
  end.

Definition eqb (a b : pystr) : bool :=
  bool_decide (a = b).

(** [sep.join(parts)] *)
Fixpoint join (sep : pystr) (parts : list pystr) : pystr :=
  match parts with
  | [] => []
  | [p] => p
  | p :: rest => p ++ sep ++ join sep rest
  end.

End PyStr.
Import PyStr.

(* ===================================================================== *)
(** ** Python floats and the conversions [float(str)], [int(float)],
       [int(str)] *)
(* ===================================================================== *)

Module PyFloat.

Definition prec : Z := 53.
Definition emax : Z := 1024.

Definition pyfloat := spec_float.

(** The float nearest to [sign * m * 10^k], ties to even. *)
Definition of_decimal (sign : bool) (m : Z) (k : Z) : pyfloat :=
  match m with
  | Zpos p =>
      if 0 <=? k
      then match m * 10 ^ k with
           | Zpos q => binary_round prec emax sign q 0
           | _ => S754_zero sign
           end
      else let '(q, e, l) :=
             SFdiv_core_binary prec emax m 0 (10 ^ (- k)) 0 in
           binary_round_aux prec emax sign q e l
  | _ => S754_zero sign
  end.

(** [float(n)] for a Python [int] *)
Definition of_int (n : Z) : pyfloat :=
  binary_normalize prec emax n 0 false.

(** [x * y] *)
Definition mul (x y : pyfloat) : pyfloat := SFmul prec emax x y.

(** [int(x)]: truncation toward zero; [ValueError] on a NaN,
    [OverflowError] on an infinity. *)
Definition to_int (x : pyfloat) : result Z :=
  match x with
  | S754_nan => Raise ValueError
  | S754_infinity _ => Raise OverflowError
  | S754_zero _ => Ok 0
  | S754_finite s m e =>
      let a := match e with
               | Zneg n => Z.shiftr (Zpos m) (Zpos n)
               | _ => Z.shiftl (Zpos m) e
               end in
      Ok (if s then - a else a)
  end.

(** *** What [float] and [int] read of a [str]

    Both first bring the text to ASCII: a text that is ASCII already is
    taken as it is; in any other text the characters below U+007F stay,
    white space becomes a blank, a decimal digit of any script becomes
    the ASCII digit of its value, and the first character of another
    kind becomes ['?'] and ends the text. *)
Fixpoint transform (s : pystr) : pystr :=
  match s with
  | [] => []
  | c :: s' =>
      if (c <? 127)%N then c :: transform s'
      else if is_space c then 32%N :: transform s'
      else match decimal_value c with
           | Some d => (48 + d)%N :: transform s'
           | None => [63%N]
           end
  end.

Definition to_ascii (s : pystr) : pystr :=
  if forallb (fun c => (c <? 128)%N) s then s else transform s.

Fixpoint skip_spaces (s : pystr) : pystr :=
  match s with
  | c :: s' => if is_ascii_space c then skip_spaces s' else s
  | [] => []
  end.

(** The ASCII text without the white space around it. *)
Definition trimmed (s : pystr) : pystr :=
  rev (skip_spaces (rev (skip_spaces (to_ascii s)))).

(** *** The grammar of [float(str)]

    [[sign] (number [exponent] | "inf" | "infinity" | "nan")] between
    optional white space, where
    [digitpart ::= digit (["_"] digit)*],
    [number ::= [digitpart] "." digitpart | digitpart ["."]] and
    [exponent ::= ("e" | "E") [sign] digitpart]. *)

(** The rest of a [digitpart] whose first digit was read: the value and
    the number of digits so far are [acc] and [n]. *)
Fixpoint digits_rest (s : pystr) (acc : Z) (n : Z) : Z * Z * pystr :=
  match s with
  | c :: s' =>
      if is_ascii_digit c
      then digits_rest s' (10 * acc + digit_val c) (n + 1)
      else if (c =? c_underscore)%N then
        match s' with
        | d :: s'' =>
            if is_ascii_digit d
            then digits_rest s'' (10 * acc + digit_val d) (n + 1)
            else (acc, n, s)
        | [] => (acc, n, s)
        end
      else (acc, n, s)
  | [] => (acc, n, s)
  end.

(** A [digitpart] continuing the value [acc]: [None] when [s] does not
    start with a digit. *)
Definition digitpart (s : pystr) (acc : Z) : option (Z * Z * pystr) :=
  match s with
  | c :: s' =>
      if is_ascii_digit c
      then Some (digits_rest s' (10 * acc + digit_val c) 1)
      else None
  | [] => None
  end.

Definition parse_sign (s : pystr) : bool * pystr :=
  match s with
  | c :: s' =>
      if (c =? c_minus)%N then (true, s')
      else if (c =? c_plus)%N then (false, s')
      else (false, s)
  | [] => (false, s)
  end.

(** [exponent], or nothing: the decimal exponent and what follows. *)
Definition parse_exponent (s : pystr) : option (Z * pystr) :=
  match s with
  | c :: s' =>
      if (c =? c_e)%N || (c =? c_E)%N then
        let '(neg, s'') := parse_sign s' in
        match digitpart s'' 0 with
        | Some (x, _, rest) => Some (if neg then - x else x, rest)
        | None => None
        end
      else Some (0, s)
  | [] => Some (0, s)
  end.

(** [number]: the digits as one integer, the count of those after the
    point, and what follows. *)
Definition parse_number (s : pystr) : option (Z * Z * pystr) :=
  match digitpart s 0 with
  | Some (ip, _, rest) =>
      match rest with
      | c :: rest' =>
          if (c =? c_dot)%N then
            match digitpart rest' ip with
            | Some (m, nf, rest'') => Some (m, nf, rest'')
            | None => Some (ip, 0, rest')
            end
          else Some (ip, 0, rest)
      | [] => Some (ip, 0, rest)
      end
  | None =>
      match s with
      | c :: s' =>
          if (c =? c_dot)%N then digitpart s' 0 else None
      | [] => None
      end
  end.

(** [float(s)] *)
Definition of_str (s : pystr) : result pyfloat :=
  let '(neg, body) := parse_sign (trimmed s) in
  let word := ascii_upper body in
  if eqb word (lit "INF") || eqb word (lit "INFINITY")
  then Ok (S754_infinity neg)
  else if eqb word (lit "NAN") then Ok S754_nan
  else
    match parse_number body with
    | Some (m, nf, rest) =>
        match parse_exponent rest with
        | Some (x, []) => Ok (of_decimal neg m (x - nf))
        | _ => Raise ValueError
        end
    | None => Raise ValueError
    end.

(** [sys.get_int_max_str_digits()], as the interpreter starts. *)
Definition MAX_STR_DIGITS : Z := 4300.

(** [int(s)], base 10: [[sign] digitpart] between optional white space;
    a [ValueError] also when there are more than [MAX_STR_DIGITS]
    digits. *)
Definition int_of_str (s : pystr) : result Z :=
  let '(neg, body) := parse_sign (trimmed s) in
  match digitpart body 0 with
  | Some (x, n, []) =>
      if MAX_STR_DIGITS <? n then Raise ValueError
      else Ok (if neg then - x else x)
  | _ => Raise ValueError
  end.

End PyFloat.

(* ===================================================================== *)
(** ** Constants of [main.py] *)
(* ===================================================================== *)

Definition MAX_PARSE_RETRIES : nat := 3.
Definition MAX_SCROLL_PATIENCE : Z := 5.
Definition LIKE_THRESHOLD : Z := 100.
Definition max_scrolls : Z := 50.

(* ===================================================================== *)
(** ** [convert_to_int] (lines 75-103) *)
(* ===================================================================== *)

Definition convert_to_int (text : pystr) : result Z :=
  match text with
  | [] => Ok 0
  | _ =>
      let text := remove_char c_comma (strip text) in
      catch is_ValueError
        (if contains_char c_man text then
           num ← PyFloat.of_str (remove_char c_man text);
           PyFloat.to_int (PyFloat.mul num (PyFloat.of_int 10000))
         else if contains_char c_K (upper text) then
           num ← PyFloat.of_str (remove_char c_K (upper text));
           PyFloat.to_int (PyFloat.mul num (PyFloat.of_int 1000))
         else if contains_char c_M (upper text) then
           num ← PyFloat.of_str (remove_char c_M (upper text));
           PyFloat.to_int (PyFloat.mul num (PyFloat.of_int 1000000))
         else
           PyFloat.int_of_str (strip_non_digits text))
        (fun _ => Ok 0)
  end.

(* ===================================================================== *)
(** ** The post node as the driver shows it *)
(* ===================================================================== *)

(** Every read of the live document may raise: [find_element] a
    [NoSuchElementException], any read a
    [StaleElementReferenceException] or something else. *)

Record Element := { el_text : result pystr }.             (* [.text] *)

Record Control := { ctl_spans : result (list Element) }.  (* its [span]s *)

Record Anchor := { a_href : result (option pystr) }.      (* ['href'] *)

Record TimeElement := {
  t_datetime : result (option pystr);                     (* ['datetime'] *)
  t_ancestor_a : result Anchor                            (* [./ancestor::a[@href]] *)
}.

Record UserName := {
  un_display_name : result Element;                       (* [a[role='link'] span] *)
  un_links : result (list Element)                        (* [a[role='link']] *)
}.

(** What one attempt at reading an [article] finds. *)
Record NodeView := {
  nv_time : result TimeElement;
  nv_user_name : result UserName;
  nv_tweet_text : result Element;
  nv_hashtags : result (list Element);
  nv_like : result Control;
  nv_retweet : result Control;
  nv_analytics : result Control
}.

(** The document changes under the reader: an [article] is what its reads
    answer at each attempt, numbered from 0. *)
Definition Article := nat -> NodeView.

(** The record [parse_post] returns (a [dict] with these keys). *)
Record Post := {
  post_url : pystr;
  username : pystr;
  display_name : pystr;
  date : option pystr;
  text : pystr;
  likes : Z;
  reposts : Z;
  views : Z;
  hashtags : pystr
}.

(* ===================================================================== *)
(** ** [parse_post] (lines 105-244) *)
(* ===================================================================== *)

Definition is_empty (s : pystr) : bool :=
  match s with [] => true | _ => false end.

(** The test of lines 179, 193 and 209 on the stripped text of a span. *)
Definition looks_numeric (text : pystr) : bool :=
  negb (is_empty text) &&
  (isdigit text || contains_char c_K text || contains_char c_M text
   || contains_char c_man text || contains_char c_comma text).

(** The [for span in ...] loops of lines 177-181, 191-195 and 207-211:
    the stripped text of the first span that passes the test, else [""]. *)
Fixpoint first_metric_text (spans : list Element) : result pystr :=
  match spans with
  | [] => Ok []
  | span :: rest =>
      raw ← el_text span;
      let text := strip raw in
      if looks_numeric text then Ok text else first_metric_text rest
  end.

(** One metric block (lines 172-184, 187-198, 202-215). *)
Definition read_metric (control : result Control) : result Z :=
  catch is_NoSuchElement
    (button ← control;
     spans ← ctl_spans button;
     metric_text ← first_metric_text spans;
     convert_to_int metric_text)
    (fun _ => Ok 0).

(** Lines 147-151. *)
Fixpoint first_handle (elems : list Element) : result pystr :=
  match elems with
  | [] => Ok []
  | elem :: rest =>
      t ← el_text elem;
      if starts_with [c_at] t then Ok t else first_handle rest
  end.

(** Lines 143-155. *)
Definition read_username (user_name_div : UserName) : result pystr :=
  catch is_NoSuchElement_or_IndexError
    (username_elements ← un_links user_name_div;
     name ← first_handle username_elements;
     if is_empty name && (1 <? length username_elements)%nat then
       match username_elements !! 1%nat with
       | Some elem => el_text elem
       | None => Raise IndexError
       end
     else Ok name)
    (fun _ => Ok []).

(** Line 167: the texts that start with ['#'], in document order. *)
Fixpoint hashtag_texts (elems : list Element) : result (list pystr) :=
  match elems with
  | [] => Ok []
  | tag :: rest =>
      t ← el_text tag;
      ts ← hashtag_texts rest;
      Ok (if starts_with [c_hash] t then t :: ts else ts)
  end.

(** The body of the [try] of one attempt (lines 120-228). *)
Definition read_post (v : NodeView) : result (option Post) :=
  time_element ← nv_time v;
  post_date ← t_datetime time_element;
  ancestor_a ← t_ancestor_a time_element;
  href ← a_href ancestor_a;
  match href with
  | None => Raise TypeError          (* ['/status/' not in None] *)
  | Some url =>
      if negb (contains (lit "/status/") url) then Ok None
      else
        user_name_div ← nv_user_name v;
        shown ← catch is_NoSuchElement
                  (elem ← un_display_name user_name_div; el_text elem)
                  (fun _ => Ok []);
        handle ← read_username user_name_div;
        body ← catch is_NoSuchElement
                 (text_div ← nv_tweet_text v; el_text text_div)
                 (fun _ => Ok []);
        hashtag_elements ← nv_hashtags v;
        tags ← hashtag_texts hashtag_elements;
        like_count ← read_metric (nv_like v);
        repost_count ← read_metric (nv_retweet v);
        view_count ← read_metric (nv_analytics v);
        Ok (Some {| post_url := url;
                    username := handle;
                    display_name := shown;
                    date := post_date;
                    text := body;
                    likes := like_count;
                    reposts := repost_count;
                    views := view_count;
                    hashtags := join [c_bar] tags |})
  end.

(** What [parse_post] does besides returning. *)
Inductive effect :=
| Sleep (milliseconds : Z)          (* [time.sleep(0.5)] is [Sleep 500] *)
| Warn (e : exn).                   (* the [print] of line 241 *)

Record ParseRun := {
  pr_post : option Post;            (* the value returned *)
  pr_attempts : nat;                (* how many times the node was read *)
  pr_effects : list effect          (* sleeps and warnings, in order *)
}.

(** The [for attempt in range(...)] loop from [attempt] on, with [todo]
    values of the range left. *)
Fixpoint parse_loop (article : Article) (attempt todo : nat) : ParseRun :=
  match todo with
  | O => {| pr_post := None; pr_attempts := 0; pr_effects := [] |}
  | S todo' =>
      match read_post (article attempt) with
      | Ok r => {| pr_post := r; pr_attempts := 1; pr_effects := [] |}
      | Raise e =>
          if is_NoSuchElement_or_Stale e then
            if (attempt <? MAX_PARSE_RETRIES - 1)%nat then
              let run := parse_loop article (S attempt) todo' in
              {| pr_post := pr_post run;
                 pr_attempts := S (pr_attempts run);
                 pr_effects := Sleep 500 :: pr_effects run |}
            else {| pr_post := None; pr_attempts := 1; pr_effects := [] |}
          else {| pr_post := None; pr_attempts := 1; pr_effects := [Warn e] |}
      end
  end.

Definition parse_post_run (article : Article) : ParseRun :=
  parse_loop article 0 MAX_PARSE_RETRIES.

Definition parse_post (article : Article) : option Post :=
  pr_post (parse_post_run article).

(* ===================================================================== *)
(** ** [scrape_buzzed_posts] (lines 286-418) *)
(* ===================================================================== *)

(** The local variables of the function that the loop reads and writes. *)
Record Locals := {
  collected_data : list Post;
  scraped_urls : gset pystr;
  last_height : Z;
  patience : Z;
  scroll_count : Z;
  new_posts_found_in_this_scroll : bool;
  processed_in_this_scroll : Z
}.

Definition len {A} (l : list A) : Z := Z.of_nat (length l).

(** Lines 346-360: one record offered to the accumulator; the flag tells
    whether it was appended to [collected_data]. *)
Definition offer (post_data : Post) (st : Locals) : Locals * bool :=
  if bool_decide (post_url post_data ∈ scraped_urls st) then (st, false)
  else
    let seen := {[ post_url post_data ]} ∪ scraped_urls st in
    let processed := processed_in_this_scroll st + 1 in
    if LIKE_THRESHOLD <=? likes post_data then
      ({| collected_data := collected_data st ++ [post_data];
          scraped_urls := seen;
          last_height := last_height st;
          patience := patience st;
          scroll_count := scroll_count st;
          new_posts_found_in_this_scroll := true;
          processed_in_this_scroll := processed |}, true)
    else
      ({| collected_data := collected_data st;
          scraped_urls := seen;
          last_height := last_height st;
          patience := patience st;
          scroll_count := scroll_count st;
          new_posts_found_in_this_scroll := new_posts_found_in_this_scroll st;
          processed_in_this_scroll := processed |}, false).

(** Lines 339-365: the [for article in articles] loop; it stops at the
    [break] of line 365. *)
Fixpoint scan_articles (limit : Z) (articles : list Article) (st : Locals)
    : Locals :=
  match articles with
  | [] => st
  | article :: rest =>
      match parse_post article with
      | None => scan_articles limit rest st
      | Some post_data =>
          let '(st', accepted) := offer post_data st in
          if accepted && (limit <=? len (collected_data st'))
          then st'
          else scan_articles limit rest st'
      end
  end.

(** What the driver answers during one pass of the [while] loop. *)
Record Scroll := {
  found_articles : result (list Article);   (* line 329 *)
  scrolled : result unit;                   (* line 335, or 378-379 *)
  new_height : result Z                     (* line 388 *)
}.

(** The answers of the browser, by the value of [scroll_count] in the
    pass (1, 2, ...). *)
Definition Browser := Z -> Scroll.

(** How the loop ended: the [break] of line 375 (or the first half of the
    guard of line 321), the second half of the guard, the [break] of
    line 398. *)
Inductive Exit := TargetReached | IterationCeiling | FeedExhausted.

Definition begin_scroll (st : Locals) : Locals :=
  {| collected_data := collected_data st;
     scraped_urls := scraped_urls st;
     last_height := last_height st;
     patience := patience st;
     scroll_count := scroll_count st + 1;
     new_posts_found_in_this_scroll := false;
     processed_in_this_scroll := 0 |}.

Definition set_patience (p : Z) (st : Locals) : Locals :=
  {| collected_data := collected_data st;
     scraped_urls := scraped_urls st;
     last_height := last_height st;
     patience := p;
     scroll_count := scroll_count st;
     new_posts_found_in_this_scroll := new_posts_found_in_this_scroll st;
     processed_in_this_scroll := processed_in_this_scroll st |}.

Definition set_last_height (h : Z) (st : Locals) : Locals :=
  {| collected_data := collected_data st;
     scraped_urls := scraped_urls st;
     last_height := h;
     patience := patience st;
     scroll_count := scroll_count st;
     new_posts_found_in_this_scroll := new_posts_found_in_this_scroll st;
     processed_in_this_scroll := processed_in_this_scroll st |}.

(** Lines 322-405: one pass of the body of the [while]; [Some] exit is a
    [break], [None] goes back to the guard. *)
Definition loop_body (limit : Z) (b : Scroll) (st : Locals)
    : result (Locals * option Exit) :=
  let st := begin_scroll st in
  articles ← found_articles b;
  match articles with
  | [] =>
      _ ← scrolled b;
      Ok (st, None)                                       (* continue *)
  | _ =>
      let st := scan_articles limit articles st in
      if limit <=? len (collected_data st) then
        Ok (st, Some TargetReached)
      else
        _ ← scrolled b;
        h ← new_height b;
        if h =? last_height st then
          if negb (new_posts_found_in_this_scroll st) then
            let st := set_patience (patience st + 1) st in
            if MAX_SCROLL_PATIENCE <=? patience st
            then Ok (st, Some FeedExhausted)
            else Ok (st, None)
          else Ok (set_patience 0 st, None)
        else Ok (set_patience 0 (set_last_height h st), None)
  end.

(** Lines 321-405: at most [fuel] passes of the [while] loop.  The exit is
    [None] when the loop is still running after [fuel] passes. *)
Fixpoint crawl_loop (fuel : nat) (limit : Z) (browser : Browser)
    (st : Locals) : result (Locals * option Exit) :=
  if negb (len (collected_data st) <? limit) then Ok (st, Some TargetReached)
  else if negb (scroll_count st <? max_scrolls)
  then Ok (st, Some IterationCeiling)
  else
    match fuel with
    | O => Ok (st, None)
    | S fuel' =>
        '(st', ex) ← loop_body limit (browser (scroll_count st + 1)) st;
        match ex with
        | Some reason => Ok (st', Some reason)
        | None => crawl_loop fuel' limit browser st'
        end
    end.

(** Lines 310-318. *)
Definition initial (height : Z) : Locals :=
  {| collected_data := [];
     scraped_urls := ∅;
     last_height := height;
     patience := 0;
     scroll_count := 0;
     new_posts_found_in_this_scroll := false;
     processed_in_this_scroll := 0 |}.

(* ===================================================================== *)
(** ** The search url (lines 299-301) *)
(* ===================================================================== *)

Module Url.

(** The UTF-8 bytes of a code point; a surrogate has none (in Python,
    a [UnicodeEncodeError]). *)
Definition utf8 (c : N) : option (list N) :=
  (if c <? 128 then Some [c]
   else if c <? 2048 then Some [192 + c / 64; 128 + c mod 64]
   else if (55296 <=? c) && (c <=? 57343) then None
   else if c <? 65536 then
     Some [224 + c / 4096; 128 + (c / 64) mod 64; 128 + c mod 64]
   else
     Some [240 + c / 262144; 128 + (c / 4096) mod 64;
           128 + (c / 64) mod 64; 128 + c mod 64])%N.

Definition hex_digit (n : N) : N :=
  (if n <? 10 then 48 + n else 55 + n)%N.

(** ["%XX"] *)
Definition percent (byte : N) : pystr :=
  [37%N; hex_digit (byte / 16); hex_digit (byte mod 16)].

Definition is_alnum (c : N) : bool :=
  ((48 <=? c) && (c <=? 57) || (65 <=? c) && (c <=? 90)
   || (97 <=? c) && (c <=? 122))%N.

(** The characters [quote] never escapes: letters, digits, ["_.-~"], and
    the default [safe='/']. *)
Definition is_unreserved (c : N) : bool :=
  (is_alnum c || (c =? 95) || (c =? 46) || (c =? 45) || (c =? 126)
   || (c =? 47))%N.

Definition quote_char (c : N) : option pystr :=
  if is_unreserved c then Some [c]
  else match utf8 c with
       | Some bytes => Some (concat (map percent bytes))
       | None => None
       end.

(** [urllib.parse.quote(s)]; [None] when it raises. *)
Fixpoint quote (s : pystr) : option pystr :=
  match s with
  | [] => Some []
  | c :: s' =>
      match quote_char c, quote s' with
      | Some q, Some qs => Some (q ++ qs)
      | _, _ => None
      end
  end.

(** [BASE_URL.format(keyword=quote(keyword))] *)
Definition search_url (keyword : pystr) : option pystr :=
  match quote keyword with
  | Some encoded_keyword =>
      Some (lit "https://x.com/search?q=" ++ encoded_keyword
            ++ lit "&src=typeahead_click")
  | None => None
  end.

(** What an encoded keyword is made of. *)
Definition is_url_safe (c : N) : bool := is_unreserved c || (c =? 37)%N.

Definition is_surrogate (c : N) : bool :=
  ((55296 <=? c) && (c <=? 57343))%N.

End Url.

(** What the driver and the file system answer during one call. *)
Record Session := {
  new_chrome : result unit;                 (* line 71 *)
  maximize_window : result unit;            (* line 72 *)
  get_page : result unit;                   (* line 307 *)
  first_height : result Z;                  (* line 313 *)
  browser : Browser;
  save_data : list Post -> result unit;     (* line 411 *)
  quit : result unit                        (* line 417 *)
}.

(** Lines 67-73: what [setup_driver] answers, and whether
    [webdriver.Chrome(...)] had returned a driver by then. *)
Definition setup_driver (s : Session) : bool * result unit :=
  match new_chrome s with
  | Raise e => (false, Raise e)
  | Ok _ => (true, maximize_window s)
  end.

(** Lines 307-407, the crawl itself: the records collected and the reason
    the loop ended, or the exception that left it. *)
Definition crawl (fuel : nat) (limit : Z) (s : Session)
    : result (Locals * option Exit) :=
  _ ← get_page s;
  height ← first_height s;
  crawl_loop fuel limit (browser s) (initial height).

(** What a call of [scrape_buzzed_posts] leaves behind. *)
Record Outcome := {
  webdriver_opened : bool;         (* line 71 returned a driver *)
  driver_created : bool;           (* [driver] was bound at line 305 *)
  driver_quit : bool;              (* [driver.quit()] was called, line 417 *)
  caught : option exn;             (* the exception reported at line 414 *)
  escaped : option exn;            (* the exception that left the call *)
  saved : option (list Post);      (* the records handed to [save_data] *)
  ended : option Exit              (* how the loop ended, when it did *)
}.

(** Lines 415-418, once [driver] is bound: the [finally] clause after a
    [try] that caught [failure], or nothing. *)
Definition finally_quit (s : Session) (failure : option exn)
    (records : option (list Post)) (reason : option Exit) : Outcome :=
  {| webdriver_opened := true; driver_created := true; driver_quit := true;
     caught := failure;
     escaped := match quit s with
                | Ok _ => None
                | Raise e => Some e
                end;
     saved := records; ended := reason |}.

(** Lines 295-418.  [None] only when the loop is still running after
    [fuel] passes. *)
Definition scrape_buzzed_posts (fuel : nat) (keyword : pystr) (limit : Z)
    (s : Session) : option Outcome :=
  if is_empty keyword then
    Some {| webdriver_opened := false; driver_created := false;
            driver_quit := false; caught := None; escaped := None;
            saved := None; ended := None |}
  else
    match Url.search_url keyword with
    | None =>
        (* [quote] raises at line 300, before the [try] *)
        Some {| webdriver_opened := false; driver_created := false;
                driver_quit := false; caught := None;
                escaped := Some UnicodeEncodeError;
                saved := None; ended := None |}
    | Some _ =>
        match setup_driver s with
        | (opened, Raise e) =>
            (* [driver] is still [None] in the [finally] clause *)
            Some {| webdriver_opened := opened; driver_created := false;
                    driver_quit := false; caught := Some e;
                    escaped := None; saved := None; ended := None |}
        | (_, Ok _) =>
            match crawl fuel limit s with
            | Raise e => Some (finally_quit s (Some e) None None)
            | Ok (_, None) => None
            | Ok (st, Some reason) =>
                match save_data s (collected_data st) with
                | Ok _ =>
                    Some (finally_quit s None (Some (collected_data st))
                            (Some reason))
                | Raise e =>
                    Some (finally_quit s (Some e) (Some (collected_data st))
                            (Some reason))
                end
            end
        end
    end.
(* ===================================================================== *)
(** ** Notions used in the statements *)
(* ===================================================================== *)

(** The failures the [except] clause of line 230 names. *)
Definition retryable (e : exn) : Prop :=
  e = NoSuchElementException ∨ e = StaleElementReferenceException.

(** The first [k] attempts all fail with a retryable exception. *)
Definition fails_before (article : Article) (k : nat) : Prop :=
  ∀ i, (i < k)%nat -> ∃ e, read_post (article i) = Raise e ∧ retryable e.

(** A text that "looks numeric or suffixed": not empty, and all digits
    (in the sense of [str.isdigit]) or holding one of ['K'], ['M'], ['万'],
    [',']. *)
Definition numeric_or_suffixed (t : pystr) : Prop :=
  t ≠ [] ∧
  (Forall (fun c => is_digit c = true) t
   ∨ c_K ∈ t ∨ c_M ∈ t ∨ c_man ∈ t ∨ c_comma ∈ t).

(** [url] holds the marker ["/status/"]. *)
Definition has_status_marker (url : pystr) : Prop :=
  ∃ pre suf, url = pre ++ lit "/status/" ++ suf.

(* ===================================================================== *)
(** ** Sample nodes *)
(* ===================================================================== *)

Definition element (t : pystr) : Element := {| el_text := Ok t |}.

Definition control (texts : list pystr) : Control :=
  {| ctl_spans := Ok (map element texts) |}.

(** A node that went stale: every read raises. *)
Definition stale_view : NodeView :=
  {| nv_time := Raise StaleElementReferenceException;
     nv_user_name := Raise StaleElementReferenceException;
     nv_tweet_text := Raise StaleElementReferenceException;
     nv_hashtags := Raise StaleElementReferenceException;
     nv_like := Raise StaleElementReferenceException;
     nv_retweet := Raise StaleElementReferenceException;
     nv_analytics := Raise StaleElementReferenceException |}.

(** A rendered post with the given permalink and like-button text, and no
    view count. *)
Definition sample_view (url like_text : pystr) : NodeView :=
  {| nv_time :=
       Ok {| t_datetime := Ok (Some (lit "2025-10-01T09:00:00.000Z"));
             t_ancestor_a := Ok {| a_href := Ok (Some url) |} |};
     nv_user_name :=
       Ok {| un_display_name := Ok (element (lit "Alice"));
             un_links := Ok [element (lit "Alice"); element (lit "@alice")] |};
     nv_tweet_text := Ok (element (lit "hello #SNS"));
     nv_hashtags := Ok [element (lit "#SNS")];
     nv_like := Ok (control [lit ""; like_text]);
     nv_retweet := Ok (control [lit "3"]);
     nv_analytics := Raise NoSuchElementException |}.

(** A node that reads the same at every attempt. *)
Definition steady (v : NodeView) : Article := fun _ => v.

(** A node that is stale at the first attempt only. *)
Definition flaky (v : NodeView) : Article :=
  fun attempt => match attempt with O => stale_view | _ => v end.

Definition sample_post (url : pystr) (like_count : Z) : Post :=
  {| post_url := url;
     username := lit "@alice";
     display_name := lit "Alice";
     date := Some (lit "2025-10-01T09:00:00.000Z");
     text := lit "hello #SNS";
     likes := like_count;
     reposts := 3;
     views := 0;
     hashtags := lit "#SNS" |}.

Definition url_1 : pystr := lit "https://x.com/alice/status/1".
Definition url_2 : pystr := lit "https://x.com/alice/status/2".
Definition url_ad : pystr := lit "https://x.com/i/ads/17".

(** The urls of the records collected. *)
Definition urls (posts : list Post) : list pystr := map post_url posts.

(** No url is collected twice, and every collected url is in the seen
    set. *)
Definition distinct_and_seen (st : Locals) : Prop :=
  NoDup (urls (collected_data st)) ∧
  ∀ u, u ∈ urls (collected_data st) -> u ∈ scraped_urls st.

(** No record of the snapshot can be accepted: each is below the
    threshold or already seen. *)
Definition quiet (st : Locals) (articles : list Article) : Prop :=
  ∀ a p, a ∈ articles -> parse_post a = Some p ->
         likes p < LIKE_THRESHOLD ∨ post_url p ∈ scraped_urls st.

(** A pass whose scan is not empty and accepts nothing, and whose extent,
    read after scrolling, is the recorded one. *)
Definition stalled_pass (st : Locals) (b : Scroll) : Prop :=
  ∃ articles,
    found_articles b = Ok articles ∧ articles ≠ [] ∧ quiet st articles ∧
    scrolled b = Ok () ∧ new_height b = Ok (last_height st).

(** A pass that finds no article (lines 331-337). *)
Definition empty_pass (b : Scroll) : Prop :=
  found_articles b = Ok [] ∧ scrolled b = Ok ().

Definition is_empty_scan (b : Scroll) : bool :=
  match found_articles b with
  | Ok [] => true
  | _ => false
  end.

(** How many of the passes [from + 1], ..., [from + n] have a scan that is
    not empty. *)
Fixpoint scans (br : Browser) (from : Z) (n : nat) : Z :=
  match n with
  | O => 0
  | S n' =>
      (if is_empty_scan (br (from + 1)) then 0 else 1) + scans br (from + 1) n'
  end.

(* ===================================================================== *)
(** ** Sample sessions *)
(* ===================================================================== *)

Definition sample_article (url like_text : pystr) : Article :=
  steady (sample_view url like_text).

(** The page never changes: one post with 7 likes, extent 1000. *)
Definition still_browser : Browser :=
  fun _ => {| found_articles := Ok [sample_article url_1 (lit "7")];
              scrolled := Ok ();
              new_height := Ok 1000 |}.

(** The same post at every pass, and an extent that shrinks by one at
    every pass. *)
Definition shrinking_browser : Browser :=
  fun i => {| found_articles := Ok [sample_article url_1 (lit "7")];
              scrolled := Ok ();
              new_height := Ok (1000 - i) |}.

(** No article is ever rendered; the extent stays 1000. *)
Definition idle_browser : Browser :=
  fun _ => {| found_articles := Ok [];
              scrolled := Ok ();
              new_height := Ok 1000 |}.

(** The driver stops answering after the first pass. *)
Definition dying_browser : Browser :=
  fun i =>
    if i <=? 1
    then {| found_articles := Ok [sample_article url_1 (lit "1.5K")];
            scrolled := Ok ();
            new_height := Ok 2000 |}
    else {| found_articles := Raise WebDriverException;
            scrolled := Raise WebDriverException;
            new_height := Raise WebDriverException |}.

Definition session_of (br : Browser) : Session :=
  {| new_chrome := Ok ();
     maximize_window := Ok ();
     get_page := Ok ();
     first_height := Ok 1000;
     browser := br;
     save_data := fun _ => Ok ();
     quit := Ok () |}.

(** A session in which the driver is created and its window cannot be
    maximized. *)
Definition unresizable (br : Browser) : Session :=
  {| new_chrome := Ok ();
     maximize_window := Raise WebDriverException;
     get_page := Ok ();
     first_height := Ok 1000;
     browser := br;
     save_data := fun _ => Ok ();
     quit := Ok () |}.

(** What a run of the loop shows: how it ended (if it did), the number of
    records collected, the recorded extent, [patience] and
    [scroll_count]. *)
Definition summary (r : result (Locals * option Exit))
    : option (option Exit * Z * Z * Z * Z) :=
  match r with
  | Ok (st, ex) =>
      Some (ex, len (collected_data st), last_height st, patience st,
            scroll_count st)
  | Raise _ => None
  end.

(** A pass in which the extent did not grow beyond [recorded] and no
    record could be accepted, in the words of the claim. *)
Definition growth_free_pass (recorded : Z) (b : Scroll) : Prop :=
  ∃ articles h,
    found_articles b = Ok articles ∧ scrolled b = Ok () ∧
    new_height b = Ok h ∧ h <= recorded ∧
    ∀ a p, a ∈ articles -> parse_post a = Some p -> likes p < LIKE_THRESHOLD.

(** The claim on exhaustion read word for word: [MAX_SCROLL_PATIENCE]
    passes in a row without growth of the extent and without an accepted
    post end the loop with [FeedExhausted]. *)
Definition exhausted_after_growth_free_passes : Prop :=
  ∀ (limit : Z) (br : Browser) (extent : Z -> Z),
    0 < limit ->
    (∀ i, 1 <= i <= MAX_SCROLL_PATIENCE ->
          growth_free_pass (extent (i - 1)) (br i) ∧
          new_height (br i) = Ok (extent i)) ->
    ∃ st, crawl_loop (Z.to_nat MAX_SCROLL_PATIENCE) limit br
            (initial (extent 0)) = Ok (st, Some FeedExhausted).

(* ===================================================================== *)
(** ** Notions used for the further properties *)
(* ===================================================================== *)

(** The text carries one of the magnitude marks [convert_to_int] looks
    for: ['万'], or ['K'] or ['M'] in either case. *)
Definition has_suffix (text : pystr) : Prop :=
  c_man ∈ text ∨ c_K ∈ upper text ∨ c_M ∈ upper text.

(** The number a string of decimal digits, of any script, spells. *)
Definition digits_value (s : pystr) : Z :=
  fold_left (fun acc c => 10 * acc + Z.of_N (default 0%N (decimal_value c)))
    s 0.

(** The ASCII digit of the same value as the decimal digit [c]. *)
Definition ascii_digit_of (c : N) : N :=
  (48 + default 0 (decimal_value c))%N.

(** [str(n)] for a natural number. *)
Definition decimal (n : nat) : pystr :=
  lit (NilZero.string_of_uint (Nat.to_uint n)).

(** The text ["a.b"] followed by [suffix]. *)
Definition one_decimal (a b : nat) (suffix : pystr) : pystr :=
  decimal a ++ [c_dot] ++ decimal b ++ suffix.

Definition returns (r : result Z) (v : Z) : bool :=
  match r with
  | Ok n => n =? v
  | Raise _ => false
  end.

(** Whether [convert_to_int] is exact on ["a.b万"], and exact or one short
    on ["a.bK"] and ["a.bM"]. *)
Definition exact_or_one_short (a b : nat) : bool :=
  let exact factor := factor * Z.of_nat a + factor / 10 * Z.of_nat b in
  returns (convert_to_int (one_decimal a b [c_man])) (exact 10000)
  && (returns (convert_to_int (one_decimal a b [c_K])) (exact 1000)
      || returns (convert_to_int (one_decimal a b [c_K])) (exact 1000 - 1))
  && (returns (convert_to_int (one_decimal a b [c_M])) (exact 1000000)
      || returns (convert_to_int (one_decimal a b [c_M])) (exact 1000000 - 1)).

(** The node [v] with another answer for one of its optional blocks. *)
Definition with_like (r : result Control) (v : NodeView) : NodeView :=
  {| nv_time := nv_time v; nv_user_name := nv_user_name v;
     nv_tweet_text := nv_tweet_text v; nv_hashtags := nv_hashtags v;
     nv_like := r; nv_retweet := nv_retweet v;
     nv_analytics := nv_analytics v |}.

Definition with_retweet (r : result Control) (v : NodeView) : NodeView :=
  {| nv_time := nv_time v; nv_user_name := nv_user_name v;
     nv_tweet_text := nv_tweet_text v; nv_hashtags := nv_hashtags v;
     nv_like := nv_like v; nv_retweet := r;
     nv_analytics := nv_analytics v |}.

Definition with_analytics (r : result Control) (v : NodeView) : NodeView :=
  {| nv_time := nv_time v; nv_user_name := nv_user_name v;
     nv_tweet_text := nv_tweet_text v; nv_hashtags := nv_hashtags v;
     nv_like := nv_like v; nv_retweet := nv_retweet v;
     nv_analytics := r |}.

Definition with_tweet_text (r : result Element) (v : NodeView) : NodeView :=
  {| nv_time := nv_time v; nv_user_name := nv_user_name v;
     nv_tweet_text := r; nv_hashtags := nv_hashtags v;
     nv_like := nv_like v; nv_retweet := nv_retweet v;
     nv_analytics := nv_analytics v |}.

(** The record [p] with other values for some of its fields. *)
Definition with_counts (like_count repost_count view_count : Z) (p : Post)
    : Post :=
  {| post_url := post_url p; username := username p;
     display_name := display_name p; date := date p; text := text p;
     likes := like_count; reposts := repost_count; views := view_count;
     hashtags := hashtags p |}.

Definition with_text (body : pystr) (p : Post) : Post :=
  {| post_url := post_url p; username := username p;
     display_name := display_name p; date := date p; text := body;
     likes := likes p; reposts := reposts p; views := views p;
     hashtags := hashtags p |}.

(** The handle among the texts of the links of the user-name block: the
    first that starts with ['@'], else the second text, else [""]. *)
Definition handle_of (texts : list pystr) : pystr :=
  match List.find (starts_with [c_at]) texts with
  | Some t => t
  | None =>
      match texts with
      | _ :: second :: _ => second
      | _ => []
      end
  end.

(** What may stand in [collected_data]. *)
Definition buzzed (p : Post) : Prop :=
  LIKE_THRESHOLD <= likes p ∧ has_status_marker (post_url p).

(** The records of [posts] that an accumulator with unbounded room and the
    seen set [seen] accepts, in order: the first occurrence of each url
    not in [seen], when its like count reaches the threshold. *)
Fixpoint accepted_of (seen : gset pystr) (posts : list Post) : list Post :=
  match posts with
  | [] => []
  | p :: rest =>
      if decide (post_url p ∈ seen) then accepted_of seen rest
      else if decide (LIKE_THRESHOLD <= likes p)
           then p :: accepted_of ({[ post_url p ]} ∪ seen) rest
           else accepted_of ({[ post_url p ]} ∪ seen) rest
  end.

(* ===================================================================== *)
(** ** [save_data] (lines 246-284) *)
(* ===================================================================== *)

Module Persist.

Definition c_slash : N := 47.       (* '/' *)

Definition OUTPUT_DIR : pystr := lit "data".
Definition OUTPUT_FILENAME : pystr := lit "buzzed_posts.csv".

Fixpoint drop_while (f : N -> bool) (s : pystr) : pystr :=
  match s with
  | c :: s' => if f c then drop_while f s' else s
  | [] => []
  end.

(** [os.path.dirname(p)] (POSIX): the part up to the last ['/'], without
    its trailing slashes unless it holds nothing else. *)
Definition dirname (p : pystr) : pystr :=
  let head := rev (drop_while (fun c => negb (c =? c_slash)%N) (rev p)) in
  if negb (is_empty head) && negb (forallb (N.eqb c_slash) head)
  then rev (drop_while (N.eqb c_slash) (rev head))
  else head.

(** [os.path.join(a, b)] (POSIX). *)
Definition path_join (a b : pystr) : pystr :=
  if starts_with [c_slash] b then b
  else if is_empty a || starts_with [c_slash] (rev a) then a ++ b
  else a ++ [c_slash] ++ b.

(** [s.replace(old, new)] for a non-empty [old]: [skip] characters of an
    occurrence already replaced are still to be passed over. *)
Fixpoint replace_from (old new : pystr) (skip : nat) (s : pystr) : pystr :=
  match s with
  | [] => []
  | c :: s' =>
      match skip with
      | S k => replace_from old new k s'
      | O =>
          if starts_with old s
          then new ++ replace_from old new (length old - 1) s'
          else c :: replace_from old new 0 s'
      end
  end.

Definition replace (old new s : pystr) : pystr := replace_from old new 0 s.

(** What [save_data] asks of the file system, in order.  The rows are the
    records in the order given, with the columns of [CSV_COLUMNS]. *)
Inductive request :=
| MakeDirs (directory : pystr)                (* line 266 *)
| ToCsv (path : pystr) (rows : list Post)     (* line 271 *)
| ToJson (path : pystr) (rows : list Post).   (* line 277 *)

(** What it prints. *)
Inductive message :=
| NoData                            (* line 256 *)
| SavedCsv (path : pystr)           (* line 272 *)
| SavedJson (path : pystr)          (* line 278 *)
| Unsupported (format : pystr)      (* line 281 *)
| SaveFailed (e : exn).             (* line 284 *)

(** What the file system answers.  The program never tells one failure of
    the disk from another (it prints it or lets it pass), so a failure is
    any exception. *)
Record Disk := {
  makedirs : pystr -> result unit;
  to_csv : pystr -> list Post -> result unit;
  to_json : pystr -> list Post -> result unit
}.

Record Saved := {
  requests : list request;
  messages : list message;
  raised : option exn               (* the exception that left the call *)
}.

Definition save_data (disk : Disk) (data : list Post)
    (output_path output_format : pystr) : Saved :=
  match data with
  | [] => {| requests := []; messages := [NoData]; raised := None |}
  | _ =>
      let directory := dirname output_path in
      match makedirs disk directory with
      | Raise e =>
          {| requests := [MakeDirs directory]; messages := [];
             raised := Some e |}
      | Ok _ =>
          if eqb output_format (lit "csv") then
            {| requests := [MakeDirs directory; ToCsv output_path data];
               messages := [match to_csv disk output_path data with
                            | Ok _ => SavedCsv output_path
                            | Raise e => SaveFailed e
                            end];
               raised := None |}
          else if eqb output_format (lit "json") then
            let json_path := replace (lit ".csv") (lit ".json") output_path in
            {| requests := [MakeDirs directory; ToJson json_path data];
               messages := [match to_json disk json_path data with
                            | Ok _ => SavedJson json_path
                            | Raise e => SaveFailed e
                            end];
               raised := None |}
          else
            {| requests := [MakeDirs directory];
               messages := [Unsupported output_format];
               raised := None |}
      end
  end.

(** The call of line 411. *)
Definition save_collected (disk : Disk) (collected : list Post) : Saved :=
  save_data disk collected (path_join OUTPUT_DIR OUTPUT_FILENAME) (lit "csv").

Definition is_write (r : request) : bool :=
  match r with
  | MakeDirs _ => false
  | _ => true
  end.

End Persist.

(** The characters the program looks for that are not letters. *)
Definition caseless (k : N) : Prop :=
  k = c_comma ∨ k = c_dot ∨ k = c_plus ∨ k = c_minus ∨ k = c_underscore
  ∨ k = c_man.

(* ===================================================================== *)
(** * Properties *)
(* ===================================================================== *)

(** ** Strings *)

Lemma contains_char_elem (c : N) (s : pystr) :
  contains_char c s = true <-> c ∈ s.
Proof.
  unfold contains_char. rewrite existsb_exists. split.
  - intros (x & Hin & Heq). apply N.eqb_eq in Heq. subst x.
    by apply list_elem_of_In.
  - intros Hin. exists c. split; [by apply list_elem_of_In | apply N.eqb_refl].
Qed.

Lemma is_ascii_digit_range (c : N) :
  is_ascii_digit c = true <-> (48 <= c <= 57)%N.
Proof.
  unfold is_ascii_digit. rewrite andb_true_iff, !N.leb_le. tauto.
Qed.

Lemma isdigit_spec (s : pystr) :
  isdigit s = true <-> s ≠ [] ∧ Forall (fun c => is_digit c = true) s.
Proof.
  destruct s as [|c s].
  - split; [discriminate | intros [H _]; by destruct H].
  - unfold isdigit. rewrite forallb_forall, Forall_forall. split.
    + intros H. split; [done|]. intros x Hx. by apply H, list_elem_of_In.
    + intros [_ H] x Hx. by apply H, list_elem_of_In.
Qed.

Lemma starts_with_spec (p s : pystr) :
  starts_with p s = true <-> ∃ suf, s = p ++ suf.
Proof.
  revert s. induction p as [|a p IH]; intros s; simpl.
  - split; [intros _; by exists s | done].
  - destruct s as [|b s].
    + split; [discriminate | intros [suf H]; discriminate].
    + rewrite andb_true_iff, N.eqb_eq, IH. split.
      * intros [-> [suf ->]]. by exists suf.
      * intros [suf H]. injection H as -> ->. split; [done | by exists suf].
Qed.

(** [contains p s] is the substring test [p in s]. *)
Lemma contains_spec (p s : pystr) :
  contains p s = true <-> ∃ pre suf, s = pre ++ p ++ suf.
Proof.
  induction s as [|b s IH].
  - simpl. rewrite orb_false_r, starts_with_spec. split.
    + intros [suf H]. by exists [], suf.
    + intros (pre & suf & H). destruct pre as [|x pre]; [|discriminate].
      by exists suf.
  - cbn [contains]. rewrite orb_true_iff, starts_with_spec, IH. split.
    + intros [[suf H] | (pre & suf & H)].
      * by exists [], suf.
      * exists (b :: pre), suf. by rewrite H.
    + intros (pre & suf & H). destruct pre as [|x pre].
      * left. by exists suf.
      * right. injection H as -> ->. by exists pre, suf.
Qed.

(** ** Floats *)

(** [int(x)] of a finite float [±m·2^e] is [±a], where [a] is the integer
    part of [m·2^e]. *)
Lemma to_int_truncates (s : bool) (m : positive) (e : Z) :
  ∃ a, PyFloat.to_int (S754_finite s m e) = Ok (if s then - a else a) ∧
       0 <= a ∧
       (0 <= e -> a = Zpos m * 2 ^ e) ∧
       (e < 0 -> a * 2 ^ (- e) <= Zpos m < (a + 1) * 2 ^ (- e)).
Proof.
  destruct e as [|n|n]; simpl PyFloat.to_int.
  - exists (Zpos m). repeat split; try lia.
  - exists (Z.shiftl (Zpos m) (Zpos n)). split; [done|].
    rewrite Z.shiftl_mul_pow2 by lia. repeat split; try lia.
  - exists (Z.shiftr (Zpos m) (Zpos n)). split; [done|].
    rewrite Z.shiftr_div_pow2 by lia.
    assert (Hp : 0 < 2 ^ Zpos n) by (apply Z.pow_pos_nonneg; lia).
    split; [apply Z.div_pos; lia|]. split; [lia|]. intros _.
    change (- Zneg n) with (Zpos n).
    pose proof (Z.mul_div_le (Zpos m) (2 ^ Zpos n) Hp).
    pose proof (Z.mul_succ_div_gt (Zpos m) (2 ^ Zpos n) Hp).
    lia.
Qed.

(** ** The metric normalizer *)

(** C5 (refuted on the code): [convert_to_int] is not total and not
    non-negative.  On ["infK"] the [float] is an infinity, [int] raises
    [OverflowError], and the [except ValueError] clause of line 102 does
    not catch it; on ["-5K"] the result is -5000. *)
Theorem C5_convert_to_int_raises_and_goes_negative :
  convert_to_int (lit "infK") = Raise OverflowError ∧
  convert_to_int (lit "1e400K") = Raise OverflowError ∧
  convert_to_int (lit "-5K") = Ok (-5000).
Proof. repeat split; vm_compute; reflexivity. Qed.

(** C6: the reference values of the normalizer: ["1,234"] is 1234,
    ["1.5万"] is 15000, ["10K"] is 10000, ["2M"] is 2000000, [""] and
    ["abc"] are 0; and the conversion of the scaled float to an integer
    drops the fraction (truncation toward zero), as ["1.9999K"],
    ["1.23456万"] and ["-1.9999K"] show. *)
Theorem C6_convert_to_int_reference_values :
  convert_to_int (lit "1,234") = Ok 1234 ∧
  convert_to_int (lit "1.5" ++ [c_man]) = Ok 15000 ∧
  convert_to_int (lit "10K") = Ok 10000 ∧
  convert_to_int (lit "2M") = Ok 2000000 ∧
  convert_to_int (lit "") = Ok 0 ∧
  convert_to_int (lit "abc") = Ok 0 ∧
  convert_to_int (lit "1.9999K") = Ok 1999 ∧
  convert_to_int (lit "1.23456" ++ [c_man]) = Ok 12345 ∧
  convert_to_int (lit "-1.9999K") = Ok (-1999) ∧
  (∀ (s : bool) (m : positive) (e : Z),
     ∃ a, PyFloat.to_int (S754_finite s m e) = Ok (if s then - a else a) ∧
          0 <= a ∧
          (0 <= e -> a = Zpos m * 2 ^ e) ∧
          (e < 0 -> a * 2 ^ (- e) <= Zpos m < (a + 1) * 2 ^ (- e))).
Proof.
  repeat split; try (vm_compute; reflexivity).
  apply to_int_truncates.
Qed.

(** ** The post extractor *)

Lemma retryable_spec (e : exn) :
  is_NoSuchElement_or_Stale e = true <-> retryable e.
Proof.
  unfold retryable. destruct e; simpl; split; intros H;
    try done; try (by left); try (by right); by destruct H.
Qed.

Lemma not_retryable_spec (e : exn) :
  is_NoSuchElement_or_Stale e = false <-> ¬ retryable e.
Proof.
  rewrite <- retryable_spec. by destruct (is_NoSuchElement_or_Stale e).
Qed.

Lemma parse_loop_retry (article : Article) (attempt todo : nat) (e : exn) :
  read_post (article attempt) = Raise e ->
  retryable e ->
  (attempt < MAX_PARSE_RETRIES - 1)%nat ->
  parse_loop article attempt (S todo) =
    let run := parse_loop article (S attempt) todo in
    {| pr_post := pr_post run;
       pr_attempts := S (pr_attempts run);
       pr_effects := Sleep 500 :: pr_effects run |}.
Proof.
  intros Hread Hre Hlt. cbn [parse_loop]. rewrite Hread.
  apply retryable_spec in Hre. rewrite Hre.
  apply Nat.ltb_lt in Hlt. by rewrite Hlt.
Qed.

Lemma parse_loop_give_up (article : Article) (attempt todo : nat) (e : exn) :
  read_post (article attempt) = Raise e ->
  retryable e ->
  ¬ (attempt < MAX_PARSE_RETRIES - 1)%nat ->
  parse_loop article attempt (S todo) =
    {| pr_post := None; pr_attempts := 1; pr_effects := [] |}.
Proof.
  intros Hread Hre Hlt. cbn [parse_loop]. rewrite Hread.
  apply retryable_spec in Hre. rewrite Hre.
  apply Nat.ltb_nlt in Hlt. by rewrite Hlt.
Qed.

Lemma parse_loop_unexpected (article : Article) (attempt todo : nat) (e : exn) :
  read_post (article attempt) = Raise e ->
  ¬ retryable e ->
  parse_loop article attempt (S todo) =
    {| pr_post := None; pr_attempts := 1; pr_effects := [Warn e] |}.
Proof.
  intros Hread Hre. cbn [parse_loop]. rewrite Hread.
  apply not_retryable_spec in Hre. by rewrite Hre.
Qed.

Lemma parse_loop_returns (article : Article) (attempt todo : nat)
    (r : option Post) :
  read_post (article attempt) = Ok r ->
  parse_loop article attempt (S todo) =
    {| pr_post := r; pr_attempts := 1; pr_effects := [] |}.
Proof. intros Hread. cbn [parse_loop]. by rewrite Hread. Qed.

(** From attempt [attempt] on, after [k] further retryable failures. *)
Lemma parse_loop_after_failures (article : Article) (k attempt todo : nat) :
  (∀ i, (i < k)%nat ->
        ∃ e, read_post (article (attempt + i)%nat) = Raise e ∧ retryable e) ->
  (attempt + k < MAX_PARSE_RETRIES)%nat ->
  (k <= todo)%nat ->
  parse_loop article attempt todo =
    let run := parse_loop article (attempt + k) (todo - k) in
    {| pr_post := pr_post run;
       pr_attempts := k + pr_attempts run;
       pr_effects := replicate k (Sleep 500) ++ pr_effects run |}.
Proof.
  revert attempt todo. induction k as [|k IH]; intros attempt todo Hf Hlt Hle.
  - rewrite Nat.add_0_r, Nat.sub_0_r. simpl. by destruct (parse_loop _ _ _).
  - destruct todo as [|todo]; [lia|].
    destruct (Hf 0%nat ltac:(lia)) as (e & Hread & Hre).
    rewrite Nat.add_0_r in Hread.
    rewrite (parse_loop_retry _ _ _ e) by (unfold MAX_PARSE_RETRIES in *; done || lia).
    rewrite (IH (S attempt) todo); [| | lia | lia].
    + replace (S attempt + k)%nat with (attempt + S k)%nat by lia.
      replace (S todo - S k)%nat with (todo - k)%nat by lia. done.
    + intros i Hi. destruct (Hf (S i) ltac:(lia)) as (e' & Hread' & Hre').
      replace (S attempt + i)%nat with (attempt + S i)%nat by lia. eauto.
Qed.

(** C7: a staleness or missing-element failure makes [parse_post] read the
    same node again, at most [MAX_PARSE_RETRIES = 3] times in all, with a
    sleep of 0.5 s before each retry; after the third such failure it
    returns [None] and raises nothing; a failure of any other kind ends
    the call at once with [None] (and a warning), without a retry.  The
    run of [parse_post] after [k] retryable failures is decided by
    attempt [k]. *)
Theorem C7_parse_post_bounded_retry (article : Article) (k : nat) :
  fails_before article k ->
  (k <= MAX_PARSE_RETRIES)%nat ->
  (k = MAX_PARSE_RETRIES ->
     parse_post_run article =
       {| pr_post := None; pr_attempts := 3;
          pr_effects := [Sleep 500; Sleep 500] |}) ∧
  (k < MAX_PARSE_RETRIES ->
     (∀ e, read_post (article k) = Raise e -> ¬ retryable e ->
        parse_post_run article =
          {| pr_post := None; pr_attempts := S k;
             pr_effects := replicate k (Sleep 500) ++ [Warn e] |}) ∧
     (∀ r, read_post (article k) = Ok r ->
        parse_post_run article =
          {| pr_post := r; pr_attempts := S k;
             pr_effects := replicate k (Sleep 500) |}))%nat ∧
  (pr_attempts (parse_post_run article) <= MAX_PARSE_RETRIES)%nat.
Proof.
  intros Hf Hk. unfold parse_post_run. split; [|split].
  - intros ->.
    rewrite (parse_loop_after_failures article 2 0 MAX_PARSE_RETRIES);
      [| intros i Hi; apply Hf; unfold MAX_PARSE_RETRIES; lia
       | unfold MAX_PARSE_RETRIES; lia | unfold MAX_PARSE_RETRIES; lia ].
    destruct (Hf 2%nat) as (e & Hread & Hre); [unfold MAX_PARSE_RETRIES; lia|].
    change (MAX_PARSE_RETRIES - 2)%nat with 1%nat. simpl Nat.add.
    rewrite (parse_loop_give_up _ _ _ e Hread Hre);
      [done | unfold MAX_PARSE_RETRIES; lia].
  - intros Hlt.
    pose proof (parse_loop_after_failures article k 0 MAX_PARSE_RETRIES) as Hrun.
    simpl Nat.add in Hrun. specialize (Hrun Hf Hlt Hk).
    destruct (MAX_PARSE_RETRIES - k)%nat as [|todo] eqn:Htodo; [lia|].
    split.
    + intros e Hread Hre. rewrite Hrun.
      rewrite (parse_loop_unexpected _ _ _ e Hread Hre). simpl.
      by rewrite Nat.add_1_r.
    + intros r Hread. rewrite Hrun.
      rewrite (parse_loop_returns _ _ _ r Hread). simpl.
      by rewrite Nat.add_1_r, app_nil_r.
  - clear. unfold MAX_PARSE_RETRIES. simpl.
    repeat (case_match; simpl; try lia).
Qed.

Example sample_view_parses :
  parse_post_run (steady (sample_view url_1 (lit "1.5K"))) =
    {| pr_post := Some (sample_post url_1 1500);
       pr_attempts := 1; pr_effects := [] |}.
Proof. vm_compute. reflexivity. Qed.

Lemma C7_parse_post_bounded_retry_witness :
  parse_post_run (steady stale_view) =
    {| pr_post := None; pr_attempts := 3;
       pr_effects := [Sleep 500; Sleep 500] |}
  ∧ parse_post_run (flaky (sample_view url_1 (lit "120"))) =
    {| pr_post := Some (sample_post url_1 120); pr_attempts := 2;
       pr_effects := [Sleep 500] |}.
Proof.
  split.
  - apply (C7_parse_post_bounded_retry (steady stale_view) 3).
    + intros i _. exists StaleElementReferenceException.
      split; [reflexivity | right; reflexivity].
    + unfold MAX_PARSE_RETRIES. lia.
    + reflexivity.
  - apply (C7_parse_post_bounded_retry (flaky (sample_view url_1 (lit "120"))) 1).
    + intros i Hi. exists StaleElementReferenceException.
      destruct i as [|i]; [|lia].
      split; [reflexivity | right; reflexivity].
    + unfold MAX_PARSE_RETRIES. lia.
    + unfold MAX_PARSE_RETRIES. lia.
    + vm_compute. reflexivity.
Defined.

(** C8: when the permalink read at the first attempt lacks the marker
    ["/status/"], [parse_post] returns [None] from that attempt: one read
    of the node, no retry, no sleep. *)
Theorem C8_no_status_marker_no_retry (article : Article)
    (time_element : TimeElement) (post_date : option pystr)
    (ancestor_a : Anchor) (url : pystr) :
  nv_time (article 0%nat) = Ok time_element ->
  t_datetime time_element = Ok post_date ->
  t_ancestor_a time_element = Ok ancestor_a ->
  a_href ancestor_a = Ok (Some url) ->
  ¬ has_status_marker url ->
  read_post (article 0%nat) = Ok None ∧
  parse_post_run article =
    {| pr_post := None; pr_attempts := 1; pr_effects := [] |}.
Proof.
  intros Ht Hd Ha Hh Hno.
  assert (Hread : read_post (article 0%nat) = Ok None).
  { unfold read_post. rewrite Ht. simpl. rewrite Hd. simpl.
    rewrite Ha. simpl. rewrite Hh. simpl.
    destruct (contains (lit "/status/") url) eqn:Hc; [|done].
    exfalso. apply Hno. by apply contains_spec. }
  split; [done|].
  unfold parse_post_run, MAX_PARSE_RETRIES.
  by rewrite (parse_loop_returns _ _ _ None Hread).
Qed.

Lemma C8_no_status_marker_no_retry_witness :
  read_post (steady (sample_view url_ad (lit "5,000")) 0%nat) = Ok None ∧
  parse_post_run (steady (sample_view url_ad (lit "5,000"))) =
    {| pr_post := None; pr_attempts := 1; pr_effects := [] |}.
Proof.
  eapply (C8_no_status_marker_no_retry
            (steady (sample_view url_ad (lit "5,000")))).
  - reflexivity.
  - reflexivity.
  - reflexivity.
  - reflexivity.
  - intros H. apply contains_spec in H. vm_compute in H. discriminate H.
Defined.

Lemma looks_numeric_spec (t : pystr) :
  looks_numeric t = true <-> numeric_or_suffixed t.
Proof.
  unfold looks_numeric, numeric_or_suffixed.
  rewrite andb_true_iff, !orb_true_iff, !contains_char_elem, isdigit_spec.
  assert (He : negb (is_empty t) = true <-> t ≠ []).
  { destruct t; simpl; split; intros H; done. }
  rewrite He. tauto.
Qed.

Lemma first_metric_text_none (spans : list Element) :
  (∀ span, span ∈ spans ->
     ∃ raw, el_text span = Ok raw ∧ ¬ numeric_or_suffixed (strip raw)) ->
  first_metric_text spans = Ok [].
Proof.
  induction spans as [|span rest IH]; intros H; [done|].
  cbn [first_metric_text].
  destruct (H span) as (raw & Hraw & Hno); [set_solver|].
  rewrite Hraw. simpl.
  destruct (looks_numeric (strip raw)) eqn:Hl.
  - exfalso. by apply Hno, looks_numeric_spec.
  - apply IH. intros s Hs. apply H. set_solver.
Qed.

(** C10: when a metric control is present but none of its spans has a
    stripped text that is non-empty and either all digits or holding
    ['K'], ['M'], ['万'] or [','], the text handed to [convert_to_int] is
    the empty string and the metric is 0.  The test is case-sensitive: a
    span reading ["10k"] is skipped, and the metric is 0. *)
Theorem C10_metric_without_numeric_span_is_zero (button : Control)
    (spans : list Element) :
  ctl_spans button = Ok spans ->
  (∀ span, span ∈ spans ->
     ∃ raw, el_text span = Ok raw ∧ ¬ numeric_or_suffixed (strip raw)) ->
  first_metric_text spans = Ok [] ∧
  convert_to_int [] = Ok 0 ∧
  read_metric (Ok button) = Ok 0 ∧
  ¬ numeric_or_suffixed (strip (lit "10k")) ∧
  read_metric (Ok (control [lit "10k"])) = Ok 0.
Proof.
  intros Hs Hno.
  pose proof (first_metric_text_none spans Hno) as Hfirst.
  repeat split; try done.
  - unfold read_metric. simpl. rewrite Hs. simpl. by rewrite Hfirst.
  - intros H. apply looks_numeric_spec in H. vm_compute in H. discriminate H.
Qed.

Lemma C10_metric_without_numeric_span_is_zero_witness :
  first_metric_text (map element [lit "Like"; lit " 10k "]) = Ok [] ∧
  convert_to_int [] = Ok 0 ∧
  read_metric (Ok (control [lit "Like"; lit " 10k "])) = Ok 0 ∧
  ¬ numeric_or_suffixed (strip (lit "10k")) ∧
  read_metric (Ok (control [lit "10k"])) = Ok 0.
Proof.
  apply (C10_metric_without_numeric_span_is_zero
           (control [lit "Like"; lit " 10k "])).
  - reflexivity.
  - intros span Hin.
    apply list_elem_of_In in Hin. simpl in Hin.
    destruct Hin as [<- | [<- | []]].
    + exists (lit "Like"). split; [reflexivity|].
      intros H. apply looks_numeric_spec in H. vm_compute in H. discriminate H.
    + exists (lit " 10k "). split; [reflexivity|].
      intros H. apply looks_numeric_spec in H. vm_compute in H. discriminate H.
Defined.

(** ** The accumulator *)

Lemma offer_seen (post_data : Post) (st : Locals) :
  post_url post_data ∈ scraped_urls st ->
  offer post_data st = (st, false).
Proof. intros Hin. unfold offer. by rewrite bool_decide_eq_true_2. Qed.

Lemma offer_new (post_data : Post) (st : Locals) :
  post_url post_data ∉ scraped_urls st ->
  ∃ st',
    offer post_data st = (st', bool_decide (LIKE_THRESHOLD <= likes post_data)) ∧
    scraped_urls st' = {[ post_url post_data ]} ∪ scraped_urls st ∧
    collected_data st' =
      (if bool_decide (LIKE_THRESHOLD <= likes post_data)
       then collected_data st ++ [post_data] else collected_data st) ∧
    new_posts_found_in_this_scroll st' =
      (bool_decide (LIKE_THRESHOLD <= likes post_data)
       || new_posts_found_in_this_scroll st) ∧
    last_height st' = last_height st ∧
    patience st' = patience st ∧
    scroll_count st' = scroll_count st.
Proof.
  intros Hnew. unfold offer. rewrite bool_decide_eq_false_2 by done.
  destruct (Z.leb_spec LIKE_THRESHOLD (likes post_data)) as [Hle | Hlt].
  - rewrite bool_decide_eq_true_2 by done. eexists. split; [done|]. by simpl.
  - rewrite bool_decide_eq_false_2 by lia. eexists. split; [done|]. by simpl.
Qed.

(** What every call of [offer] keeps. *)
Lemma offer_frame (post_data : Post) (st : Locals) :
  let st' := (offer post_data st).1 in
  let accepted := (offer post_data st).2 in
  last_height st' = last_height st ∧
  patience st' = patience st ∧
  scroll_count st' = scroll_count st ∧
  scraped_urls st ⊆ scraped_urls st' ∧
  collected_data st' =
    (if accepted then collected_data st ++ [post_data] else collected_data st) ∧
  new_posts_found_in_this_scroll st' =
    (accepted || new_posts_found_in_this_scroll st) ∧
  (distinct_and_seen st -> distinct_and_seen st').
Proof.
  destruct (decide (post_url post_data ∈ scraped_urls st)) as [Hin | Hnew].
  - rewrite (offer_seen _ _ Hin). simpl. by split_and!.
  - destruct (offer_new _ _ Hnew) as (st' & -> & Hseen & Hc & Hf & Hh & Hp & Hn).
    simpl. split_and!; try done.
    + rewrite Hseen. apply union_subseteq_r.
    + intros [Hnd Hsub]. split.
      * rewrite Hc. case_bool_decide; [|done].
        unfold urls. rewrite map_app. simpl. apply NoDup_app.
        split; [done|]. split; [|apply NoDup_singleton].
        intros u Hu Hu'. apply list_elem_of_singleton in Hu'. subst u.
        by apply Hnew, Hsub.
      * intros u. rewrite Hc, Hseen. case_bool_decide.
        -- unfold urls. rewrite map_app. simpl. rewrite elem_of_app.
           intros [Hu | Hu]; [by apply elem_of_union_r, Hsub|].
           apply list_elem_of_singleton in Hu. subst u.
           by apply elem_of_union_l, elem_of_singleton.
        -- intros Hu. by apply elem_of_union_r, Hsub.
Qed.

(** What the [for] loop keeps. *)
Lemma scan_frame (limit : Z) (articles : list Article) (st : Locals) :
  let st' := scan_articles limit articles st in
  last_height st' = last_height st ∧
  patience st' = patience st ∧
  scroll_count st' = scroll_count st ∧
  scraped_urls st ⊆ scraped_urls st' ∧
  (∃ more, collected_data st' = collected_data st ++ more) ∧
  new_posts_found_in_this_scroll st' =
    (new_posts_found_in_this_scroll st
     || (len (collected_data st) <? len (collected_data st'))) ∧
  (len (collected_data st) < limit -> len (collected_data st') <= limit) ∧
  (distinct_and_seen st -> distinct_and_seen st').
Proof.
  revert st. induction articles as [|article rest IH]; intros st; simpl.
  - split_and!; [done | done | done | done | | | lia | done].
    + by exists []; rewrite app_nil_r.
    + by rewrite Z.ltb_irrefl, orb_false_r.
  - destruct (parse_post article) as [post_data|]; [|apply IH].
    pose proof (offer_frame post_data st) as Ho.
    destruct (offer post_data st) as [st1 accepted]. simpl in Ho.
    destruct Ho as (Hh & Hp & Hn & Hseen & Hc & Hf & Hinv).
    assert (Hlen : len (collected_data st1) =
                   len (collected_data st) + (if accepted then 1 else 0)).
    { rewrite Hc. unfold len. destruct accepted; [|lia].
      rewrite length_app. simpl. lia. }
    assert (Hgo : let st' := scan_articles limit rest st1 in
              last_height st' = last_height st ∧
              patience st' = patience st ∧
              scroll_count st' = scroll_count st ∧
              scraped_urls st ⊆ scraped_urls st' ∧
              (∃ more, collected_data st' = collected_data st ++ more) ∧
              new_posts_found_in_this_scroll st' =
                (new_posts_found_in_this_scroll st
                 || (len (collected_data st) <? len (collected_data st'))) ∧
              (len (collected_data st1) < limit ->
               len (collected_data st') <= limit) ∧
              (distinct_and_seen st -> distinct_and_seen st')).
    { specialize (IH st1). simpl in IH. simpl.
      destruct IH as (Hh' & Hp' & Hn' & Hseen' & [more Hc'] & Hf' & Hl' & Hinv').
      assert (Hlen' : len (collected_data (scan_articles limit rest st1)) =
                      len (collected_data st1) + len more).
      { rewrite Hc'. unfold len. rewrite length_app. lia. }
      split_and!; [congruence | congruence | congruence | set_solver
                  | | | done | by auto ].
      - exists ((if accepted then [post_data] else []) ++ more).
        rewrite Hc', Hc. destruct accepted; [by rewrite <- app_assoc | done].
      - rewrite Hf', Hf.
        destruct (new_posts_found_in_this_scroll st); simpl;
          [by rewrite orb_true_r|].
        rewrite orb_false_r.
        destruct accepted; simpl.
        + symmetry. apply Z.ltb_lt. unfold len in *. lia.
        + rewrite Hlen', Hlen, Z.add_0_r. done. }
    simpl in Hgo.
    destruct Hgo as (Hh' & Hp' & Hn' & Hseen' & Hc' & Hf' & Hl' & Hinv').
    destruct accepted; simpl.
    + destruct (Z.leb_spec limit (len (collected_data st1))) as [Hfull | Hroom].
      * split_and!; [done | done | done | done | | | lia | done].
        -- by exists [post_data].
        -- rewrite Hf. simpl. symmetry. apply orb_true_iff. right.
           apply Z.ltb_lt. lia.
      * split_and!; try done. intros _. by apply Hl'.
    + split_and!; try done. intros Hroom. apply Hl'. lia.
Qed.

(** C1: a post whose url is new is appended to [collected_data] exactly
    when its like count is at least [LIKE_THRESHOLD] (100) and fewer than
    [limit] records are collected.  The room is what the guard of line 321
    and the [break]s of lines 365 and 375 keep at every offer: a post with
    99 likes is never appended, one with 100 is, and when the append brings
    the count to [limit] the [for] loop leaves the rest of the snapshot
    alone and the [while] loop ends, so nothing is offered to a full
    collection. *)
Theorem C1_offer_accepts_iff_threshold_and_room (limit : Z) (st : Locals)
    (post_data : Post) :
  post_url post_data ∉ scraped_urls st ->
  len (collected_data st) < limit ->
  let st' := (offer post_data st).1 in
  let accepted := (offer post_data st).2 in
  (accepted = true <->
     LIKE_THRESHOLD <= likes post_data ∧ len (collected_data st) < limit) ∧
  collected_data st' =
    (if accepted then collected_data st ++ [post_data] else collected_data st) ∧
  (likes post_data = LIKE_THRESHOLD - 1 -> accepted = false) ∧
  (likes post_data = LIKE_THRESHOLD -> accepted = true) ∧
  len (collected_data st') <= limit ∧
  (∀ article rest, parse_post article = Some post_data ->
     (len (collected_data st') < limit ∧
      scan_articles limit (article :: rest) st = scan_articles limit rest st')
     ∨ (len (collected_data st') = limit ∧
        scan_articles limit (article :: rest) st = st')) ∧
  (∀ fuel browser full, limit <= len (collected_data full) ->
     crawl_loop fuel limit browser full = Ok (full, Some TargetReached)).
Proof.
  intros Hnew Hroom.
  destruct (offer_new _ _ Hnew) as (st1 & Ho & _ & Hc & _).
  simpl. rewrite Ho. simpl.
  assert (Hlen : len (collected_data st1) =
                 len (collected_data st) +
                 (if bool_decide (LIKE_THRESHOLD <= likes post_data)
                  then 1 else 0)).
  { rewrite Hc. unfold len. case_bool_decide; [|lia].
    rewrite length_app. simpl. lia. }
  split_and!.
  - rewrite bool_decide_eq_true. tauto.
  - done.
  - intros Hl. apply bool_decide_eq_false_2. lia.
  - intros Hl. apply bool_decide_eq_true_2. lia.
  - case_bool_decide; lia.
  - intros article rest Hp. cbn [scan_articles]. rewrite Hp, Ho.
    case_bool_decide; simpl.
    + destruct (Z.leb_spec limit (len (collected_data st1))); [right | left];
        (split; [lia | done]).
    + left. split; [lia | done].
  - intros fuel browser full Hfull.
    destruct fuel; simpl;
      by destruct (Z.ltb_spec (len (collected_data full)) limit); [lia|].
Qed.

Lemma C1_offer_accepts_iff_threshold_and_room_witness :
  let st := initial 1000 in
  let st' := (offer (sample_post url_1 100) st).1 in
  let accepted := (offer (sample_post url_1 100) st).2 in
  accepted = true ∧ collected_data st' = [sample_post url_1 100].
Proof.
  pose proof (C1_offer_accepts_iff_threshold_and_room
                1 (initial 1000) (sample_post url_1 100)) as H.
  simpl in H.
  destruct H as (_ & Hc & _ & Ha & _).
  - intros Hin. by apply elem_of_empty in Hin.
  - unfold len. simpl. lia.
  - simpl. split; [by apply Ha | by rewrite Hc, Ha].
Defined.

(** ** The crawl loop *)

(** The ways a pass of the loop body can end without raising. *)
Lemma loop_body_cases (limit : Z) (b : Scroll) (st st' : Locals)
    (ex : option Exit) :
  loop_body limit b st = Ok (st', ex) ->
  (found_articles b = Ok [] ∧ scrolled b = Ok () ∧
   st' = begin_scroll st ∧ ex = None)
  ∨ ∃ articles s1,
      found_articles b = Ok articles ∧ articles ≠ [] ∧
      s1 = scan_articles limit articles (begin_scroll st) ∧
      ((limit <= len (collected_data s1) ∧ st' = s1 ∧ ex = Some TargetReached)
       ∨ (len (collected_data s1) < limit ∧
          ∃ h, scrolled b = Ok () ∧ new_height b = Ok h ∧
            ((h = last_height st ∧ new_posts_found_in_this_scroll s1 = false ∧
              st' = set_patience (patience st + 1) s1 ∧
              ex = (if MAX_SCROLL_PATIENCE <=? patience st + 1
                    then Some FeedExhausted else None))
             ∨ (h = last_height st ∧ new_posts_found_in_this_scroll s1 = true ∧
                st' = set_patience 0 s1 ∧ ex = None)
             ∨ (h ≠ last_height st ∧
                st' = set_patience 0 (set_last_height h s1) ∧ ex = None)))).
Proof.
  unfold loop_body. intros H.
  destruct (found_articles b) as [articles|e] eqn:Hf; [|discriminate].
  simpl in H. destruct articles as [|a rest].
  - destruct (scrolled b) as [[]|e] eqn:Hs; [|discriminate].
    simpl in H. injection H as <- <-. by left.
  - right. exists (a :: rest), (scan_articles limit (a :: rest) (begin_scroll st)).
    split; [done|]. split; [done|]. split; [done|].
    set (s1 := scan_articles limit (a :: rest) (begin_scroll st)) in *.
    destruct (scan_frame limit (a :: rest) (begin_scroll st))
      as (Hh & Hp & _). fold s1 in Hh, Hp. simpl in Hh, Hp.
    destruct (Z.leb_spec limit (len (collected_data s1))) as [Hfull | Hroom].
    + injection H as <- <-. by left.
    + right. split; [done|].
      destruct (scrolled b) as [[]|e] eqn:Hs; [|discriminate].
      destruct (new_height b) as [h|e] eqn:Hn; [|discriminate].
      simpl in H. exists h. split; [done|]. split; [done|].
      rewrite Hh, Hp in H.
      destruct (Z.eqb_spec h (last_height st)) as [-> | Hne].
      * destruct (new_posts_found_in_this_scroll s1) eqn:Hfound; simpl in H.
        -- injection H as <- <-. right. by left.
        -- left. split; [done|]. split; [done|].
           destruct (MAX_SCROLL_PATIENCE <=? patience st + 1);
             by injection H as <- <-.
      * injection H as <- <-. right. by right.
Qed.

Lemma distinct_and_seen_ext (st st' : Locals) :
  collected_data st' = collected_data st ->
  scraped_urls st' = scraped_urls st ->
  distinct_and_seen st -> distinct_and_seen st'.
Proof. unfold distinct_and_seen. by intros -> ->. Qed.

(** What every pass of the loop body keeps. *)
Lemma loop_body_frame (limit : Z) (b : Scroll) (st st' : Locals)
    (ex : option Exit) :
  loop_body limit b st = Ok (st', ex) ->
  scroll_count st' = scroll_count st + 1 ∧
  (distinct_and_seen st -> distinct_and_seen st') ∧
  (∃ more, collected_data st' = collected_data st ++ more) ∧
  (len (collected_data st) < limit -> len (collected_data st') <= limit) ∧
  (len (collected_data st) < limit -> ex = None ->
   len (collected_data st') < limit).
Proof.
  intros H. apply loop_body_cases in H.
  destruct H as [(_ & _ & -> & ->) | (articles & s1 & _ & _ & Hs1 & H)].
  - simpl. split_and!; try done; try lia.
    by exists []; rewrite app_nil_r.
  - destruct (scan_frame limit articles (begin_scroll st))
      as (_ & _ & Hn & _ & Hmore & _ & Hle & Hinv).
    rewrite <- Hs1 in Hn, Hmore, Hle, Hinv. simpl in *.
    assert (Hd : distinct_and_seen st -> distinct_and_seen s1).
    { intros Hd. apply Hinv. revert Hd. by apply distinct_and_seen_ext. }
    destruct H as [(Hfull & -> & ->) | (Hroom & h & _ & _ & H)].
    + split_and!; try done.
    + destruct H as [(_ & _ & -> & _) | [(_ & _ & -> & _) | (_ & -> & _)]];
        simpl; split_and!; try done;
        intros Hst; apply Hd in Hst; revert Hst;
        by apply distinct_and_seen_ext.
Qed.

(** How far the loop went. *)
Lemma crawl_loop_frame (fuel : nat) (limit : Z) (browser : Browser)
    (st st' : Locals) (ex : option Exit) :
  crawl_loop fuel limit browser st = Ok (st', ex) ->
  scroll_count st <= scroll_count st' <= scroll_count st + Z.of_nat fuel ∧
  (scroll_count st <= max_scrolls -> scroll_count st' <= max_scrolls) ∧
  (distinct_and_seen st -> distinct_and_seen st') ∧
  (∃ more, collected_data st' = collected_data st ++ more) ∧
  len (collected_data st') <= Z.max limit (len (collected_data st)) ∧
  (ex = None ->
   scroll_count st' = scroll_count st + Z.of_nat fuel ∧
   scroll_count st' < max_scrolls ∧
   len (collected_data st') < limit).
Proof.
  revert st. induction fuel as [|fuel IH]; intros st H; cbn [crawl_loop] in H;
    destruct (Z.ltb_spec (len (collected_data st)) limit) as [Hroom | Hfull];
    simpl in H;
    try (injection H as <- <-; split_and!; try done; try lia;
         by exists []; rewrite app_nil_r);
    destruct (Z.ltb_spec (scroll_count st) max_scrolls) as [Hgo | Hstop];
    simpl in H;
    try (injection H as <- <-; split_and!; try done; try lia;
         by exists []; rewrite app_nil_r).
  destruct (loop_body limit (browser (scroll_count st + 1)) st)
    as [[s1 ex1]|e] eqn:Hbody; [|discriminate].
  simpl in H.
  destruct (loop_body_frame _ _ _ _ _ Hbody) as (Hn & Hd & [m1 Hm1] & Hle & Hlt).
  destruct ex1 as [reason|].
  - injection H as <- <-. split_and!; try done; try lia.
    by exists m1.
  - apply IH in H. destruct H as (Hn' & Hmax & Hd' & [m2 Hm2] & Hle' & Hrun).
    specialize (Hlt Hroom eq_refl).
    split_and!; try lia; try (by auto).
    + exists (m1 ++ m2). by rewrite Hm2, Hm1, <- app_assoc.
    + intros Hex. specialize (Hrun Hex). lia.
Qed.

(** The loop ends within [max_scrolls] passes. *)
Lemma crawl_loop_ends (fuel : nat) (limit : Z) (browser : Browser)
    (st : Locals) :
  max_scrolls - scroll_count st <= Z.of_nat fuel ->
  (∃ e, crawl_loop fuel limit browser st = Raise e)
  ∨ ∃ st' reason, crawl_loop fuel limit browser st = Ok (st', Some reason).
Proof.
  intros Hfuel.
  destruct (crawl_loop fuel limit browser st) as [[st' [reason|]]|e] eqn:H.
  - right. by exists st', reason.
  - apply crawl_loop_frame in H. destruct H as (_ & _ & _ & _ & _ & Hrun).
    specialize (Hrun eq_refl). lia.
  - left. by exists e.
Qed.

(** More fuel does not change the result of a loop that ended. *)
Lemma crawl_loop_more_fuel (fuel extra : nat) (limit : Z) (browser : Browser)
    (st : Locals) :
  crawl_loop (fuel + extra) limit browser st =
    match crawl_loop fuel limit browser st with
    | Ok (st', None) => crawl_loop extra limit browser st'
    | r => r
    end.
Proof.
  revert st. induction fuel as [|fuel IH]; intros st.
  - simpl.
    destruct (len (collected_data st) <? limit) eqn:Hl; simpl;
      [|by destruct extra; simpl; rewrite Hl].
    destruct (scroll_count st <? max_scrolls) eqn:Hs; simpl;
      [done | by destruct extra; simpl; rewrite Hl, Hs].
  - cbn [Nat.add crawl_loop].
    destruct (len (collected_data st) <? limit); simpl; [|done].
    destruct (scroll_count st <? max_scrolls); simpl; [|done].
    destruct (loop_body limit (browser (scroll_count st + 1)) st)
      as [[s1 [reason|]]|e]; simpl; [done | apply IH | done].
Qed.

Lemma initial_distinct_and_seen (height : Z) :
  distinct_and_seen (initial height).
Proof.
  split; simpl; [apply NoDup_nil_2|].
  intros u Hu. by apply elem_of_nil in Hu.
Qed.

(** C2: a post whose url is already in [scraped_urls] changes neither
    [collected_data] nor [scraped_urls], whatever its like count; a post
    whose url is new always enters [scraped_urls], also below the
    threshold; so a url offered once is skipped ever after, and
    [collected_data] never holds one url twice. *)
Theorem C2_seen_url_is_never_offered_twice :
  (∀ post_data st,
     post_url post_data ∈ scraped_urls st ->
     offer post_data st = (st, false)) ∧
  (∀ post_data st,
     post_url post_data ∉ scraped_urls st ->
     scraped_urls (offer post_data st).1 =
       {[ post_url post_data ]} ∪ scraped_urls st) ∧
  (∀ first again st,
     post_url again = post_url first ->
     offer again (offer first st).1 = ((offer first st).1, false)) ∧
  (∀ limit articles st,
     distinct_and_seen st ->
     distinct_and_seen (scan_articles limit articles st)) ∧
  (∀ fuel limit browser height st ex,
     crawl_loop fuel limit browser (initial height) = Ok (st, ex) ->
     NoDup (urls (collected_data st))).
Proof.
  split_and!.
  - apply offer_seen.
  - intros post_data st Hnew.
    destruct (offer_new _ _ Hnew) as (st' & Ho & Hseen & _).
    by rewrite Ho.
  - intros first again st Heq. apply offer_seen. rewrite Heq.
    destruct (decide (post_url first ∈ scraped_urls st)) as [Hin | Hnew].
    + by rewrite (offer_seen _ _ Hin).
    + destruct (offer_new _ _ Hnew) as (st' & Ho & Hseen & _).
      rewrite Ho. simpl. rewrite Hseen.
      apply elem_of_union_l. by apply elem_of_singleton.
  - intros limit articles st. apply scan_frame.
  - intros fuel limit browser height st ex H.
    apply crawl_loop_frame in H. destruct H as (_ & _ & Hd & _).
    by destruct (Hd (initial_distinct_and_seen height)).
Qed.

Lemma C2_seen_url_is_never_offered_twice_witness :
  let seen_once := (offer (sample_post url_1 7) (initial 1000)).1 in
  offer (sample_post url_1 5000) seen_once = (seen_once, false).
Proof.
  simpl.
  apply (proj1 (proj2 (proj2 C2_seen_url_is_never_offered_twice))).
  reflexivity.
Defined.

(** With empty scans only, every pass still counts. *)
Lemma crawl_loop_empty_scans (fuel : nat) (limit : Z) (browser : Browser)
    (st : Locals) :
  (∀ i, found_articles (browser i) = Ok [] ∧ scrolled (browser i) = Ok ()) ->
  len (collected_data st) < limit ->
  scroll_count st <= max_scrolls ->
  max_scrolls - scroll_count st <= Z.of_nat fuel ->
  ∃ st', crawl_loop fuel limit browser st = Ok (st', Some IterationCeiling) ∧
         scroll_count st' = max_scrolls ∧
         collected_data st' = collected_data st ∧
         patience st' = patience st.
Proof.
  intros Hempty. revert st.
  induction fuel as [|fuel IH]; intros st Hroom Hle Hfuel; cbn [crawl_loop];
    destruct (Z.ltb_spec (len (collected_data st)) limit); try lia; simpl;
    destruct (Z.ltb_spec (scroll_count st) max_scrolls); simpl;
    try (exists st; split_and!; [done | lia | done | done]); try lia.
  unfold loop_body.
  destruct (Hempty (scroll_count st + 1)) as [-> ->]. simpl.
  destruct (IH (begin_scroll st)) as (st' & -> & Hn & Hc & Hp);
    simpl; try lia.
  by exists st'.
Qed.

(** C4: the loop makes at most [max_scrolls = 50] passes: every pass adds
    one to [scroll_count], the passes that find no article included, and
    the guard of line 321 stops the loop at 50; so whatever the browser
    answers, the crawl ends (by a [break], by the guard, or by an
    exception of the driver), and with nothing but empty scans it ends at
    the ceiling after exactly 50 passes. *)
Theorem C4_crawl_ends_within_max_scrolls (fuel : nat) (limit : Z)
    (br : Browser) (height : Z) :
  (Z.to_nat max_scrolls <= fuel)%nat ->
  ((∃ e, crawl_loop fuel limit br (initial height) = Raise e)
   ∨ ∃ st reason,
       crawl_loop fuel limit br (initial height) = Ok (st, Some reason) ∧
       0 <= scroll_count st <= max_scrolls) ∧
  (∀ b st st' ex,
     loop_body limit b st = Ok (st', ex) ->
     scroll_count st' = scroll_count st + 1) ∧
  (∀ n st ex,
     crawl_loop n limit br (initial height) = Ok (st, ex) ->
     0 <= scroll_count st <= max_scrolls ∧ scroll_count st <= Z.of_nat n) ∧
  ((∀ i, found_articles (br i) = Ok [] ∧ scrolled (br i) = Ok ()) ->
   0 < limit ->
   ∃ st, crawl_loop fuel limit br (initial height) =
           Ok (st, Some IterationCeiling) ∧
         scroll_count st = max_scrolls).
Proof.
  intros Hfuel.
  assert (Hz : max_scrolls - scroll_count (initial height) <= Z.of_nat fuel).
  { simpl. unfold max_scrolls in *. lia. }
  split_and!.
  - destruct (crawl_loop_ends fuel limit br (initial height) Hz)
      as [He | (st & reason & H)]; [by left|].
    right. exists st, reason. split; [done|].
    apply crawl_loop_frame in H. simpl in H.
    destruct H as ([H0 _] & Hmax & _). split; [done|].
    apply Hmax. by unfold max_scrolls.
  - intros b st st' ex H. apply loop_body_frame in H. apply H.
  - intros n st ex H. apply crawl_loop_frame in H. simpl in H.
    destruct H as ([H0 Hn] & Hmax & _). split_and!; [done | | done].
    apply Hmax. by unfold max_scrolls.
  - intros Hempty Hlimit.
    destruct (crawl_loop_empty_scans fuel limit br (initial height))
      as (st & H & Hn & _); try done.
    by exists st.
Qed.

Lemma C4_crawl_ends_within_max_scrolls_witness :
  ∃ st, crawl_loop 60 3 idle_browser (initial 1000)
          = Ok (st, Some IterationCeiling) ∧
        scroll_count st = max_scrolls.
Proof.
  destruct (C4_crawl_ends_within_max_scrolls 60 3 idle_browser 1000)
    as (_ & _ & _ & Hidle).
  - unfold max_scrolls. simpl. lia.
  - apply Hidle.
    + intros i. split; reflexivity.
    + lia.
Defined.

(** ** Failures of the driver *)

Lemma crawl_loop_raise (k extra : nat) (limit : Z) (br : Browser)
    (st0 st : Locals) (e : exn) :
  crawl_loop k limit br st0 = Ok (st, None) ->
  loop_body limit (br (scroll_count st + 1)) st = Raise e ->
  crawl_loop (k + S extra) limit br st0 = Raise e.
Proof.
  intros Hk Hbody. rewrite crawl_loop_more_fuel, Hk.
  apply crawl_loop_frame in Hk.
  destruct Hk as (_ & _ & _ & _ & _ & Hrun).
  destruct (Hrun eq_refl) as (_ & Hgo & Hroom).
  cbn [crawl_loop].
  destruct (Z.ltb_spec (len (collected_data st)) limit); [|lia].
  destruct (Z.ltb_spec (scroll_count st) max_scrolls); [|lia].
  simpl. by rewrite Hbody.
Qed.

(** C9 (refuted on the code): a failure of a driver call does propagate:
    it is not handled inside the crawl, it leaves the loop body, the loop
    and the crawl, and reaches the handler of line 413; and once
    [setup_driver] has returned, [driver.quit()] is called on every way
    out, after a crawl that ended normally as after one that raised.  But
    the WebDriver is not released on every exit path: when
    [driver.maximize_window()] raises at line 72, the driver created at
    line 71 is lost inside [setup_driver], the variable [driver] of line
    303 is still [None], and the [finally] clause skips [driver.quit()].
    (When [quote] raises at line 300 no driver exists yet.) *)
Theorem C9_failure_propagates_but_webdriver_can_leak (fuel : nat)
    (keyword : pystr) (limit : Z) (s : Session) :
  (Z.to_nat max_scrolls <= fuel)%nat ->
  (∃ out,
     scrape_buzzed_posts fuel keyword limit s = Some out ∧
     (driver_created out = true -> driver_quit out = true) ∧
     (keyword ≠ [] -> Url.search_url keyword ≠ None ->
      snd (setup_driver s) = Ok () ->
      driver_created out = true ∧ driver_quit out = true) ∧
     (∀ e, keyword ≠ [] -> Url.search_url keyword ≠ None ->
           snd (setup_driver s) = Ok () ->
           crawl fuel limit s = Raise e ->
           caught out = Some e ∧ saved out = None ∧ driver_quit out = true) ∧
     (∀ e, keyword ≠ [] -> Url.search_url keyword ≠ None ->
           new_chrome s = Ok () -> maximize_window s = Raise e ->
           webdriver_opened out = true ∧ driver_created out = false ∧
           driver_quit out = false ∧ caught out = Some e) ∧
     (keyword ≠ [] -> Url.search_url keyword = None ->
      webdriver_opened out = false ∧
      escaped out = Some UnicodeEncodeError)) ∧
  (∀ b st e, found_articles b = Raise e -> loop_body limit b st = Raise e) ∧
  (∀ b st e, found_articles b = Ok [] -> scrolled b = Raise e ->
             loop_body limit b st = Raise e) ∧
  (∀ b st e articles,
     found_articles b = Ok articles -> articles ≠ [] ->
     len (collected_data (scan_articles limit articles (begin_scroll st)))
       < limit ->
     scrolled b = Raise e ∨ (scrolled b = Ok () ∧ new_height b = Raise e) ->
     loop_body limit b st = Raise e) ∧
  (∀ k extra br st0 st e,
     crawl_loop k limit br st0 = Ok (st, None) ->
     loop_body limit (br (scroll_count st + 1)) st = Raise e ->
     crawl_loop (k + S extra) limit br st0 = Raise e) ∧
  (∀ e, get_page s = Raise e
        ∨ (get_page s = Ok () ∧ first_height s = Raise e)
        ∨ (∃ h, get_page s = Ok () ∧ first_height s = Ok h ∧
                crawl_loop fuel limit (browser s) (initial h) = Raise e) ->
        crawl fuel limit s = Raise e).
Proof.
  intros Hfuel. split_and!.
  - unfold scrape_buzzed_posts.
    destruct keyword as [|c keyword].
    { eexists. split; [done|]. simpl. split_and!; done. }
    cbn [is_empty].
    destruct (Url.search_url (c :: keyword)) as [url|] eqn:Hurl.
    2:{ eexists. split; [done|]. simpl. split_and!; done. }
    unfold setup_driver.
    destruct (new_chrome s) as [[]|e0] eqn:Hnew.
    2:{ eexists. split; [done|]. simpl. split_and!; done. }
    destruct (maximize_window s) as [[]|e0] eqn:Hmax.
    2:{ eexists. split; [done|]. simpl. split_and!; try done.
        by intros e _ _ _ [= ->]. }
    destruct (crawl fuel limit s) as [[st [reason|]]|e0] eqn:Hcrawl.
    + destruct (save_data s (collected_data st)) as [[]|e1];
        (eexists; split; [done|]); simpl; split_and!; done.
    + exfalso. unfold crawl in Hcrawl.
      destruct (get_page s) as [[]|]; [|discriminate].
      destruct (first_height s) as [h|]; [|discriminate].
      simpl in Hcrawl. apply crawl_loop_frame in Hcrawl.
      destruct Hcrawl as (_ & _ & _ & _ & _ & Hrun).
      specialize (Hrun eq_refl). simpl in Hrun.
      unfold max_scrolls in *. lia.
    + eexists. split; [done|]. simpl. split_and!; try done.
      by intros e _ _ _ [= ->].
  - intros b st e H. unfold loop_body. by rewrite H.
  - intros b st e H Hs. unfold loop_body. rewrite H. simpl. by rewrite Hs.
  - intros b st e articles H Hne Hroom Hs. unfold loop_body. rewrite H. simpl.
    destruct articles as [|a rest]; [done|].
    destruct (Z.leb_spec limit
      (len (collected_data (scan_articles limit (a :: rest) (begin_scroll st)))));
      [lia|].
    destruct Hs as [-> | [-> ->]]; done.
  - intros k extra br st0 st e. apply crawl_loop_raise.
  - intros e [H | [[H1 H2] | (h & H1 & H2 & H3)]]; unfold crawl.
    + by rewrite H.
    + by rewrite H1, H2.
    + rewrite H1, H2. simpl. done.
Qed.

Lemma C9_failure_propagates_but_webdriver_can_leak_witness :
  ∃ out,
    scrape_buzzed_posts 50 (lit "#SNS") 100 (unresizable idle_browser)
      = Some out ∧
    webdriver_opened out = true ∧ driver_created out = false ∧
    driver_quit out = false ∧ caught out = Some WebDriverException.
Proof.
  destruct (C9_failure_propagates_but_webdriver_can_leak
              50 (lit "#SNS") 100 (unresizable idle_browser))
    as [(out & Hout & _ & _ & _ & Hleak & _) _].
  - unfold max_scrolls. simpl. lia.
  - exists out. split; [exact Hout|].
    apply Hleak.
    + discriminate.
    + vm_compute. discriminate.
    + reflexivity.
    + reflexivity.
Defined.

(** ** Patience *)

Lemma quiet_mono (st st' : Locals) (articles : list Article) :
  scraped_urls st ⊆ scraped_urls st' ->
  quiet st articles -> quiet st' articles.
Proof.
  intros Hsub Hq a p Ha Hp.
  destruct (Hq a p Ha Hp) as [Hl | Hin]; [by left | right; by apply Hsub].
Qed.

Lemma stalled_pass_mono (st st' : Locals) (b : Scroll) :
  scraped_urls st ⊆ scraped_urls st' ->
  last_height st' = last_height st ->
  stalled_pass st b -> stalled_pass st' b.
Proof.
  intros Hsub Hh (articles & Hf & Hne & Hq & Hs & Hn).
  exists articles. rewrite Hh. split_and!; try done.
  by apply (quiet_mono st).
Qed.

(** A quiet snapshot leaves the collection and the flag as they were. *)
Lemma scan_articles_quiet (limit : Z) (articles : list Article)
    (st : Locals) :
  quiet st articles ->
  collected_data (scan_articles limit articles st) = collected_data st ∧
  new_posts_found_in_this_scroll (scan_articles limit articles st) =
    new_posts_found_in_this_scroll st.
Proof.
  revert st. induction articles as [|article rest IH]; intros st Hq; [done|].
  cbn [scan_articles].
  assert (Hrest : quiet st rest).
  { intros a p Ha Hp. apply (Hq a p); [by apply list_elem_of_further | done]. }
  destruct (parse_post article) as [post_data|] eqn:Hparse; [|by apply IH].
  destruct (decide (post_url post_data ∈ scraped_urls st)) as [Hin | Hnew].
  - rewrite (offer_seen _ _ Hin). simpl. by apply IH.
  - destruct (Hq article post_data) as [Hlow | Hin];
      [apply list_elem_of_here | done | | done].
    destruct (offer_new _ _ Hnew) as (st1 & -> & Hseen & Hc & Hf & _).
    rewrite bool_decide_eq_false_2 in * by lia. simpl in *.
    rewrite <- Hc, <- Hf. apply IH.
    apply (quiet_mono st); [|done]. rewrite Hseen. apply union_subseteq_r.
Qed.

Lemma loop_body_empty (limit : Z) (b : Scroll) (st : Locals) :
  empty_pass b -> loop_body limit b st = Ok (begin_scroll st, None).
Proof. intros [Hf Hs]. unfold loop_body. by rewrite Hf, Hs. Qed.

Lemma loop_body_stalled (limit : Z) (b : Scroll) (st : Locals) :
  stalled_pass st b ->
  len (collected_data st) < limit ->
  ∃ st',
    loop_body limit b st =
      Ok (st', if MAX_SCROLL_PATIENCE <=? patience st + 1
               then Some FeedExhausted else None) ∧
    patience st' = patience st + 1 ∧
    scroll_count st' = scroll_count st + 1 ∧
    collected_data st' = collected_data st ∧
    last_height st' = last_height st ∧
    scraped_urls st ⊆ scraped_urls st'.
Proof.
  intros (articles & Hf & Hne & Hq & Hs & Hn) Hroom.
  unfold loop_body. rewrite Hf. simpl.
  destruct articles as [|a rest]; [done|].
  set (s1 := scan_articles limit (a :: rest) (begin_scroll st)).
  destruct (scan_articles_quiet limit (a :: rest) (begin_scroll st))
    as [Hc Hfound]; [done|]. fold s1 in Hc, Hfound. simpl in Hc, Hfound.
  destruct (scan_frame limit (a :: rest) (begin_scroll st))
    as (Hh & Hp & Hcount & Hseen & _). fold s1 in Hh, Hp, Hcount, Hseen.
  simpl in Hh, Hp, Hcount, Hseen.
  destruct (Z.leb_spec limit (len (collected_data s1))); [rewrite Hc in *; lia|].
  rewrite Hs, Hn. simpl. rewrite Hh, Z.eqb_refl, Hfound, Hp. simpl.
  exists (set_patience (patience st + 1) s1). split_and!; try done.
  by destruct (MAX_SCROLL_PATIENCE <=? patience st + 1).
Qed.

Lemma scans_nonneg (br : Browser) (from : Z) (n : nat) :
  0 <= scans br from n.
Proof.
  revert from. induction n as [|n IH]; intros from; simpl; [lia|].
  specialize (IH (from + 1)).
  destruct (is_empty_scan (br (from + 1))); lia.
Qed.

Lemma stalled_pass_not_empty (st : Locals) (b : Scroll) :
  stalled_pass st b -> is_empty_scan b = false.
Proof.
  intros (articles & Hf & Hne & _). unfold is_empty_scan. rewrite Hf.
  by destruct articles.
Qed.

Lemma empty_pass_is_empty (b : Scroll) :
  empty_pass b -> is_empty_scan b = true.
Proof. intros [Hf _]. unfold is_empty_scan. by rewrite Hf. Qed.

(** Growth-free passes, below the patience limit: the loop goes on, and
    [patience] has grown by the number of scans that were not empty. *)
Lemma crawl_loop_growth_free (n : nat) (limit : Z) (br : Browser)
    (st : Locals) :
  len (collected_data st) < limit ->
  scroll_count st + Z.of_nat n < max_scrolls ->
  (∀ i, 1 <= i <= Z.of_nat n ->
        stalled_pass st (br (scroll_count st + i))
        ∨ empty_pass (br (scroll_count st + i))) ->
  patience st + scans br (scroll_count st) n < MAX_SCROLL_PATIENCE ->
  ∃ st',
    crawl_loop n limit br st = Ok (st', None) ∧
    patience st' = patience st + scans br (scroll_count st) n ∧
    scroll_count st' = scroll_count st + Z.of_nat n ∧
    collected_data st' = collected_data st ∧
    last_height st' = last_height st ∧
    scraped_urls st ⊆ scraped_urls st'.
Proof.
  revert st. induction n as [|n IH]; intros st Hroom Hceil Hpass Hpat.
  - exists st. cbn [crawl_loop scans].
    destruct (Z.ltb_spec (len (collected_data st)) limit); [|lia].
    destruct (Z.ltb_spec (scroll_count st) max_scrolls); [|lia].
    simpl. split_and!; try done; lia.
  - cbn [crawl_loop scans] in *.
    destruct (Z.ltb_spec (len (collected_data st)) limit); [|lia].
    destruct (Z.ltb_spec (scroll_count st) max_scrolls); [|lia].
    simpl.
    pose proof (scans_nonneg br (scroll_count st + 1) n) as Hnn.
    assert (Hnext : ∀ st1,
      scroll_count st1 = scroll_count st + 1 ->
      scraped_urls st ⊆ scraped_urls st1 ->
      last_height st1 = last_height st ->
      ∀ i, 1 <= i <= Z.of_nat n ->
        stalled_pass st1 (br (scroll_count st1 + i))
        ∨ empty_pass (br (scroll_count st1 + i))).
    { intros st1 Hc1 Hs1 Hh1 i Hi. rewrite Hc1.
      replace (scroll_count st + 1 + i) with (scroll_count st + (i + 1)) by lia.
      destruct (Hpass (i + 1)) as [Hst | He]; [lia | left | by right].
      by apply (stalled_pass_mono st). }
    destruct (Hpass 1) as [Hst | He]; [lia | |].
    + rewrite (stalled_pass_not_empty _ _ Hst) in *.
      destruct (loop_body_stalled limit _ st Hst Hroom)
        as (st1 & -> & Hp1 & Hc1 & Hd1 & Hh1 & Hs1).
      destruct (Z.leb_spec MAX_SCROLL_PATIENCE (patience st + 1)); [lia|].
      simpl.
      destruct (IH st1) as (st' & -> & Hp' & Hc' & Hd' & Hh' & Hs');
        [ rewrite Hd1; lia | lia | by apply Hnext | rewrite Hc1, Hp1; lia |].
      exists st'. split_and!; try done; try lia; try congruence.
      * rewrite Hp', Hc1, Hp1. lia.
      * set_solver.
    + rewrite (empty_pass_is_empty _ He) in *.
      rewrite (loop_body_empty limit _ st He). simpl.
      destruct (IH (begin_scroll st)) as (st' & -> & Hp' & Hc' & Hd' & Hh' & Hs');
        [ simpl; lia | simpl; lia | by apply Hnext | simpl; lia |].
      simpl in *. exists st'. split_and!; try done; lia.
Qed.

Lemma scans_last (br : Browser) (from : Z) (n : nat) :
  scans br from (S n) =
    scans br from n
    + (if is_empty_scan (br (from + Z.of_nat n + 1)) then 0 else 1).
Proof.
  revert from. induction n as [|n IH]; intros from.
  - replace (from + Z.of_nat 0 + 1) with (from + 1) by lia.
    simpl. destruct (is_empty_scan (br (from + 1))); lia.
  - change (scans br from (S (S n))) with
      ((if is_empty_scan (br (from + 1)) then 0 else 1)
       + scans br (from + 1) (S n)).
    rewrite IH. cbn [scans].
    replace (from + 1 + Z.of_nat n + 1) with (from + Z.of_nat (S n) + 1) by lia.
    destruct (is_empty_scan (br (from + 1)));
      destruct (is_empty_scan (br (from + Z.of_nat (S n) + 1))); lia.
Qed.

(** What one pass does to [patience]. *)
Lemma loop_body_patience (limit : Z) (b : Scroll) (st st' : Locals)
    (ex : option Exit) :
  loop_body limit b st = Ok (st', ex) ->
  (found_articles b = Ok [] -> patience st' = patience st ∧ ex = None) ∧
  (∀ articles h,
     found_articles b = Ok articles -> articles ≠ [] ->
     len (collected_data st') < limit ->
     new_height b = Ok h ->
     (h ≠ last_height st ∨ collected_data st' ≠ collected_data st ->
      patience st' = 0 ∧ ex = None) ∧
     (h = last_height st ∧ collected_data st' = collected_data st ->
      patience st' = patience st + 1 ∧
      (ex = Some FeedExhausted <-> MAX_SCROLL_PATIENCE <= patience st + 1) ∧
      (ex = None <-> patience st + 1 < MAX_SCROLL_PATIENCE))) ∧
  (ex = Some FeedExhausted ->
   MAX_SCROLL_PATIENCE <= patience st + 1 ∧
   found_articles b ≠ Ok [] ∧
   new_height b = Ok (last_height st) ∧
   collected_data st' = collected_data st).
Proof.
  intros H. apply loop_body_cases in H.
  destruct H as [(Hf & _ & -> & ->) | (articles & s1 & Hf & Hne & Hs1 & H)].
  - split_and!; [done | | done].
    intros articles h Hf'. rewrite Hf in Hf'. by injection Hf' as <-.
  - destruct (scan_frame limit articles (begin_scroll st))
      as (_ & _ & _ & _ & [more Hmore] & Hflag & _).
    rewrite <- Hs1 in Hmore, Hflag. simpl in Hmore, Hflag.
    assert (Hsame : new_posts_found_in_this_scroll s1 = false <->
                    collected_data s1 = collected_data st).
    { rewrite Hflag, Hmore. unfold len. rewrite length_app.
      destruct more as [|p more]; simpl.
      - rewrite app_nil_r. split; [done|]. intros _. apply Z.ltb_ge. lia.
      - split.
        + intros Hlt. apply Z.ltb_ge in Hlt. lia.
        + intros Heq. apply (f_equal length) in Heq.
          rewrite length_app in Heq. simpl in Heq. lia. }
    split; [intros Hf'; rewrite Hf in Hf'; by injection Hf' as ->|].
    destruct H as [(Hfull & -> & ->) | (Hroom & h & _ & Hh & H)].
    + split; [|done]. intros articles' h' _ _ Hroom'. lia.
    + destruct H as [(-> & Hfound & -> & ->)
                    | [(-> & Hfound & -> & ->) | (Hne' & -> & ->)]]; simpl.
      * apply Hsame in Hfound. split.
        -- intros articles' h' _ _ _ Hh'. rewrite Hh in Hh'.
           injection Hh' as <-. split; [intros [? | ?]; done|].
           intros _. split; [done|].
           destruct (Z.leb_spec MAX_SCROLL_PATIENCE (patience st + 1));
             split; split; intros; try done; lia.
        -- destruct (Z.leb_spec MAX_SCROLL_PATIENCE (patience st + 1));
             [|done]. intros _. split_and!; try done.
           rewrite Hf. intros [= ->]. done.
      * assert (Hdiff : collected_data s1 ≠ collected_data st).
        { intros Heq. apply Hsame in Heq. congruence. }
        split; [|done].
        intros articles' h' _ _ _ Hh'. rewrite Hh in Hh'. injection Hh' as <-.
        split; [done|]. intros [_ Heq]. done.
      * split; [|done].
        intros articles' h' _ _ _ Hh'. rewrite Hh in Hh'. injection Hh' as <-.
        split; [done|]. intros [Heq _]. done.
Qed.

(** C3 (amended): [patience] counts the passes, in a row but for passes
    with an empty scan (which leave it as it is), in which the scan was not
    empty, the extent read after scrolling equals the recorded one and no
    post was accepted.  From [patience = 0], while fewer than
    [MAX_SCROLL_PATIENCE = 5] such passes have been made the loop goes on;
    the pass that makes the fifth ends it with [FeedExhausted]; and a pass
    in which the extent differs from the recorded one or a post is
    accepted (short of [limit]) sets [patience] to 0. *)
Theorem C3_feed_exhausted_at_patience_limit (limit : Z) (br : Browser)
    (st : Locals) (n : nat) :
  len (collected_data st) < limit ->
  patience st = 0 ->
  scroll_count st + Z.of_nat n <= max_scrolls ->
  (∀ i, 1 <= i <= Z.of_nat n ->
        stalled_pass st (br (scroll_count st + i))
        ∨ empty_pass (br (scroll_count st + i))) ->
  (scans br (scroll_count st) n < MAX_SCROLL_PATIENCE ->
   scroll_count st + Z.of_nat n < max_scrolls ->
   ∃ st', crawl_loop n limit br st = Ok (st', None) ∧
          patience st' = scans br (scroll_count st) n) ∧
  (scans br (scroll_count st) n = MAX_SCROLL_PATIENCE ->
   is_empty_scan (br (scroll_count st + Z.of_nat n)) = false ->
   ∀ extra,
   ∃ st', crawl_loop (n + extra) limit br st = Ok (st', Some FeedExhausted) ∧
          scroll_count st' = scroll_count st + Z.of_nat n ∧
          patience st' = MAX_SCROLL_PATIENCE ∧
          collected_data st' = collected_data st) ∧
  (∀ b s s' ex,
     loop_body limit b s = Ok (s', ex) ->
     (found_articles b = Ok [] -> patience s' = patience s ∧ ex = None) ∧
     (∀ articles h,
        found_articles b = Ok articles -> articles ≠ [] ->
        len (collected_data s') < limit ->
        new_height b = Ok h ->
        (h ≠ last_height s ∨ collected_data s' ≠ collected_data s ->
         patience s' = 0 ∧ ex = None) ∧
        (h = last_height s ∧ collected_data s' = collected_data s ->
         patience s' = patience s + 1 ∧
         (ex = Some FeedExhausted <-> MAX_SCROLL_PATIENCE <= patience s + 1) ∧
         (ex = None <-> patience s + 1 < MAX_SCROLL_PATIENCE))) ∧
     (ex = Some FeedExhausted ->
      MAX_SCROLL_PATIENCE <= patience s + 1 ∧
      found_articles b ≠ Ok [] ∧
      new_height b = Ok (last_height s) ∧
      collected_data s' = collected_data s)).
Proof.
  intros Hroom Hp0 Hceil Hpass. split_and!.
  - intros Hlt Hbelow.
    destruct (crawl_loop_growth_free n limit br st) as (st' & H & Hp & _);
      try done; [lia|].
    exists st'. split; [done | lia].
  - intros Hmax Hlast extra.
    destruct n as [|m]; [simpl in Hmax; unfold MAX_SCROLL_PATIENCE in *; lia|].
    rewrite scans_last in Hmax.
    replace (scroll_count st + Z.of_nat m + 1)
      with (scroll_count st + Z.of_nat (S m)) in Hmax by lia.
    rewrite Hlast in Hmax.
    destruct (crawl_loop_growth_free m limit br st)
      as (st1 & H1 & Hp1 & Hc1 & Hd1 & Hh1 & Hs1); try done; try lia.
    { intros i Hi. apply Hpass. lia. }
    assert (Hst : stalled_pass st1 (br (scroll_count st1 + 1))).
    { rewrite Hc1.
      replace (scroll_count st + Z.of_nat m + 1)
        with (scroll_count st + Z.of_nat (S m)) by lia.
      destruct (Hpass (Z.of_nat (S m))) as [Hst | He]; [lia | |].
      - by apply (stalled_pass_mono st).
      - apply empty_pass_is_empty in He. congruence. }
    destruct (loop_body_stalled limit _ st1 Hst)
      as (st2 & Hbody & Hp2 & Hc2 & Hd2 & _); [rewrite Hd1; lia|].
    destruct (Z.leb_spec MAX_SCROLL_PATIENCE (patience st1 + 1)); [|lia].
    exists st2.
    replace (S m + extra)%nat with (m + S extra)%nat by lia.
    rewrite crawl_loop_more_fuel, H1. cbn [crawl_loop].
    destruct (Z.ltb_spec (len (collected_data st1)) limit);
      [|rewrite Hd1 in *; lia].
    destruct (Z.ltb_spec (scroll_count st1) max_scrolls); [|lia].
    simpl. rewrite Hbody. simpl. split_and!; [done | lia | lia | congruence].
  - intros b s s' ex. apply loop_body_patience.
Qed.

Lemma C3_feed_exhausted_at_patience_limit_witness :
  ∃ st', crawl_loop (5 + 45) 3 still_browser (initial 1000)
           = Ok (st', Some FeedExhausted) ∧
         scroll_count st' = scroll_count (initial 1000) + Z.of_nat 5 ∧
         patience st' = MAX_SCROLL_PATIENCE ∧
         collected_data st' = collected_data (initial 1000).
Proof.
  assert (Hroom : len (collected_data (initial 1000)) < 3).
  { unfold len. simpl. lia. }
  assert (Hfit : scroll_count (initial 1000) + Z.of_nat 5 <= max_scrolls).
  { unfold max_scrolls. simpl. lia. }
  assert (Hpass : ∀ i, 1 <= i <= Z.of_nat 5 ->
            stalled_pass (initial 1000)
              (still_browser (scroll_count (initial 1000) + i))
            ∨ empty_pass (still_browser (scroll_count (initial 1000) + i))).
  { intros i _. left.
    exists [sample_article url_1 (lit "7")].
    split; [reflexivity|]. split; [discriminate|].
    split; [|split; reflexivity].
    intros a p Ha Hp. left.
    apply list_elem_of_In in Ha. destruct Ha as [<- | []].
    vm_compute in Hp. injection Hp as <-. vm_compute. reflexivity. }
  assert (Hfive : scans still_browser (scroll_count (initial 1000)) 5
                  = MAX_SCROLL_PATIENCE).
  { vm_compute. reflexivity. }
  assert (Hlast : is_empty_scan
                    (still_browser (scroll_count (initial 1000) + Z.of_nat 5))
                  = false).
  { reflexivity. }
  pose proof (C3_feed_exhausted_at_patience_limit
                3 still_browser (initial 1000) 5
                Hroom eq_refl Hfit Hpass) as H.
  destruct H as (_ & Hend & _).
  specialize (Hend Hfive Hlast 45%nat).
  exact Hend.
Defined.

(** C3, as stated, fails on the code: passes without growth and without an
    accepted post do not exhaust the patience when the extent shrinks (any
    change resets the counter, line 402) or when the scan is empty (the
    [continue] of line 337 skips the counter).  In both runs nothing is
    ever accepted and the extent never grows, the loop is still running
    after 5 passes with [patience = 0], and it ends at the ceiling of 50
    passes. *)
Lemma C3_growth_free_passes_without_exhaustion :
  ¬ exhausted_after_growth_free_passes ∧
  (∀ i, new_height (shrinking_browser i) = Ok (1000 - i)) ∧
  summary (crawl_loop 5 3 shrinking_browser (initial 1000))
    = Some (None, 0, 995, 0, 5) ∧
  summary (crawl_loop 50 3 shrinking_browser (initial 1000))
    = Some (Some IterationCeiling, 0, 950, 0, 50) ∧
  summary (crawl_loop 5 3 idle_browser (initial 1000))
    = Some (None, 0, 1000, 0, 5) ∧
  summary (crawl_loop 50 3 idle_browser (initial 1000))
    = Some (Some IterationCeiling, 0, 1000, 0, 50).
Proof.
  split; [|split; [|split_and!]].
  - intros Hclaim.
    destruct (Hclaim 3 idle_browser (fun _ => 1000)) as [st Hst]; [lia | |].
    + intros i _. split; [|reflexivity].
      exists [], 1000. split_and!; try reflexivity; try lia.
      intros a p Ha. by apply elem_of_nil in Ha.
    + apply (f_equal summary) in Hst. vm_compute in Hst. discriminate Hst.
  - intros i. reflexivity.
  - vm_compute. reflexivity.
  - vm_compute. reflexivity.
  - vm_compute. reflexivity.
  - vm_compute. reflexivity.
Qed.

(* ===================================================================== *)
(** * Further properties *)
(* ===================================================================== *)

(** ** More on the metric normalizer *)

Lemma of_str_raises (s : pystr) (e : exn) :
  PyFloat.of_str s = Raise e -> e = ValueError.
Proof.
  unfold PyFloat.of_str. intros H. repeat case_match; by simplify_eq.
Qed.

Lemma to_int_raises (x : PyFloat.pyfloat) (e : exn) :
  PyFloat.to_int x = Raise e -> e = ValueError ∨ e = OverflowError.
Proof. destruct x; simpl; intros H; simplify_eq; auto. Qed.

Lemma scaled_raises (s : pystr) (factor : Z) (e : exn) :
  (num ← PyFloat.of_str s;
   PyFloat.to_int (PyFloat.mul num (PyFloat.of_int factor))) = Raise e ->
  e = ValueError ∨ e = OverflowError.
Proof.
  destruct (PyFloat.of_str s) as [num|e'] eqn:Hs; simpl.
  - apply to_int_raises.
  - intros [= <-]. left. by apply (of_str_raises s).
Qed.

Lemma int_of_str_raises (s : pystr) (e : exn) :
  PyFloat.int_of_str s = Raise e -> e = ValueError.
Proof.
  unfold PyFloat.int_of_str. intros H. repeat case_match; by simplify_eq.
Qed.

(** The white space, one by one. *)
Lemma is_space_elem (c : N) :
  is_space c = true ->
  In c [9; 10; 11; 12; 13; 28; 29; 30; 31; 32; 133; 160; 5760; 8192; 8193;
        8194; 8195; 8196; 8197; 8198; 8199; 8200; 8201; 8202; 8232; 8233;
        8239; 8287; 12288]%N.
Proof.
  unfold is_space. rewrite !orb_true_iff, !andb_true_iff, !N.leb_le, !N.eqb_eq.
  cbn [In]. lia.
Qed.

Lemma is_decimal_not_space (c : N) :
  is_decimal c = true -> is_space c = false.
Proof.
  intros Hd. destruct (is_space c) eqn:Hs; [|done].
  apply is_space_elem in Hs. cbn [In] in Hs.
  repeat (destruct Hs as [<- | Hs]; [vm_compute in Hd; discriminate Hd|]).
  destruct Hs.
Qed.

Lemma decimal_value_bound (c d : N) :
  decimal_value c = Some d -> (d < 10)%N.
Proof.
  unfold decimal_value, is_ascii_digit. destruct (N.ltb_spec c 128).
  - destruct (N.leb_spec 48 c), (N.leb_spec c 57); simpl; intros [= <-]; lia.
  - destruct (List.find _ decimal_blocks) as [b|] eqn:Hb; [|discriminate].
    apply find_some in Hb as [_ Hb]. intros [= <-].
    apply andb_true_iff in Hb as [H1 H2].
    apply N.leb_le in H1. apply N.ltb_lt in H2. lia.
Qed.

Lemma decimal_value_ascii (c : N) :
  (c < 127)%N -> is_decimal c = true ->
  is_ascii_digit c = true ∧ decimal_value c = Some (c - 48)%N.
Proof.
  unfold is_decimal, decimal_value. intros Hc.
  destruct (N.ltb_spec c 128); [|lia].
  by destruct (is_ascii_digit c).
Qed.

Lemma elem_of_lstrip (x : N) (s : pystr) : x ∈ lstrip s -> x ∈ s.
Proof.
  induction s as [|c s IH]; simpl; [done|].
  destruct (is_space c); [|done].
  intros H. apply list_elem_of_further. by apply IH.
Qed.

Lemma elem_of_strip (x : N) (s : pystr) : x ∈ strip s -> x ∈ s.
Proof.
  unfold strip, rstrip. intros H.
  apply elem_of_lstrip.
  apply list_elem_of_In, in_rev, list_elem_of_In.
  apply elem_of_lstrip.
  by apply list_elem_of_In, in_rev, list_elem_of_In in H.
Qed.

Lemma elem_of_upper (c : N) (s : pystr) :
  c ∈ upper s <-> ∃ x, c ∈ upper_char x ∧ x ∈ s.
Proof.
  unfold upper. rewrite list_elem_of_In, in_flat_map. split.
  - intros (x & Hx & Hc). exists x. by rewrite !list_elem_of_In.
  - intros (x & Hc & Hx). exists x. by rewrite <- !list_elem_of_In.
Qed.

Lemma ascii_upper_char_cases (c : N) :
  ((97 <= c <= 122)%N ∧ ascii_upper_char c = (c - 32)%N)
  ∨ (¬ (97 <= c <= 122)%N ∧ ascii_upper_char c = c).
Proof.
  unfold ascii_upper_char.
  destruct (N.leb_spec 97 c), (N.leb_spec c 122); cbn [andb];
    [left | right | right | right]; split; try done; lia.
Qed.

(** No character beyond ASCII has a ['K'] or an ['M'] in its upper
    case. *)
Lemma upper_tables_no_mark :
  forallb (fun p => forallb (fun x => negb (x =? c_K) && negb (x =? c_M))%N
                      (snd p)) upper_many
  && forallb (fun p => negb (snd p =? c_K) && negb (snd p =? c_M))%N upper_one
  = true.
Proof. vm_compute. reflexivity. Qed.

Lemma upper_char_mark (k c : N) :
  k = c_K ∨ k = c_M ->
  k ∈ upper_char c <-> c = k ∨ c = (k + 32)%N.
Proof.
  intros Hk. unfold upper_char.
  destruct (N.ltb_spec c 128) as [Hc | Hc].
  - rewrite list_elem_of_singleton.
    destruct (ascii_upper_char_cases c) as [[H1 ->] | [H1 ->]];
      unfold c_K, c_M in *; lia.
  - split; [|unfold c_K, c_M in *; lia].
    intros Hin. exfalso.
    pose proof upper_tables_no_mark as Ht.
    apply andb_true_iff in Ht as [Hm Ho].
    rewrite forallb_forall in Hm, Ho.
    assert (Hkk : (negb (k =? c_K) && negb (k =? c_M))%N = false).
    { destruct Hk as [-> | ->]; reflexivity. }
    destruct (List.find _ upper_many) as [p|] eqn:Hp.
    + apply find_some in Hp as [Hp _]. specialize (Hm p Hp).
      rewrite forallb_forall in Hm.
      apply list_elem_of_In in Hin. specialize (Hm k Hin). congruence.
    + destruct (List.find _ upper_one) as [p|] eqn:Hq.
      * apply find_some in Hq as [Hq _]. specialize (Ho p Hq).
        apply list_elem_of_singleton in Hin. subst k. congruence.
      * apply list_elem_of_singleton in Hin. subst k.
        unfold c_K, c_M in *. lia.
Qed.

(** The magnitude marks, character by character: ['万'], ['K'], ['k'],
    ['M'] and ['m'], and no other. *)
Lemma has_suffix_spec (text : pystr) :
  has_suffix text <->
  c_man ∈ text ∨ c_K ∈ text ∨ 107%N ∈ text ∨ c_M ∈ text ∨ 109%N ∈ text.
Proof.
  unfold has_suffix. rewrite !elem_of_upper.
  assert (HK : (∃ x, c_K ∈ upper_char x ∧ x ∈ text)
               <-> c_K ∈ text ∨ 107%N ∈ text).
  { split.
    - intros (x & Hx & Hin).
      apply upper_char_mark in Hx as [-> | ->]; auto.
    - intros [H | H]; eexists; (split; [|exact H]);
        apply upper_char_mark; auto. }
  assert (HM : (∃ x, c_M ∈ upper_char x ∧ x ∈ text)
               <-> c_M ∈ text ∨ 109%N ∈ text).
  { split.
    - intros (x & Hx & Hin).
      apply upper_char_mark in Hx as [-> | ->]; auto.
    - intros [H | H]; eexists; (split; [|exact H]);
        apply upper_char_mark; auto. }
  rewrite HK, HM. tauto.
Qed.

Lemma has_suffix_cleaned (text : pystr) :
  has_suffix (remove_char c_comma (strip text)) -> has_suffix text.
Proof.
  assert (Hsub : ∀ x, x ∈ remove_char c_comma (strip text) -> x ∈ text).
  { intros x Hx. apply list_elem_of_filter in Hx as [_ Hx].
    by apply elem_of_strip. }
  unfold has_suffix. rewrite !elem_of_upper.
  intros [H | [(x & Hx & H) | (x & Hx & H)]]; [left | right; left | right; right];
    eauto.
Qed.

Lemma filter_digits_lstrip (s : pystr) :
  strip_non_digits (lstrip s) = strip_non_digits s.
Proof.
  unfold strip_non_digits. induction s as [|c s IH]; simpl; [done|].
  destruct (is_space c) eqn:Hc; [|done].
  rewrite IH, (filter_cons_False _ c); [done|].
  intros Hd. apply Is_true_true in Hd. apply is_decimal_not_space in Hd.
  congruence.
Qed.

Lemma filter_digits_rev (s : pystr) :
  strip_non_digits (rev s) = rev (strip_non_digits s).
Proof.
  unfold strip_non_digits, pystr. induction s as [|c s IH]; [done|].
  cbn [rev]. rewrite filter_app, IH, !filter_cons.
  destruct (decide (is_decimal c)); simpl; [done | by rewrite app_nil_r].
Qed.

Lemma filter_digits_cleaned (text : pystr) :
  strip_non_digits (remove_char c_comma (strip text)) = strip_non_digits text.
Proof.
  unfold remove_char, strip_non_digits, pystr.
  rewrite list_filter_filter_l.
  - fold (strip_non_digits (strip text)). unfold strip, rstrip.
    rewrite filter_digits_rev, filter_digits_lstrip, filter_digits_rev.
    rewrite rev_involutive. apply filter_digits_lstrip.
  - intros x Hd. apply Is_true_true in Hd.
    apply Is_true_true, negb_true_iff, N.eqb_neq. intros <-.
    vm_compute in Hd. discriminate Hd.
Qed.

Lemma strip_non_digits_decimal (s : pystr) :
  Forall (fun c => is_decimal c = true) (strip_non_digits s).
Proof.
  apply Forall_forall. intros c Hc.
  apply list_elem_of_filter in Hc as [Hc _]. by apply Is_true_true.
Qed.

Lemma digits_value_nonneg (s : pystr) : 0 <= digits_value s.
Proof.
  unfold digits_value.
  assert (H : ∀ l acc, 0 <= acc ->
            0 <= fold_left (fun acc c =>
                   10 * acc + Z.of_N (default 0%N (decimal_value c))) l acc).
  { induction l as [|c l IH]; intros acc Hacc; simpl; [done|].
    apply IH. lia. }
  by apply H.
Qed.

(** *** [int] of a string of decimal digits *)

Lemma ascii_digit_of_spec (c : N) :
  is_decimal c = true ->
  is_ascii_digit (ascii_digit_of c) = true ∧
  digit_val (ascii_digit_of c) = Z.of_N (default 0%N (decimal_value c)).
Proof.
  unfold is_decimal, ascii_digit_of, digit_val.
  destruct (decimal_value c) as [d|] eqn:Hd; [|discriminate]. intros _.
  apply decimal_value_bound in Hd. simpl. split; [|lia].
  apply is_ascii_digit_range. lia.
Qed.

Lemma transform_digits (s : pystr) :
  Forall (fun c => is_decimal c = true) s ->
  PyFloat.transform s = map ascii_digit_of s.
Proof.
  induction 1 as [|c s Hc Hs IH]; [done|].
  cbn [PyFloat.transform map]. rewrite IH.
  destruct (N.ltb_spec c 127) as [Hlt | Hge].
  - f_equal. destruct (decimal_value_ascii c Hlt Hc) as [Ha Hv].
    unfold ascii_digit_of. rewrite Hv. simpl.
    apply is_ascii_digit_range in Ha. lia.
  - rewrite (is_decimal_not_space c Hc).
    unfold ascii_digit_of. unfold is_decimal in Hc.
    by destruct (decimal_value c).
Qed.

Lemma to_ascii_digits (s : pystr) :
  Forall (fun c => is_decimal c = true) s ->
  PyFloat.to_ascii s = map ascii_digit_of s.
Proof.
  intros Hs. unfold PyFloat.to_ascii.
  destruct (forallb _ s) eqn:Hall; [|by apply transform_digits].
  rewrite forallb_forall in Hall. rewrite Forall_forall in Hs.
  symmetry. rewrite <- (map_id s) at 2. apply map_ext_in. intros c Hc.
  pose proof (Hall c Hc) as Hlt. apply N.ltb_lt in Hlt.
  pose proof (Hs c (proj2 (list_elem_of_In _ _) Hc)) as Hd.
  unfold is_decimal, decimal_value in Hd. unfold ascii_digit_of, decimal_value.
  destruct (N.ltb_spec c 128); [|lia].
  destruct (is_ascii_digit c) eqn:Ha; [|discriminate].
  apply is_ascii_digit_range in Ha. simpl. lia.
Qed.

Lemma skip_spaces_digits (s : pystr) :
  Forall (fun c => is_ascii_digit c = true) s -> PyFloat.skip_spaces s = s.
Proof.
  destruct 1 as [|c s Hc Hs]; [done|].
  cbn [PyFloat.skip_spaces].
  apply is_ascii_digit_range in Hc. unfold is_ascii_space.
  destruct (N.leb_spec 9 c), (N.leb_spec c 13), (N.eqb_spec c 32);
    simpl; try lia; done.
Qed.

Lemma digits_rest_digits (s : pystr) (acc n : Z) :
  Forall (fun c => is_ascii_digit c = true) s ->
  PyFloat.digits_rest s acc n
  = (fold_left (fun a c => 10 * a + digit_val c) s acc, n + len s, []).
Proof.
  intros Hs. revert acc n.
  induction Hs as [|c s Hc Hs IH]; intros acc n.
  - unfold len. simpl. do 2 f_equal. lia.
  - cbn [PyFloat.digits_rest fold_left]. rewrite Hc, IH.
    do 2 f_equal. unfold len. simpl length. lia.
Qed.

Lemma int_of_str_digits (s : pystr) :
  s ≠ [] -> Forall (fun c => is_decimal c = true) s ->
  PyFloat.int_of_str s
  = if PyFloat.MAX_STR_DIGITS <? len s then Raise ValueError
    else Ok (digits_value s).
Proof.
  intros Hne Hs.
  assert (Ha : Forall (fun c => is_ascii_digit c = true)
                 (map ascii_digit_of s)).
  { apply Forall_map. eapply Forall_impl; [exact Hs|].
    intros c Hc. by apply ascii_digit_of_spec. }
  unfold PyFloat.int_of_str, PyFloat.trimmed.
  rewrite (to_ascii_digits s Hs), (skip_spaces_digits _ Ha).
  rewrite skip_spaces_digits by (by apply Forall_rev).
  rewrite rev_involutive.
  destruct s as [|c s]; [done|]. rewrite map_cons in *.
  apply Forall_cons in Ha as [Hc Ha]. apply Forall_cons in Hs as [Hdc Hs].
  assert (Hsign : PyFloat.parse_sign (ascii_digit_of c :: map ascii_digit_of s)
                  = (false, ascii_digit_of c :: map ascii_digit_of s)).
  { unfold PyFloat.parse_sign, c_minus, c_plus.
    apply is_ascii_digit_range in Hc.
    destruct (N.eqb_spec (ascii_digit_of c) 45); [lia|].
    destruct (N.eqb_spec (ascii_digit_of c) 43); [lia|]. done. }
  rewrite Hsign. cbn [PyFloat.digitpart]. rewrite Hc.
  rewrite (digits_rest_digits _ _ _ Ha).
  replace (1 + len (map ascii_digit_of s)) with (len (c :: s))
    by (unfold len; simpl length; rewrite length_map; lia).
  destruct (PyFloat.MAX_STR_DIGITS <? len (c :: s)); [done|].
  f_equal. unfold digits_value. cbn [fold_left].
  destruct (ascii_digit_of_spec c Hdc) as [_ ->].
  generalize (10 * 0 + Z.of_N (default 0%N (decimal_value c))).
  clear Hsign Hc Hdc Hne.
  induction s as [|d s IH]; intros acc; [done|].
  rewrite map_cons in *.
  apply Forall_cons in Ha as [_ Ha]. apply Forall_cons in Hs as [Hd Hs].
  cbn [fold_left].
  destruct (ascii_digit_of_spec d Hd) as [_ ->]. by apply IH.
Qed.

Lemma convert_to_int_without_suffix (text : pystr) :
  ¬ has_suffix text ->
  convert_to_int text
  = Ok (if PyFloat.MAX_STR_DIGITS <? len (strip_non_digits text) then 0
        else digits_value (strip_non_digits text)).
Proof.
  intros Hno.
  unfold convert_to_int. destruct text as [|c text]; [done|].
  set (t := remove_char c_comma (strip (c :: text))).
  assert (Ht : ¬ has_suffix t) by (intros H; by apply Hno, has_suffix_cleaned).
  unfold has_suffix in Ht. rewrite <- !contains_char_elem in Ht.
  destruct (contains_char c_man t); [tauto|].
  destruct (contains_char c_K (upper t)); [tauto|].
  destruct (contains_char c_M (upper t)); [tauto|].
  unfold t. rewrite filter_digits_cleaned.
  destruct (strip_non_digits (c :: text)) as [|d ds] eqn:Hds; [done|].
  rewrite int_of_str_digits;
    [|done | rewrite <- Hds; apply strip_non_digits_decimal].
  by destruct (PyFloat.MAX_STR_DIGITS <? len (d :: ds)).
Qed.

(** X1: Without a magnitude mark the result is the number spelled by the
    decimal digits of the text, of whatever script, every other character
    being dropped; it is 0 when there are more than 4300 digits, since
    [int] refuses them, and when there is none.  Nothing is raised and the
    result is never negative. *)
Theorem convert_to_int_reads_the_digits (text : pystr) :
  ¬ has_suffix text ->
  let digits := strip_non_digits text in
  convert_to_int text
  = Ok (if PyFloat.MAX_STR_DIGITS <? len digits then 0
        else digits_value digits) ∧
  0 <= digits_value digits ∧
  digits_value [] = 0.
Proof.
  intros Hno digits. split_and!.
  - exact (convert_to_int_without_suffix text Hno).
  - apply digits_value_nonneg.
  - done.
Qed.

Lemma convert_to_int_reads_the_digits_witness :
  convert_to_int (lit "-1,2" ++ [65299; 1636]%N ++ lit " views") = Ok 1234.
Proof.
  assert (Hno : ¬ has_suffix (lit "-1,2" ++ [65299; 1636]%N ++ lit " views")).
  { unfold has_suffix. rewrite <- !contains_char_elem.
    vm_compute. intros [H | [H | H]]; discriminate H. }
  pose proof (convert_to_int_reads_the_digits _ Hno) as H.
  destruct H as [H _]. rewrite H. vm_compute. reflexivity.
Defined.

Lemma convert_to_int_raise_inv (text : pystr) (e : exn) :
  convert_to_int text = Raise e ->
  e = OverflowError ∧ has_suffix text.
Proof.
  intros H. split.
  - unfold convert_to_int in H. destruct text as [|c text]; [discriminate|].
    unfold catch in H.
    match type of H with
    | match ?body with _ => _ end = _ =>
        destruct body as [n|e'] eqn:Hbody; [discriminate|]
    end.
    destruct (is_ValueError e') eqn:He'; [discriminate|].
    injection H as ->.
    assert (e = ValueError ∨ e = OverflowError) as [-> | ->]; [|done|done].
    repeat case_match; try (by eapply scaled_raises).
    left. by eapply int_of_str_raises.
  - destruct (decide (has_suffix text)) as [Hs | Hno]; [done|].
    apply convert_to_int_without_suffix in Hno. congruence.
Qed.

(** X2: The only exception [convert_to_int] lets out is [OverflowError], and
    only for a text with a magnitude mark. *)
Theorem convert_to_int_raises_only_overflow (text : pystr) (e : exn) :
  convert_to_int text = Raise e ->
  e = OverflowError ∧ has_suffix text.
Proof. exact (convert_to_int_raise_inv text e). Qed.

Lemma convert_to_int_raises_only_overflow_witness :
  OverflowError = OverflowError ∧ has_suffix (lit "infK").
Proof.
  apply (convert_to_int_raises_only_overflow (lit "infK") OverflowError).
  vm_compute. reflexivity.
Defined.

Lemma returns_spec (r : result Z) (v : Z) :
  returns r v = true <-> r = Ok v.
Proof.
  destruct r as [n|e]; simpl; [|split; discriminate].
  rewrite Z.eqb_eq. split; [by intros -> | by intros [= ->]].
Qed.

Lemma exact_or_one_short_below_100 :
  forallb (fun a => forallb (exact_or_one_short a) (seq 0 10)) (seq 0 100)
  = true.
Proof. vm_compute. reflexivity. Qed.

(** X3: Counts written with one decimal, below 100 units: the myriad form
    ["a.b万"] is converted exactly; the forms ["a.bK"] and ["a.bM"] are
    converted exactly or come out one short, because the binary product is
    truncated, not rounded (["32.3K"] gives 32299, ["4.1M"] gives
    4099999). *)
Theorem convert_to_int_one_decimal (a b : nat) :
  (a < 100)%nat -> (b < 10)%nat ->
  let n := Z.of_nat a in
  let d := Z.of_nat b in
  convert_to_int (one_decimal a b [c_man]) = Ok (10000 * n + 1000 * d) ∧
  (convert_to_int (one_decimal a b [c_K]) = Ok (1000 * n + 100 * d)
   ∨ convert_to_int (one_decimal a b [c_K]) = Ok (1000 * n + 100 * d - 1)) ∧
  (convert_to_int (one_decimal a b [c_M]) = Ok (1000000 * n + 100000 * d)
   ∨ convert_to_int (one_decimal a b [c_M])
     = Ok (1000000 * n + 100000 * d - 1)) ∧
  convert_to_int (one_decimal 32 3 [c_K]) = Ok 32299 ∧
  convert_to_int (one_decimal 4 1 [c_M]) = Ok 4099999.
Proof.
  intros Ha Hb.
  pose proof exact_or_one_short_below_100 as Hall.
  rewrite forallb_forall in Hall.
  specialize (Hall a). rewrite forallb_forall in Hall.
  assert (Hab : exact_or_one_short a b = true).
  { apply Hall; apply in_seq; lia. }
  unfold exact_or_one_short in Hab.
  rewrite !andb_true_iff, !orb_true_iff, !returns_spec in Hab.
  change (10000 / 10) with 1000 in Hab.
  change (1000 / 10) with 100 in Hab.
  change (1000000 / 10) with 100000 in Hab.
  destruct Hab as [[Hman HK] HM].
  split_and!; try done; vm_compute; reflexivity.
Qed.

Lemma convert_to_int_one_decimal_witness :
  convert_to_int (one_decimal 12 3 [c_man])
    = Ok (10000 * Z.of_nat 12 + 1000 * Z.of_nat 3).
Proof.
  apply (convert_to_int_one_decimal 12 3); lia.
Defined.

(** ** More on the post extractor *)

Lemma bind_Ok {A B} (m : result A) (k : A -> result B) (b : B) :
  (x ← m; k x) = Ok b -> ∃ a, m = Ok a ∧ k a = Ok b.
Proof. destruct m as [a|e]; simpl; [eauto | discriminate]. Qed.

Lemma read_post_marker (v : NodeView) (p : Post) :
  read_post v = Ok (Some p) -> has_status_marker (post_url p).
Proof.
  unfold read_post. intros H.
  apply bind_Ok in H as (time_element & _ & H).
  apply bind_Ok in H as (post_date & _ & H).
  apply bind_Ok in H as (ancestor_a & _ & H).
  apply bind_Ok in H as (href & _ & H).
  destruct href as [url|]; [|discriminate].
  destruct (contains (lit "/status/") url) eqn:Hc; simpl in H; [|discriminate].
  apply bind_Ok in H as (? & _ & H). apply bind_Ok in H as (? & _ & H).
  apply bind_Ok in H as (? & _ & H). apply bind_Ok in H as (? & _ & H).
  apply bind_Ok in H as (? & _ & H). apply bind_Ok in H as (? & _ & H).
  apply bind_Ok in H as (? & _ & H). apply bind_Ok in H as (? & _ & H).
  apply bind_Ok in H as (? & _ & H).
  injection H as <-. simpl. by apply contains_spec.
Qed.

(** A record comes from one of the three attempts. *)
Lemma parse_post_some (article : Article) (p : Post) :
  parse_post article = Some p ->
  ∃ attempt, (attempt < MAX_PARSE_RETRIES)%nat ∧
             read_post (article attempt) = Ok (Some p).
Proof.
  unfold parse_post, parse_post_run, MAX_PARSE_RETRIES. simpl. intros H.
  destruct (read_post (article 0%nat)) as [r0|e0] eqn:H0; simpl in H.
  { subst r0. exists 0%nat. split; [lia | done]. }
  destruct (is_NoSuchElement_or_Stale e0); simpl in H; [|discriminate].
  destruct (read_post (article 1%nat)) as [r1|e1] eqn:H1; simpl in H.
  { subst r1. exists 1%nat. split; [lia | done]. }
  destruct (is_NoSuchElement_or_Stale e1); simpl in H; [|discriminate].
  destruct (read_post (article 2%nat)) as [r2|e2] eqn:H2; simpl in H.
  { subst r2. exists 2%nat. split; [lia | done]. }
  destruct (is_NoSuchElement_or_Stale e2); simpl in H; discriminate.
Qed.

Lemma parse_post_marker (article : Article) (p : Post) :
  parse_post article = Some p -> has_status_marker (post_url p).
Proof.
  intros H. apply parse_post_some in H as (attempt & _ & H).
  by apply read_post_marker in H.
Qed.

(** X4: Every record [parse_post] returns has a permalink with the marker
    ["/status/"]: a node without it never becomes a record, at whatever
    attempt it is read. *)
Theorem parse_post_url_has_status_marker (article : Article) (p : Post) :
  parse_post article = Some p -> has_status_marker (post_url p).
Proof. exact (parse_post_marker article p). Qed.

Lemma parse_post_url_has_status_marker_witness :
  has_status_marker (post_url (sample_post url_1 1500)).
Proof.
  apply (parse_post_url_has_status_marker
           (steady (sample_view url_1 (lit "1.5K")))).
  vm_compute. reflexivity.
Defined.

Lemma first_metric_text_first_match (before : list pystr) (raw : pystr)
    (after : list Element) :
  (∀ t, t ∈ before -> ¬ numeric_or_suffixed (strip t)) ->
  numeric_or_suffixed (strip raw) ->
  first_metric_text (map element before ++ element raw :: after)
  = Ok (strip raw).
Proof.
  intros Hbefore Hraw. induction before as [|t before IH]; simpl.
  - apply looks_numeric_spec in Hraw. by rewrite Hraw.
  - destruct (looks_numeric (strip t)) eqn:Ht.
    + exfalso. apply (Hbefore t); [apply list_elem_of_here|].
      by apply looks_numeric_spec.
    + apply IH. intros t' Ht'. apply Hbefore. by apply list_elem_of_further.
Qed.

(** X5: A metric is read from the first span whose stripped text looks
    numeric: the spans before it are skipped, the spans after it are not
    even read (they may be stale), and the metric is [convert_to_int] of
    that text. *)
Theorem read_metric_first_numeric_span (before : list pystr) (raw : pystr)
    (after : list Element) :
  (∀ t, t ∈ before -> ¬ numeric_or_suffixed (strip t)) ->
  numeric_or_suffixed (strip raw) ->
  read_metric
    (Ok {| ctl_spans := Ok (map element before ++ element raw :: after) |})
  = convert_to_int (strip raw).
Proof.
  intros Hbefore Hraw. unfold read_metric. simpl.
  rewrite (first_metric_text_first_match before raw after Hbefore Hraw).
  simpl. unfold catch.
  destruct (convert_to_int (strip raw)) as [n|e] eqn:Hc; [done|].
  apply convert_to_int_raise_inv in Hc as [-> _]. done.
Qed.

Lemma read_metric_first_numeric_span_witness :
  read_metric
    (Ok {| ctl_spans :=
             Ok (map element [lit ""; lit "Like"]
                 ++ element (lit " 1,234 ")
                 :: [ {| el_text := Raise StaleElementReferenceException |} ])
        |})
  = convert_to_int (strip (lit " 1,234 ")).
Proof.
  apply (read_metric_first_numeric_span [lit ""; lit "Like"] (lit " 1,234 ")).
  - intros t Ht H. apply looks_numeric_spec in H.
    apply list_elem_of_In in Ht. simpl in Ht.
    destruct Ht as [<- | [<- | []]]; vm_compute in H; discriminate H.
  - apply looks_numeric_spec. vm_compute. reflexivity.
Defined.

(** Digits of other scripts are digits for [str.isdigit]: a span of
    full-width digits is selected and read as the number it spells; a
    superscript two is selected as well, but it is no decimal digit and
    reads as 0, whatever follows it. *)
Example read_metric_digits_of_other_scripts :
  read_metric (Ok (control [[65297; 65298; 65299]%N])) = Ok 123 ∧
  read_metric (Ok (control [[178%N]; lit "1,234"])) = Ok 0.
Proof. split; vm_compute; reflexivity. Qed.

Lemma first_handle_find (texts : list pystr) :
  first_handle (map element texts)
  = Ok (default [] (List.find (starts_with [c_at]) texts)).
Proof.
  induction texts as [|t texts IH]; [done|].
  cbn [map first_handle element el_text List.find mbind result_bind].
  destruct (starts_with [c_at] t); [done | exact IH].
Qed.

(** X6: The handle is the text of the first link that starts with ['@']; when
    no link does, it is the text of the second link; with fewer than two
    links it is empty.  A missing list of links gives the empty handle,
    any other failure of the lookup leaves the attempt. *)
Theorem read_username_selects_handle (shown : result Element) :
  (∀ texts,
     read_username {| un_display_name := shown;
                      un_links := Ok (map element texts) |}
     = Ok (handle_of texts)) ∧
  read_username {| un_display_name := shown;
                   un_links := Raise NoSuchElementException |} = Ok [] ∧
  (∀ e, e ≠ NoSuchElementException -> e ≠ IndexError ->
     read_username {| un_display_name := shown; un_links := Raise e |}
     = Raise e).
Proof.
  split_and!.
  - intros texts. unfold read_username, handle_of.
    cbn [un_links mbind result_bind].
    rewrite first_handle_find. cbn [mbind result_bind].
    destruct (List.find (starts_with [c_at]) texts) as [t|] eqn:Hfind;
      cbn [default].
    + apply find_some in Hfind as [_ Hat].
      destruct t as [|c t]; [discriminate|]. done.
    + rewrite length_map.
      destruct texts as [|t1 [|t2 texts]]; done.
  - done.
  - intros e H1 H2. unfold read_username. simpl. by destruct e.
Qed.

(** What a successful read of a post went through. *)
Lemma read_post_inv (v : NodeView) (p : Post) :
  read_post v = Ok (Some p) ->
  ∃ time_element post_date ancestor_a url user_name_div shown handle body
    hashtag_elements tags,
    nv_time v = Ok time_element ∧
    t_datetime time_element = Ok post_date ∧
    t_ancestor_a time_element = Ok ancestor_a ∧
    a_href ancestor_a = Ok (Some url) ∧
    contains (lit "/status/") url = true ∧
    nv_user_name v = Ok user_name_div ∧
    catch is_NoSuchElement
      (elem ← un_display_name user_name_div; el_text elem)
      (fun _ => Ok []) = Ok shown ∧
    read_username user_name_div = Ok handle ∧
    catch is_NoSuchElement
      (text_div ← nv_tweet_text v; el_text text_div)
      (fun _ => Ok []) = Ok body ∧
    nv_hashtags v = Ok hashtag_elements ∧
    hashtag_texts hashtag_elements = Ok tags ∧
    read_metric (nv_like v) = Ok (likes p) ∧
    read_metric (nv_retweet v) = Ok (reposts p) ∧
    read_metric (nv_analytics v) = Ok (views p) ∧
    p = {| post_url := url; username := handle; display_name := shown;
           date := post_date; text := body; likes := likes p;
           reposts := reposts p; views := views p;
           hashtags := join [c_bar] tags |}.
Proof.
  unfold read_post. intros H.
  apply bind_Ok in H as (time_element & H1 & H).
  apply bind_Ok in H as (post_date & H2 & H).
  apply bind_Ok in H as (ancestor_a & H3 & H).
  apply bind_Ok in H as (href & H4 & H).
  destruct href as [url|]; [|discriminate].
  destruct (contains (lit "/status/") url) eqn:H5; simpl in H; [|discriminate].
  apply bind_Ok in H as (user_name_div & H6 & H).
  apply bind_Ok in H as (shown & H7 & H).
  apply bind_Ok in H as (handle & H8 & H).
  apply bind_Ok in H as (body & H9 & H).
  apply bind_Ok in H as (hashtag_elements & H10 & H).
  apply bind_Ok in H as (tags & H11 & H).
  apply bind_Ok in H as (like_count & H12 & H).
  apply bind_Ok in H as (repost_count & H13 & H).
  apply bind_Ok in H as (view_count & H14 & H).
  injection H as <-. simpl.
  exists time_element, post_date, ancestor_a, url, user_name_div, shown,
    handle, body, hashtag_elements, tags.
  by split_and!.
Qed.

Lemma read_metric_missing : read_metric (Raise NoSuchElementException) = Ok 0.
Proof. reflexivity. Qed.

Lemma read_metric_failed (e : exn) :
  e ≠ NoSuchElementException -> read_metric (Raise e) = Raise e.
Proof. intros He. unfold read_metric. simpl. by destruct e. Qed.

Ltac replay_read_post :=
  unfold read_post;
  cbn [with_like with_retweet with_analytics with_tweet_text
       nv_time nv_user_name nv_tweet_text nv_hashtags nv_like nv_retweet
       nv_analytics];
  repeat match goal with
         | H : ?m = Ok _ |- context [mbind _ ?m] =>
             rewrite H; cbn [mbind result_bind]
         | H : contains _ _ = true |- _ => rewrite H; cbn [negb]
         end.

(** X7: The optional blocks of a post that reads well.  When the tweet text,
    the like button, the repost button or the analytics link is missing
    ([NoSuchElementException]), the record is the same but for an empty
    [text] or a count of 0; when the lookup of one of them fails in any
    other way (a stale node, say), the attempt fails with that exception
    and no record is built. *)
Theorem read_post_optional_blocks (v : NodeView) (p : Post) :
  read_post v = Ok (Some p) ->
  let gone {A} : result A := Raise NoSuchElementException in
  read_post (with_tweet_text gone v) = Ok (Some (with_text [] p)) ∧
  read_post (with_like gone v)
    = Ok (Some (with_counts 0 (reposts p) (views p) p)) ∧
  read_post (with_retweet gone v)
    = Ok (Some (with_counts (likes p) 0 (views p) p)) ∧
  read_post (with_analytics gone v)
    = Ok (Some (with_counts (likes p) (reposts p) 0 p)) ∧
  (∀ e, e ≠ NoSuchElementException ->
     read_post (with_tweet_text (Raise e) v) = Raise e ∧
     read_post (with_like (Raise e) v) = Raise e ∧
     read_post (with_retweet (Raise e) v) = Raise e ∧
     read_post (with_analytics (Raise e) v) = Raise e).
Proof.
  intros H.
  destruct (read_post_inv v p H)
    as (time_element & post_date & ancestor_a & url & user_name_div & shown
        & handle & body & hashtag_elements & tags
        & H1 & H2 & H3 & H4 & H5 & H6 & H7 & H8 & H9 & H10 & H11
        & H12 & H13 & H14 & Hp).
  simpl. split_and!.
  - replay_read_post. cbn [catch mbind result_bind is_NoSuchElement].
    replay_read_post. by rewrite Hp.
  - replay_read_post. rewrite read_metric_missing. cbn [mbind result_bind].
    replay_read_post. by rewrite Hp.
  - replay_read_post. rewrite read_metric_missing. cbn [mbind result_bind].
    replay_read_post. by rewrite Hp.
  - replay_read_post. rewrite read_metric_missing. cbn [mbind result_bind].
    by rewrite Hp.
  - intros e He. split_and!.
    + replay_read_post. cbn [catch mbind result_bind].
      by destruct e.
    + replay_read_post. by rewrite (read_metric_failed e He).
    + replay_read_post. by rewrite (read_metric_failed e He).
    + replay_read_post. by rewrite (read_metric_failed e He).
Qed.

Lemma read_post_optional_blocks_witness :
  read_post (with_like (Raise NoSuchElementException)
               (sample_view url_1 (lit "1.5K")))
  = Ok (Some (with_counts 0 (reposts (sample_post url_1 1500))
                (views (sample_post url_1 1500)) (sample_post url_1 1500))).
Proof.
  assert (Hread : read_post (sample_view url_1 (lit "1.5K"))
                  = Ok (Some (sample_post url_1 1500))).
  { vm_compute. reflexivity. }
  pose proof (read_post_optional_blocks _ _ Hread) as H.
  cbv zeta in H. destruct H as (_ & Hlike & _). exact Hlike.
Defined.

(** ** More on the crawl *)

Lemma offer_accepted (post_data : Post) (st : Locals) :
  (offer post_data st).2 = true ->
  LIKE_THRESHOLD <= likes post_data ∧ post_url post_data ∉ scraped_urls st.
Proof.
  destruct (decide (post_url post_data ∈ scraped_urls st)) as [Hin | Hnew].
  - by rewrite (offer_seen _ _ Hin).
  - destruct (offer_new _ _ Hnew) as (st' & -> & _). simpl.
    by intros H%bool_decide_eq_true.
Qed.

Lemma scan_articles_buzzed (limit : Z) (articles : list Article)
    (st : Locals) :
  Forall buzzed (collected_data st) ->
  Forall buzzed (collected_data (scan_articles limit articles st)).
Proof.
  revert st. induction articles as [|article rest IH]; intros st Hst; [done|].
  cbn [scan_articles].
  destruct (parse_post article) as [post_data|] eqn:Hparse; [|by apply IH].
  pose proof (offer_frame post_data st) as Ho.
  pose proof (offer_accepted post_data st) as Ha.
  destruct (offer post_data st) as [st1 accepted]. simpl in Ho, Ha.
  destruct Ho as (_ & _ & _ & _ & Hc & _).
  assert (H1 : Forall buzzed (collected_data st1)).
  { rewrite Hc. destruct accepted; [|done].
    apply Forall_app. split; [done|]. apply Forall_singleton.
    split; [by apply Ha|]. by apply (parse_post_marker article). }
  destruct (accepted && (limit <=? len (collected_data st1))); [done|].
  by apply IH.
Qed.

Ltac close_exit :=
  intros; unfold MAX_SCROLL_PATIENCE in *;
  first [ done | lia | congruence
        | split; intros; first [ done | lia | congruence ] ].

Lemma loop_body_exits (limit : Z) (b : Scroll) (st s1 : Locals)
    (ex1 : option Exit) :
  loop_body limit b st = Ok (s1, ex1) ->
  scraped_urls st ⊆ scraped_urls s1 ∧
  (Forall buzzed (collected_data st) -> Forall buzzed (collected_data s1)) ∧
  (ex1 = Some TargetReached -> limit <= len (collected_data s1)) ∧
  ex1 ≠ Some IterationCeiling ∧
  (0 <= patience st < MAX_SCROLL_PATIENCE ->
   0 <= patience s1 <= MAX_SCROLL_PATIENCE ∧
   (ex1 = Some FeedExhausted <-> patience s1 = MAX_SCROLL_PATIENCE) ∧
   (ex1 = None -> patience s1 < MAX_SCROLL_PATIENCE)).
Proof.
  intros Hbody. apply loop_body_cases in Hbody.
  destruct Hbody as [(_ & _ & -> & ->) | (articles & s0 & _ & _ & Hs0 & Hb)].
  { simpl. split_and!; try done. intros Hp. split_and!; close_exit. }
  destruct (scan_frame limit articles (begin_scroll st))
    as (_ & Hp0 & _ & Hseen & _). rewrite <- Hs0 in Hp0, Hseen.
  pose proof (scan_articles_buzzed limit articles (begin_scroll st)) as Hbz.
  rewrite <- Hs0 in Hbz. simpl in Hp0, Hseen, Hbz.
  destruct Hb as [(Hfull & -> & ->) | (Hroom' & h & _ & _ & Hb)].
  { split_and!; try done. intros Hp. rewrite Hp0. split_and!; close_exit. }
  destruct Hb as [(_ & _ & -> & ->) | [(_ & _ & -> & ->) | (_ & -> & ->)]];
    simpl; (split_and!; [done | done | | | ]);
    try (by destruct (MAX_SCROLL_PATIENCE <=? patience st + 1));
    try done;
    intros Hp;
    try destruct (Z.leb_spec MAX_SCROLL_PATIENCE (patience st + 1));
    split_and!; close_exit.
Qed.

(** What a run of the loop keeps and how it can end. *)
Lemma crawl_loop_exits (fuel : nat) (limit : Z) (br : Browser)
    (st st' : Locals) (ex : option Exit) :
  crawl_loop fuel limit br st = Ok (st', ex) ->
  scraped_urls st ⊆ scraped_urls st' ∧
  (Forall buzzed (collected_data st) -> Forall buzzed (collected_data st')) ∧
  (ex = Some TargetReached -> limit <= len (collected_data st')) ∧
  (ex = Some IterationCeiling -> max_scrolls <= scroll_count st') ∧
  (0 <= patience st < MAX_SCROLL_PATIENCE ->
   0 <= patience st' <= MAX_SCROLL_PATIENCE ∧
   (ex = Some FeedExhausted <-> patience st' = MAX_SCROLL_PATIENCE)).
Proof.
  revert st. induction fuel as [|fuel IH]; intros st H; cbn [crawl_loop] in H;
    destruct (Z.ltb_spec (len (collected_data st)) limit) as [Hroom | Hfull];
    simpl in H;
    try (injection H as <- <-; split_and!; try done;
         intros Hp; split; [lia | split; [done | lia]]);
    destruct (Z.ltb_spec (scroll_count st) max_scrolls) as [Hgo | Hstop];
    simpl in H;
    try (injection H as <- <-; split_and!; try done;
         intros Hp; split; [lia | split; [done | lia]]).
  destruct (loop_body limit (br (scroll_count st + 1)) st)
    as [[s1 ex1]|e] eqn:Hbody; [|discriminate].
  simpl in H.
  destruct (loop_body_exits _ _ _ _ _ Hbody) as (Hs1 & Hb1 & Ht1 & Hc1 & Hp1).
  destruct ex1 as [reason|].
  - injection H as <- <-. split_and!; try done.
    intros Hp. destruct (Hp1 Hp) as (? & ? & _). done.
  - apply IH in H. destruct H as (Hs' & Hb' & Ht' & Hc' & Hp').
    split_and!; try done.
    + by etrans.
    + by auto.
    + intros Hp. destruct (Hp1 Hp) as (? & _ & Hlt).
      apply Hp'. specialize (Hlt eq_refl). lia.
Qed.

(** X8: What reaches [save_data]: the records handed over have pairwise
    distinct urls, each has at least [LIKE_THRESHOLD] likes and a
    permalink with ["/status/"], there are at most [limit] of them, and
    exactly [limit] (none for a [limit] below 1) when the loop ended
    because the target was reached. *)
Theorem saved_records_are_distinct_buzzed_and_bounded (fuel : nat)
    (keyword : pystr) (limit : Z) (s : Session) (out : Outcome)
    (records : list Post) :
  scrape_buzzed_posts fuel keyword limit s = Some out ->
  saved out = Some records ->
  NoDup (urls records) ∧
  Forall buzzed records ∧
  len records <= Z.max 0 limit ∧
  (ended out = Some TargetReached -> len records = Z.max 0 limit).
Proof.
  unfold scrape_buzzed_posts. intros Hout Hsaved.
  destruct (is_empty keyword); [by simplify_eq/=|].
  destruct (Url.search_url keyword); [|by simplify_eq/=].
  destruct (setup_driver s) as [opened [[]|e0]]; [|by simplify_eq/=].
  destruct (crawl fuel limit s) as [[st [reason|]]|e0] eqn:Hcrawl;
    [| discriminate | by simplify_eq/=].
  assert (records = collected_data st ∧ ended out = Some reason)
    as [-> Hended].
  { destruct (save_data s (collected_data st)); by simplify_eq/=. }
  clear Hout Hsaved.
  unfold crawl in Hcrawl.
  destruct (get_page s) as [[]|]; [|discriminate].
  destruct (first_height s) as [h|]; [|discriminate].
  simpl in Hcrawl.
  pose proof (crawl_loop_frame _ _ _ _ _ _ Hcrawl)
    as (_ & _ & Hd & _ & Hle & _).
  pose proof (crawl_loop_exits _ _ _ _ _ _ Hcrawl)
    as (_ & Hb & Ht & _).
  simpl in Hle. unfold len in Hle at 2. simpl in Hle.
  split_and!.
  - by destruct (Hd (initial_distinct_and_seen h)).
  - apply Hb. simpl. apply Forall_nil_2.
  - lia.
  - rewrite Hended. intros [= ->]. specialize (Ht eq_refl).
    unfold len in *. lia.
Qed.

Lemma saved_records_are_distinct_buzzed_and_bounded_witness :
  ∃ out records,
    scrape_buzzed_posts 50 (lit "#SNS") 1 (session_of dying_browser)
      = Some out ∧
    saved out = Some records ∧
    NoDup (urls records) ∧ Forall buzzed records ∧
    len records <= Z.max 0 1 ∧
    (ended out = Some TargetReached -> len records = Z.max 0 1).
Proof.
  assert (Hrun : ∃ out records,
            scrape_buzzed_posts 50 (lit "#SNS") 1 (session_of dying_browser)
              = Some out ∧ saved out = Some records).
  { eexists. eexists. split; vm_compute; reflexivity. }
  destruct Hrun as (out & records & Hout & Hsaved).
  exists out, records. split; [exact Hout|]. split; [exact Hsaved|].
  exact (saved_records_are_distinct_buzzed_and_bounded
           _ _ _ _ _ _ Hout Hsaved).
Defined.

(** X9: The state of the crawl only grows: along any run of the loop the seen
    set never loses a url, [collected_data] is only appended to, and
    [scroll_count] never decreases. *)
Theorem crawl_state_only_grows (fuel : nat) (limit : Z) (br : Browser)
    (st st' : Locals) (ex : option Exit) :
  crawl_loop fuel limit br st = Ok (st', ex) ->
  scraped_urls st ⊆ scraped_urls st' ∧
  (∃ more, collected_data st' = collected_data st ++ more) ∧
  scroll_count st <= scroll_count st' <= scroll_count st + Z.of_nat fuel.
Proof.
  intros H.
  pose proof (crawl_loop_frame _ _ _ _ _ _ H) as (Hn & _ & _ & Hmore & _).
  pose proof (crawl_loop_exits _ _ _ _ _ _ H) as (Hseen & _).
  done.
Qed.

Lemma crawl_state_only_grows_witness :
  ∃ st',
    crawl_loop 1 5 dying_browser (initial 1000) = Ok (st', None) ∧
    scraped_urls (initial 1000) ⊆ scraped_urls st' ∧
    (∃ more, collected_data st' = collected_data (initial 1000) ++ more) ∧
    scroll_count (initial 1000) <= scroll_count st'
      <= scroll_count (initial 1000) + Z.of_nat 1.
Proof.
  assert (Hrun : ∃ st',
            crawl_loop 1 5 dying_browser (initial 1000) = Ok (st', None)).
  { eexists. vm_compute. reflexivity. }
  destruct Hrun as (st' & Hrun). exists st'. split; [exact Hrun|].
  exact (crawl_state_only_grows _ _ _ _ _ _ Hrun).
Defined.

(** X10: [patience] stays between 0 and [MAX_SCROLL_PATIENCE]; the loop ends
    with [FeedExhausted] exactly when it reaches the limit, and it ends at
    the ceiling only with [scroll_count = max_scrolls]. *)
Theorem patience_is_bounded (fuel : nat) (limit : Z) (br : Browser)
    (height : Z) (st : Locals) (ex : option Exit) :
  crawl_loop fuel limit br (initial height) = Ok (st, ex) ->
  0 <= patience st <= MAX_SCROLL_PATIENCE ∧
  (ex = Some FeedExhausted <-> patience st = MAX_SCROLL_PATIENCE) ∧
  (ex = Some IterationCeiling -> scroll_count st = max_scrolls).
Proof.
  intros H.
  pose proof (crawl_loop_frame _ _ _ _ _ _ H) as (_ & Hmax & _).
  pose proof (crawl_loop_exits _ _ _ _ _ _ H) as (_ & _ & _ & Hc & Hp).
  simpl in Hmax, Hp.
  destruct Hp as [Hp Hfe]; [unfold MAX_SCROLL_PATIENCE; lia|].
  split; [done|]. split; [done|].
  intros Hex. specialize (Hc Hex).
  assert (scroll_count st <= max_scrolls) by (apply Hmax; by unfold max_scrolls).
  lia.
Qed.

Lemma patience_is_bounded_witness :
  ∃ st ex,
    crawl_loop 50 3 still_browser (initial 1000) = Ok (st, ex) ∧
    0 <= patience st <= MAX_SCROLL_PATIENCE ∧
    (ex = Some FeedExhausted <-> patience st = MAX_SCROLL_PATIENCE) ∧
    (ex = Some IterationCeiling -> scroll_count st = max_scrolls).
Proof.
  assert (Hrun : ∃ st ex,
            crawl_loop 50 3 still_browser (initial 1000) = Ok (st, ex)).
  { eexists. eexists. vm_compute. reflexivity. }
  destruct Hrun as (st & ex & Hrun). exists st, ex. split; [exact Hrun|].
  exact (patience_is_bounded _ _ _ _ _ _ Hrun).
Defined.

Lemma scan_articles_parse_none (limit : Z) (article : Article)
    (rest : list Article) (st : Locals) :
  parse_post article = None ->
  scan_articles limit (article :: rest) st = scan_articles limit rest st.
Proof. intros H. cbn [scan_articles]. by rewrite H. Qed.

Lemma scan_articles_take (limit : Z)
    (articles : list Article) (st : Locals) :
  len (collected_data st) < limit ->
  collected_data (scan_articles limit articles st)
  = collected_data st
    ++ take (Z.to_nat (limit - len (collected_data st)))
         (accepted_of (scraped_urls st) (omap parse_post articles)).
Proof.
  revert st. induction articles as [|article rest IH]; intros st Hroom.
  - simpl. by rewrite take_nil, app_nil_r.
  - cbn [scan_articles omap list_omap].
    destruct (parse_post article) as [post_data|] eqn:Hparse;
      [|by apply IH].
    cbn [accepted_of].
    destruct (decide (post_url post_data ∈ scraped_urls st)) as [Hin | Hnew].
    + rewrite (offer_seen _ _ Hin). simpl. by apply IH.
    + destruct (offer_new _ _ Hnew) as (st1 & -> & Hseen & Hc & _).
      destruct (decide (LIKE_THRESHOLD <= likes post_data)) as [Hok | Hlow].
      * rewrite bool_decide_eq_true_2 in * by done. simpl.
        assert (Hlen : len (collected_data st1) = len (collected_data st) + 1).
        { rewrite Hc. unfold len. rewrite length_app. simpl. lia. }
        destruct (Z.to_nat (limit - len (collected_data st))) as [|room]
          eqn:Hr; [lia|].
        cbn [take].
        destruct (Z.leb_spec limit (len (collected_data st1))) as [Hfull | Hgo].
        -- assert (room = 0%nat) as -> by lia.
           by rewrite take_0, Hc.
        -- rewrite IH by done.
           replace (Z.to_nat (limit - len (collected_data st1)))
             with room by lia.
           by rewrite Hc, Hseen, <- app_assoc.
      * rewrite bool_decide_eq_false_2 in * by done. simpl.
        rewrite IH by (rewrite Hc; done). by rewrite Hc, Hseen.
Qed.

(** X11: The [for] loop appends, in document order, the first occurrence of
    each url that is new and has enough likes, and stops when the
    collection holds [limit] records: what is appended is a prefix of what
    an accumulator with unbounded room would accept. *)
Theorem scan_articles_collects_in_order (limit : Z)
    (articles : list Article) (st : Locals) :
  len (collected_data st) < limit ->
  collected_data (scan_articles limit articles st)
  = collected_data st
    ++ take (Z.to_nat (limit - len (collected_data st)))
         (accepted_of (scraped_urls st) (omap parse_post articles)).
Proof. exact (scan_articles_take limit articles st). Qed.

Lemma scan_articles_collects_in_order_witness :
  let articles := [sample_article url_1 (lit "1.5K");
                   sample_article url_1 (lit "9,999");
                   sample_article url_2 (lit "200")] in
  collected_data (scan_articles 5 articles (initial 1000))
  = collected_data (initial 1000)
    ++ take (Z.to_nat (5 - len (collected_data (initial 1000))))
         (accepted_of (scraped_urls (initial 1000))
            (omap parse_post articles)).
Proof.
  assert (Hroom : len (collected_data (initial 1000)) < 5).
  { unfold len. simpl. lia. }
  exact (scan_articles_collects_in_order 5 _ (initial 1000) Hroom).
Defined.

(** X12: When the first snapshot holds at least [limit] acceptable records, the
    crawl ends in its first pass with [TargetReached] and exactly the
    first [limit] of them, in document order, whatever the browser would
    answer afterwards: no scroll is made and no extent is read. *)
Theorem target_reached_in_first_pass (fuel : nat) (limit : Z) (br : Browser)
    (height : Z) (articles : list Article) :
  0 < limit ->
  found_articles (br 1) = Ok articles ->
  limit <= len (accepted_of ∅ (omap parse_post articles)) ->
  ∃ st,
    crawl_loop (S fuel) limit br (initial height)
      = Ok (st, Some TargetReached) ∧
    collected_data st
      = take (Z.to_nat limit) (accepted_of ∅ (omap parse_post articles)) ∧
    scroll_count st = 1.
Proof.
  intros Hlimit Hfound Henough.
  set (s1 := scan_articles limit articles (begin_scroll (initial height))).
  assert (Hc : collected_data s1
               = take (Z.to_nat limit)
                   (accepted_of ∅ (omap parse_post articles))).
  { unfold s1. rewrite scan_articles_take; [|done].
    simpl. unfold len. simpl. by rewrite Z.sub_0_r. }
  assert (Hlen : len (collected_data s1) = limit).
  { rewrite Hc. unfold len in *. rewrite length_take. lia. }
  destruct (scan_frame limit articles (begin_scroll (initial height)))
    as (_ & _ & Hn & _). fold s1 in Hn. simpl in Hn.
  exists s1. split; [|done].
  cbn [crawl_loop]. simpl.
  change (len []) with 0. change (0 + 1) with 1.
  destruct (Z.ltb_spec 0 limit); [|lia]. simpl.
  unfold loop_body. rewrite Hfound. simpl.
  destruct articles as [|a rest]; [unfold len in Henough; simpl in Henough; lia|].
  fold s1. destruct (Z.leb_spec limit (len (collected_data s1))); [done | lia].
Qed.

Lemma target_reached_in_first_pass_witness :
  ∃ st,
    crawl_loop (S 49) 1 dying_browser (initial 1000)
      = Ok (st, Some TargetReached) ∧
    collected_data st
      = take (Z.to_nat 1)
          (accepted_of ∅
             (omap parse_post [sample_article url_1 (lit "1.5K")])) ∧
    scroll_count st = 1.
Proof.
  assert (Henough :
    1 <= len (accepted_of ∅
                (omap parse_post [sample_article url_1 (lit "1.5K")]))).
  { vm_compute. discriminate. }
  exact (target_reached_in_first_pass 49 1 dying_browser 1000
           [sample_article url_1 (lit "1.5K")] ltac:(lia) eq_refl Henough).
Defined.

(** ** Saving *)

(** X13: [save_data] touches nothing when there is no record.  Otherwise it
    first asks for the directory of the path; only a failure of that
    request leaves the call, a failure of the write itself is reported
    and swallowed; and it asks for at most one write, after the
    directory, and for none when the format is neither ["csv"] nor
    ["json"]. *)
Theorem save_data_requests (disk : Persist.Disk) (data : list Post)
    (output_path output_format : pystr) :
  let run := Persist.save_data disk data output_path output_format in
  (data = [] ->
   Persist.requests run = [] ∧ Persist.raised run = None) ∧
  (data ≠ [] ->
   ∃ writes,
     Persist.requests run
       = Persist.MakeDirs (Persist.dirname output_path) :: writes ∧
     (length writes <= 1)%nat ∧
     Forall (fun r => Persist.is_write r = true) writes ∧
     (output_format ≠ lit "csv" -> output_format ≠ lit "json" ->
      writes = [])) ∧
  (∀ e, Persist.raised run = Some e <->
        data ≠ [] ∧
        Persist.makedirs disk (Persist.dirname output_path) = Raise e).
Proof.
  simpl. unfold Persist.save_data.
  destruct data as [|p data].
  { split_and!; try done. intros e. split; [done | by intros [? _]]. }
  split; [done|].
  destruct (Persist.makedirs disk (Persist.dirname output_path))
    as [[]|e0] eqn:Hmk.
  - unfold eqb.
    destruct (bool_decide_reflect (output_format = lit "csv")) as [-> | Hcsv].
    { split.
      - intros _. eexists. split; [done|]. simpl.
        split_and!; [lia | by repeat constructor | done].
      - intros e. split; [done | by intros [_ ?]]. }
    destruct (bool_decide_reflect (output_format = lit "json")) as [-> | Hjson].
    { split.
      - intros _. eexists. split; [done|]. simpl.
        split_and!; [lia | by repeat constructor | done].
      - intros e. split; [done | by intros [_ ?]]. }
    split.
    + intros _. exists []. simpl. split_and!; try done. lia.
    + intros e. split; [done | by intros [_ ?]].
  - split.
    + intros _. exists []. simpl. split_and!; try done. lia.
    + intros e. simpl. split.
      * intros [= ->]. done.
      * intros [_ [= ->]]. done.
Qed.

(** X14: What [scrape_buzzed_posts] asks to be written: nothing at all for an
    empty collection; otherwise the directory ["data"], then one CSV file
    ["data/buzzed_posts.csv"] holding the collected records in the order
    of their collection; and [save_data] called with the same path for
    JSON would write ["data/buzzed_posts.json"]. *)
Theorem save_collected_requests (disk : Persist.Disk)
    (collected : list Post) :
  (collected = [] ->
   Persist.requests (Persist.save_collected disk collected) = []) ∧
  (collected ≠ [] ->
   Persist.makedirs disk (lit "data") = Ok () ->
   Persist.requests (Persist.save_collected disk collected)
     = [Persist.MakeDirs (lit "data");
        Persist.ToCsv (lit "data/buzzed_posts.csv") collected] ∧
   Persist.requests
     (Persist.save_data disk collected
        (Persist.path_join Persist.OUTPUT_DIR Persist.OUTPUT_FILENAME)
        (lit "json"))
     = [Persist.MakeDirs (lit "data");
        Persist.ToJson (lit "data/buzzed_posts.json") collected]).
Proof.
  unfold Persist.save_collected, Persist.save_data.
  assert (Hpath : Persist.path_join Persist.OUTPUT_DIR Persist.OUTPUT_FILENAME
                  = lit "data/buzzed_posts.csv") by (vm_compute; reflexivity).
  assert (Hdir : Persist.dirname (lit "data/buzzed_posts.csv") = lit "data")
    by (vm_compute; reflexivity).
  assert (Hjson : Persist.replace (lit ".csv") (lit ".json")
                    (lit "data/buzzed_posts.csv")
                  = lit "data/buzzed_posts.json") by (vm_compute; reflexivity).
  rewrite Hpath, Hdir, Hjson.
  split; [by intros -> |].
  intros Hne Hmk. destruct collected as [|p rest]; [done|].
  rewrite Hmk. split; reflexivity.
Qed.

Lemma save_collected_requests_witness :
  let disk := {| Persist.makedirs := fun _ => Ok ();
                 Persist.to_csv := fun _ _ => Raise WebDriverException;
                 Persist.to_json := fun _ _ => Ok () |} in
  Persist.requests (Persist.save_collected disk [sample_post url_1 120])
  = [Persist.MakeDirs (lit "data");
     Persist.ToCsv (lit "data/buzzed_posts.csv") [sample_post url_1 120]].
Proof.
  simpl.
  pose proof (save_collected_requests
                {| Persist.makedirs := fun _ => Ok ();
                   Persist.to_csv := fun _ _ => Raise WebDriverException;
                   Persist.to_json := fun _ _ => Ok () |}
                [sample_post url_1 120]) as [_ H].
  destruct H as [H _]; [discriminate | reflexivity |]. exact H.
Defined.

(** ** The search url *)

Lemma hex_digit_alnum (n : N) :
  (n < 16)%N -> Url.is_alnum (Url.hex_digit n) = true.
Proof.
  intros Hn. unfold Url.hex_digit, Url.is_alnum.
  destruct (N.ltb_spec n 10).
  - apply orb_true_iff. left. apply orb_true_iff. left.
    apply andb_true_iff. split; apply N.leb_le; lia.
  - apply orb_true_iff. left. apply orb_true_iff. right.
    apply andb_true_iff. split; apply N.leb_le; lia.
Qed.

Lemma percent_safe (byte : N) :
  (byte < 256)%N -> Forall (fun c => Url.is_url_safe c = true) (Url.percent byte).
Proof.
  intros Hb. unfold Url.percent.
  assert (H1 : (byte / 16 < 16)%N) by (apply N.Div0.div_lt_upper_bound; lia).
  assert (H2 : (byte mod 16 < 16)%N) by (apply N.mod_lt; lia).
  repeat apply Forall_cons_2; [done | | | apply Forall_nil_2];
    unfold Url.is_url_safe, Url.is_unreserved;
    rewrite hex_digit_alnum by done; done.
Qed.

Lemma utf8_bytes (c : N) (bytes : list N) :
  (c <= 1114111)%N -> Url.utf8 c = Some bytes ->
  Forall (fun b => (b < 256)%N) bytes.
Proof.
  intros Hc. unfold Url.utf8.
  assert (H64 : ∀ x, (x mod 64 < 64)%N) by (intros; apply N.mod_lt; lia).
  destruct (N.ltb_spec c 128); [intros [= <-]; repeat constructor; lia|].
  destruct (N.ltb_spec c 2048).
  { intros [= <-].
    assert ((c / 64 < 32)%N) by (apply N.Div0.div_lt_upper_bound; lia).
    pose proof (H64 c). repeat constructor; lia. }
  destruct ((55296 <=? c) && (c <=? 57343))%N; [discriminate|].
  destruct (N.ltb_spec c 65536).
  { intros [= <-].
    assert ((c / 4096 < 16)%N) by (apply N.Div0.div_lt_upper_bound; lia).
    pose proof (H64 c). pose proof (H64 (c / 64)%N).
    repeat constructor; lia. }
  intros [= <-].
  assert ((c / 262144 < 5)%N) by (apply N.Div0.div_lt_upper_bound; lia).
  pose proof (H64 c). pose proof (H64 (c / 64)%N). pose proof (H64 (c / 4096)%N).
  repeat constructor; lia.
Qed.

Lemma quote_char_safe (c : N) (q : pystr) :
  (c <= 1114111)%N -> Url.quote_char c = Some q ->
  Forall (fun x => Url.is_url_safe x = true) q.
Proof.
  intros Hc. unfold Url.quote_char.
  destruct (Url.is_unreserved c) eqn:Hu.
  - intros [= <-]. apply Forall_singleton. unfold Url.is_url_safe.
    by rewrite Hu.
  - destruct (Url.utf8 c) as [bytes|] eqn:Hb; [|discriminate].
    intros [= <-]. apply utf8_bytes in Hb; [|done].
    induction Hb as [|b bytes Hlt _ IH]; cbn [map concat]; [done|].
    apply Forall_app. split; [by apply percent_safe | done].
Qed.

Lemma quote_char_none (c : N) :
  Url.quote_char c = None <-> Url.is_surrogate c = true.
Proof.
  unfold Url.quote_char, Url.utf8, Url.is_surrogate, Url.is_unreserved,
    Url.is_alnum.
  repeat (match goal with
          | |- context [(?a <=? ?b)%N] => destruct (N.leb_spec a b)
          | |- context [(?a =? ?b)%N] => destruct (N.eqb_spec a b)
          | |- context [(?a <? ?b)%N] => destruct (N.ltb_spec a b)
          end; simpl; try lia; try done).
Qed.

(** X15: The search url is the fixed prefix, the encoded keyword and the fixed
    suffix.  The encoded keyword holds nothing but letters, digits,
    ["_.-~/"] and ["%"]: whatever the keyword, it cannot add a parameter
    or a fragment to the url.  A keyword of unreserved characters is left
    as it is, and the encoding fails exactly when the keyword holds a
    surrogate code point. *)
Theorem search_url_is_well_formed (keyword : pystr) :
  Forall (fun c => (c <= 1114111)%N) keyword ->
  (∀ url, Url.search_url keyword = Some url ->
     ∃ encoded,
       Url.quote keyword = Some encoded ∧
       url = lit "https://x.com/search?q=" ++ encoded
             ++ lit "&src=typeahead_click" ∧
       Forall (fun c => Url.is_url_safe c = true) encoded) ∧
  (Forall (fun c => Url.is_unreserved c = true) keyword ->
   Url.quote keyword = Some keyword) ∧
  (Url.search_url keyword = None <->
   Exists (fun c => Url.is_surrogate c = true) keyword).
Proof.
  intros Hrange. split_and!.
  - intros url. unfold Url.search_url.
    destruct (Url.quote keyword) as [encoded|] eqn:Hq; [|discriminate].
    intros [= <-]. exists encoded. split; [done|]. split; [done|].
    revert encoded Hq. induction Hrange as [|c rest Hc _ IH];
      intros encoded Hq; simpl in Hq.
    + by injection Hq as <-.
    + destruct (Url.quote_char c) as [q|] eqn:Hqc; [|discriminate].
      destruct (Url.quote rest) as [qs|]; [|discriminate].
      injection Hq as <-. apply Forall_app. split; [|by apply IH].
      by apply (quote_char_safe c).
  - intros Hsafe. clear Hrange.
    induction Hsafe as [|c rest Hc _ IH]; [done|].
    simpl. unfold Url.quote_char. by rewrite Hc, IH.
  - unfold Url.search_url. clear Hrange.
    assert (Hq : Url.quote keyword = None <->
                 Exists (fun c => Url.is_surrogate c = true) keyword).
    { induction keyword as [|c rest IH]; simpl.
      - split; [discriminate | by intros H%Exists_nil].
      - rewrite Exists_cons, <- IH, <- quote_char_none.
        destruct (Url.quote_char c), (Url.quote rest); split;
          try done; try (by auto); by intros [? | ?]. }
    rewrite <- Hq. by destruct (Url.quote keyword).
Qed.

Lemma search_url_is_well_formed_witness :
  Url.quote (lit "SNS_2025") = Some (lit "SNS_2025").
Proof.
  assert (Hrange : Forall (fun c => (c <= 1114111)%N) (lit "SNS_2025")).
  { apply Forall_forall. intros c Hc.
    apply list_elem_of_In in Hc. simpl in Hc.
    repeat (destruct Hc as [<- | Hc]; [vm_compute; discriminate|]).
    destruct Hc. }
  pose proof (search_url_is_well_formed (lit "SNS_2025") Hrange)
    as (_ & Hsame & _).
  apply Hsame. apply Forall_forall. intros c Hc.
  apply list_elem_of_In in Hc. simpl in Hc.
  repeat (destruct Hc as [<- | Hc]; [vm_compute; reflexivity|]).
  destruct Hc.
Defined.

Example search_url_of_hashtag :
  Url.search_url (lit "#SNS" ++ [36939%N; 29992%N])
  = Some (lit "https://x.com/search?q=%23SNS%E9%81%8B%E7%94%A8&src=typeahead_click").
Proof. vm_compute. reflexivity. Qed.

(** ** Case does not matter to the normalizer *)

Ltac char_cases :=
  unfold ascii_upper_char, is_ascii_digit, is_ascii_space, is_space,
    digit_val, c_comma, c_dot, c_plus,
    c_minus, c_underscore, c_e, c_E, c_man;
  repeat (match goal with
          | |- context [(97 <=? ?c)%N] => destruct (N.leb_spec 97 c)
          | |- context [(?c <=? 122)%N] => destruct (N.leb_spec c 122)
          | |- context [(?a <=? ?b)%N] => destruct (N.leb_spec a b)
          | |- context [(?a =? ?b)%N] => destruct (N.eqb_spec a b)
          end; cbn [andb orb negb] in *; try lia; try done).

Lemma is_digit_upper (c : N) : is_ascii_digit (ascii_upper_char c) = is_ascii_digit c.
Proof. char_cases. Qed.

Lemma upper_char_digit (c : N) : is_ascii_digit c = true -> ascii_upper_char c = c.
Proof. char_cases. Qed.

Lemma is_space_upper (c : N) : is_space (ascii_upper_char c) = is_space c.
Proof. char_cases. Qed.

Lemma eqb_upper (k c : N) :
  caseless k -> (k =? ascii_upper_char c)%N = (k =? c)%N.
Proof.
  intros [-> | [-> | [-> | [-> | [-> | ->]]]]]; char_cases.
Qed.

Lemma eqb_upper' (k c : N) :
  caseless k -> (ascii_upper_char c =? k)%N = (c =? k)%N.
Proof. intros Hk. rewrite !(N.eqb_sym _ k). by apply eqb_upper. Qed.

Lemma exponent_mark_upper (c : N) :
  ((ascii_upper_char c =? c_e) || (ascii_upper_char c =? c_E))%N
  = ((c =? c_e) || (c =? c_E))%N.
Proof. char_cases. Qed.

Lemma upper_upper (s : pystr) : ascii_upper (ascii_upper s) = ascii_upper s.
Proof.
  unfold ascii_upper. rewrite map_map. apply map_ext. intros c. char_cases.
Qed.

Lemma upper_lstrip (s : pystr) : lstrip (ascii_upper s) = ascii_upper (lstrip s).
Proof.
  induction s as [|c s IH]; [done|].
  cbn [ascii_upper map lstrip]. rewrite is_space_upper.
  destruct (is_space c); [exact IH | done].
Qed.

Lemma upper_strip (s : pystr) : strip (ascii_upper s) = ascii_upper (strip s).
Proof.
  unfold strip, rstrip. rewrite upper_lstrip.
  unfold ascii_upper at 1. rewrite <- map_rev. fold (ascii_upper (rev (lstrip s))).
  rewrite upper_lstrip. unfold ascii_upper. by rewrite map_rev.
Qed.

Lemma upper_remove_char (k : N) (s : pystr) :
  caseless k -> remove_char k (ascii_upper s) = ascii_upper (remove_char k s).
Proof.
  intros Hk. unfold remove_char, pystr.
  induction s as [|c s IH]; [done|].
  cbn [ascii_upper map]. rewrite !filter_cons, (eqb_upper k c Hk).
  destruct (decide (negb (k =? c)%N)); [|exact IH].
  cbn [ascii_upper map]. f_equal. exact IH.
Qed.

Lemma contains_char_upper (k : N) (s : pystr) :
  caseless k -> contains_char k (ascii_upper s) = contains_char k s.
Proof.
  intros Hk. unfold contains_char, ascii_upper.
  induction s as [|c s IH]; [done|].
  cbn [map existsb]. by rewrite (eqb_upper k c Hk), IH.
Qed.

Lemma decimal_value_upper (c : N) :
  decimal_value (ascii_upper_char c) = decimal_value c.
Proof.
  unfold ascii_upper_char.
  destruct (N.leb_spec 97 c), (N.leb_spec c 122); cbn [andb]; try done.
  unfold decimal_value, is_ascii_digit.
  destruct (N.ltb_spec (c - 32) 128), (N.ltb_spec c 128); try lia.
  destruct (N.leb_spec 48 (c - 32)), (N.leb_spec (c - 32) 57),
    (N.leb_spec 48 c), (N.leb_spec c 57); cbn [andb]; try lia; done.
Qed.

Lemma upper_char_decimal (c : N) :
  is_decimal c = true -> ascii_upper_char c = c.
Proof.
  unfold ascii_upper_char.
  destruct (N.leb_spec 97 c), (N.leb_spec c 122); cbn [andb]; try done.
  unfold is_decimal, decimal_value, is_ascii_digit.
  destruct (N.ltb_spec c 128); [|lia].
  destruct (N.leb_spec 48 c), (N.leb_spec c 57); cbn [andb]; try lia; done.
Qed.

Lemma strip_non_digits_upper (s : pystr) :
  strip_non_digits (ascii_upper s) = strip_non_digits s.
Proof.
  unfold strip_non_digits, pystr.
  induction s as [|c s IH]; [done|].
  cbn [ascii_upper map]. rewrite !filter_cons.
  assert (He : is_decimal (ascii_upper_char c) = is_decimal c)
    by (unfold is_decimal; by rewrite decimal_value_upper).
  destruct (decide (is_decimal (ascii_upper_char c))) as [Hu | Hu],
    (decide (is_decimal c)) as [Hd | Hd];
    rewrite He in Hu; try done.
  apply Is_true_true in Hd. rewrite (upper_char_decimal c Hd). f_equal. exact IH.
Qed.

Lemma upper_char_ascii_upper (c : N) :
  upper_char (ascii_upper_char c) = upper_char c.
Proof.
  destruct (ascii_upper_char_cases c) as [[Hc Hu] | [Hc Hu]];
    [|by rewrite Hu].
  rewrite Hu. unfold upper_char.
  destruct (N.ltb_spec (c - 32) 128), (N.ltb_spec c 128); try lia.
  rewrite Hu. f_equal.
  destruct (ascii_upper_char_cases (c - 32)) as [[Hc' _] | [_ Hu']];
    [lia | done].
Qed.

(** The upper case of the ASCII upper case is the upper case. *)
Lemma upper_ascii_upper (s : pystr) : upper (ascii_upper s) = upper s.
Proof.
  unfold upper, ascii_upper. induction s as [|c s IH]; [done|].
  rewrite map_cons. cbn [flat_map]. by rewrite IH, upper_char_ascii_upper.
Qed.

Lemma is_ascii_space_upper (c : N) :
  is_ascii_space (ascii_upper_char c) = is_ascii_space c.
Proof. char_cases. Qed.

Lemma transform_upper (s : pystr) :
  PyFloat.transform (ascii_upper s) = ascii_upper (PyFloat.transform s).
Proof.
  induction s as [|c s IH]; [done|].
  cbn [ascii_upper map PyFloat.transform]. fold (ascii_upper s).
  rewrite IH, decimal_value_upper.
  destruct (N.ltb_spec c 127) as [Hlt | Hge].
  - assert (Hu : (ascii_upper_char c <? 127)%N = true).
    { apply N.ltb_lt. unfold ascii_upper_char.
      destruct (N.leb_spec 97 c), (N.leb_spec c 122); cbn [andb]; lia. }
    by rewrite Hu.
  - assert (Hu : ascii_upper_char c = c).
    { unfold ascii_upper_char.
      destruct (N.leb_spec 97 c), (N.leb_spec c 122); cbn [andb]; try done.
      lia. }
    rewrite Hu. destruct (N.ltb_spec c 127); [lia|].
    destruct (is_space c); [done|].
    destruct (decimal_value c) as [d|] eqn:Hd; [|done].
    apply decimal_value_bound in Hd.
    cbn [ascii_upper map]. f_equal. unfold ascii_upper_char.
    destruct (N.leb_spec 97 (48 + d)); cbn [andb]; [lia | done].
Qed.

Lemma to_ascii_upper (s : pystr) :
  PyFloat.to_ascii (ascii_upper s) = ascii_upper (PyFloat.to_ascii s).
Proof.
  unfold PyFloat.to_ascii.
  assert (Hall : forallb (fun c => (c <? 128)%N) (ascii_upper s)
                 = forallb (fun c => (c <? 128)%N) s).
  { unfold ascii_upper. induction s as [|c s IH]; [done|].
    cbn [map forallb]. rewrite IH. f_equal. unfold ascii_upper_char.
    destruct (N.leb_spec 97 c), (N.leb_spec c 122); cbn [andb]; try done.
    destruct (N.ltb_spec (c - 32) 128), (N.ltb_spec c 128); lia. }
  rewrite Hall. destruct (forallb _ s); [done | apply transform_upper].
Qed.

Lemma skip_spaces_upper (s : pystr) :
  PyFloat.skip_spaces (ascii_upper s) = ascii_upper (PyFloat.skip_spaces s).
Proof.
  induction s as [|c s IH]; [done|].
  cbn [ascii_upper map PyFloat.skip_spaces]. rewrite is_ascii_space_upper.
  destruct (is_ascii_space c); [exact IH | done].
Qed.

Lemma trimmed_upper (s : pystr) :
  PyFloat.trimmed (ascii_upper s) = ascii_upper (PyFloat.trimmed s).
Proof.
  unfold PyFloat.trimmed. rewrite to_ascii_upper, skip_spaces_upper.
  unfold ascii_upper at 1. rewrite <- map_rev.
  fold (ascii_upper (rev (PyFloat.skip_spaces (PyFloat.to_ascii s)))).
  rewrite skip_spaces_upper. unfold ascii_upper. by rewrite map_rev.
Qed.

Lemma digits_rest_upper (s : pystr) (acc n : Z) :
  PyFloat.digits_rest (ascii_upper s) acc n
  = (let '(a, m, rest) := PyFloat.digits_rest s acc n in (a, m, ascii_upper rest)).
Proof.
  remember (length s) as k eqn:Hk.
  revert s acc n Hk. induction k as [k IH] using lt_wf_ind.
  intros s acc n Hk. destruct s as [|c s]; [done|].
  cbn [ascii_upper map PyFloat.digits_rest]. rewrite is_digit_upper.
  destruct (is_ascii_digit c) eqn:Hc.
  - rewrite (upper_char_digit c Hc).
    apply (IH (length s)); [simpl in Hk; lia | done].
  - rewrite (eqb_upper' c_underscore c) by (unfold caseless; tauto).
    destruct (c =? c_underscore)%N; [|done].
    destruct s as [|d s]; [done|].
    cbn [map]. rewrite is_digit_upper.
    destruct (is_ascii_digit d) eqn:Hd; [|done].
    rewrite (upper_char_digit d Hd).
    apply (IH (length s)); [simpl in Hk; lia | done].
Qed.

Lemma digitpart_upper (s : pystr) (acc : Z) :
  PyFloat.digitpart (ascii_upper s) acc
  = match PyFloat.digitpart s acc with
    | Some (a, m, rest) => Some (a, m, ascii_upper rest)
    | None => None
    end.
Proof.
  destruct s as [|c s]; [done|].
  cbn [ascii_upper map PyFloat.digitpart]. rewrite is_digit_upper.
  destruct (is_ascii_digit c) eqn:Hc; [|done].
  rewrite (upper_char_digit c Hc).
  fold (ascii_upper s). rewrite digits_rest_upper.
  by destruct (PyFloat.digits_rest s _ _) as [[a m] rest].
Qed.

Lemma parse_sign_upper (s : pystr) :
  PyFloat.parse_sign (ascii_upper s)
  = (let '(neg, rest) := PyFloat.parse_sign s in (neg, ascii_upper rest)).
Proof.
  destruct s as [|c s]; [done|].
  cbn [ascii_upper map PyFloat.parse_sign].
  rewrite (eqb_upper' c_minus c), (eqb_upper' c_plus c)
    by (unfold caseless; tauto).
  destruct (c =? c_minus)%N; [done|]. by destruct (c =? c_plus)%N.
Qed.

Lemma parse_exponent_upper (s : pystr) :
  PyFloat.parse_exponent (ascii_upper s)
  = match PyFloat.parse_exponent s with
    | Some (x, rest) => Some (x, ascii_upper rest)
    | None => None
    end.
Proof.
  destruct s as [|c s]; [done|].
  cbn [ascii_upper map PyFloat.parse_exponent]. rewrite exponent_mark_upper.
  destruct ((c =? c_e) || (c =? c_E))%N; [|done].
  fold (ascii_upper s). rewrite parse_sign_upper.
  destruct (PyFloat.parse_sign s) as [neg rest].
  rewrite digitpart_upper.
  by destruct (PyFloat.digitpart rest 0) as [[[x m] rest']|].
Qed.

Lemma parse_number_upper (s : pystr) :
  PyFloat.parse_number (ascii_upper s)
  = match PyFloat.parse_number s with
    | Some (m, nf, rest) => Some (m, nf, ascii_upper rest)
    | None => None
    end.
Proof.
  unfold PyFloat.parse_number. rewrite digitpart_upper.
  destruct (PyFloat.digitpart s 0) as [[[ip n] rest]|] eqn:Hd.
  - destruct rest as [|c rest]; [done|].
    cbn [ascii_upper map]. rewrite (eqb_upper' c_dot c) by (unfold caseless; tauto).
    destruct (c =? c_dot)%N; [|done].
    fold (ascii_upper rest). rewrite digitpart_upper.
    by destruct (PyFloat.digitpart rest ip) as [[[m nf] rest']|].
  - destruct s as [|c s]; [done|].
    cbn [ascii_upper map]. rewrite (eqb_upper' c_dot c) by (unfold caseless; tauto).
    destruct (c =? c_dot)%N; [|done].
    fold (ascii_upper s). apply digitpart_upper.
Qed.

Lemma of_str_upper (s : pystr) :
  PyFloat.of_str (ascii_upper s) = PyFloat.of_str s.
Proof.
  unfold PyFloat.of_str. rewrite trimmed_upper, parse_sign_upper.
  destruct (PyFloat.parse_sign (PyFloat.trimmed s)) as [neg body].
  rewrite upper_upper.
  destruct (eqb (ascii_upper body) (lit "INF") || eqb (ascii_upper body) (lit "INFINITY"));
    [done|].
  destruct (eqb (ascii_upper body) (lit "NAN")); [done|].
  rewrite parse_number_upper.
  destruct (PyFloat.parse_number body) as [[[m nf] rest]|]; [|done].
  rewrite parse_exponent_upper.
  destruct (PyFloat.parse_exponent rest) as [[x rest']|]; [|done].
  by destruct rest'.
Qed.

(** X16: [convert_to_int] does not see the case of the ASCII letters: a
    text and the same text with its ASCII letters in upper case give the
    same result, so ["1.5k"] and ["2m"] are read like ["1.5K"] and ["2M"]
    (the test of the extractor, which is case-sensitive, never hands them
    over). *)
Theorem convert_to_int_ignores_case (text : pystr) :
  convert_to_int (ascii_upper text) = convert_to_int text.
Proof.
  unfold convert_to_int. destruct text as [|c text]; [done|].
  change (ascii_upper (c :: text)) with (ascii_upper_char c :: ascii_upper text).
  change (ascii_upper_char c :: ascii_upper text) with (ascii_upper (c :: text)).
  set (t := c :: text).
  assert (Hman : caseless c_man) by (unfold caseless; tauto).
  assert (Hcomma : caseless c_comma) by (unfold caseless; tauto).
  rewrite upper_strip, (upper_remove_char c_comma) by done.
  set (u := remove_char c_comma (strip t)).
  rewrite (contains_char_upper c_man) by done.
  rewrite (upper_remove_char c_man) by done.
  rewrite of_str_upper, upper_ascii_upper, strip_non_digits_upper.
  done.
Qed.

Example convert_to_int_lower_case_suffix :
  convert_to_int (lit "1.5k") = Ok 1500 ∧ convert_to_int (lit "2m") = Ok 2000000.
Proof. split; vm_compute; reflexivity. Qed.

(** Beyond ASCII the case does matter: the upper case of a dotless i
    (U+0131) is an ['I'], so that ["ınfK"] is read as an infinity, while
    ["ınf万"], which is not put in upper case, is no number. *)
Example convert_to_int_dotless_i :
  convert_to_int (305%N :: lit "nfK") = Raise OverflowError ∧
  convert_to_int (305%N :: lit "nf" ++ [c_man]) = Ok 0.
Proof. split; vm_compute; reflexivity. Qed.
